(** * Search index backends of the OpenCloud search service

    A shallow embedding of the two index backends of the search service
    (the embedded bleve backend and the clustered OpenSearch backend), of
    their batch operators and of the read path, together with the
    properties of the specification that concern them.

    Layout:
    - [Go]: the functions of the Go standard library and of reva's [utils]
      package the backends call on strings and paths;
    - [Search]: the [Resource] document of [services/search/pkg/search];
    - [Bleve]: [bleve/index.go], [bleve/batch.go], [bleve/backend.go];
    - [OpenSearch]: [opensearch/index.go], [opensearch/batch.go],
      [opensearch/backend.go];
    - [Operator]: the [BatchOperator] interface of [search.go] and its two
      implementations;
    - [Service]: [ParseScope], [convertToWebDAVPermissions] and
      [ResolveReference] of [search.go], and the event handling of
      [service/event/service.go];
    - the theorems, one block per backend, then those on the batch
      operators, the read path and the service. *)

From Stdlib Require Import ZArith Ascii.
From stdpp Require Import gmap strings list fin_maps.

Local Open Scope Z_scope.

(** ** Go standard library and reva helpers *)

Module Go.

(** [strings.HasPrefix(s, prefix)]. *)
Fixpoint HasPrefix (s prefix : string) {struct prefix} : bool :=
  match prefix with
  | EmptyString => true
  | String p prefix' =>
      match s with
      | EmptyString => false
      | String c s' => if Ascii.eqb c p then HasPrefix s' prefix' else false
      end
  end.

(** [s[n:]] for [n <= len(s)]. *)
Fixpoint skip (n : nat) (s : string) : string :=
  match n with
  | O => s
  | S n' => match s with EmptyString => EmptyString | String _ s' => skip n' s' end
  end.

(** [strings.TrimSuffix(s, suffix)]: [s] without the trailing [suffix],
    or [s] itself when it does not end with it. *)
Fixpoint TrimSuffix (s suffix : string) : string :=
  match s with
  | EmptyString => EmptyString
  | String c s' => if String.eqb s suffix then EmptyString else String c (TrimSuffix s' suffix)
  end.

(** [strings.Replace(s, old, new, 1)]: the leftmost occurrence of [old]
    in [s] is replaced by [new]; an empty [old] matches at the start;
    without an occurrence [s] is returned. *)
Fixpoint Replace1 (s old new : string) : string :=
  if HasPrefix s old then new +:+ skip (String.length old) s
  else match s with
       | EmptyString => EmptyString
       | String c s' => String c (Replace1 s' old new)
       end.

(** Java's [String.replace(old, new)], which the painless update script
    of the clustered backend calls: every occurrence is replaced, left to
    right and without overlap. [pending] counts the characters of the
    current occurrence still to drop. *)
Fixpoint replaceAll_from (pending : nat) (s old new : string) : string :=
  match s with
  | EmptyString => EmptyString
  | String c s' =>
      match pending with
      | S n => replaceAll_from n s' old new
      | O =>
          if HasPrefix s old
          then new +:+ replaceAll_from (String.length old - 1) s' old new
          else String c (replaceAll_from O s' old new)
      end
  end.

Fixpoint intersperse (s new : string) : string :=
  match s with
  | EmptyString => new
  | String c s' => new +:+ String c (intersperse s' new)
  end.

Definition replaceAll (s old new : string) : string :=
  match old with
  | EmptyString => intersperse s new
  | _ => replaceAll_from O s old new
  end.

(** [strings.Split(s, "/")]. *)
Fixpoint splitSlash (s : string) : list string :=
  match s with
  | EmptyString => [EmptyString]
  | String c s' =>
      match splitSlash s' with
      | [] => [String c EmptyString]
      | hd :: tl => if Ascii.eqb c "/" then EmptyString :: hd :: tl else String c hd :: tl
      end
  end.

Definition nonEmpty (s : string) : bool := negb (String.eqb s "").

(** [path.Base(p)]: the last element of [p] once trailing slashes are
    removed; ["."] for the empty path and ["/"] for a path of slashes. *)
Definition Base (p : string) : string :=
  if String.eqb p "" then "."
  else match last (filter (fun c => nonEmpty c = true) (splitSlash p)) with
       | Some e => e
       | None => "/"
       end.

(** The elements [path.Clean] keeps of a rooted path: empty elements and
    ["."] vanish, [".."] removes the element before it, if any. *)
Definition cleanStep (stack : list string) (c : string) : list string :=
  if String.eqb c "" then stack
  else if String.eqb c "." then stack
  else if String.eqb c ".." then removelast stack
  else stack ++ [c].

Definition cleanRooted (p : string) : list string :=
  foldl cleanStep [] (splitSlash p).

Fixpoint joinSlash (cs : list string) : string :=
  match cs with
  | [] => ""
  | [c] => c
  | c :: cs' => c +:+ "/" +:+ joinSlash cs'
  end.

(** reva's [utils.MakeRelativePath(p)]: [path.Join("/", p)] prefixed with
    a dot, and ["."] alone for the root. *)
Definition MakeRelativePath (p : string) : string :=
  match cleanRooted p with
  | [] => "."
  | cs => "./" +:+ joinSlash cs
  end.

End Go.

(** ** The indexed document *)

Module Search.

(** Errors of the search service, of its two backends and of the engines
    they talk to. Go's error values carry a message; here each message
    the backends create is a constructor, and [ErrWrap] is
    [fmt.Errorf("<context>: %w", err)]. *)
Inductive error : Type :=
| ErrEntityNotFound                 (* bleve: "entity not found" *)
| ErrDocumentNotFound (id : string) (* opensearch: "document with id %s not found" *)
| ErrBatchSize                      (* "batch size must be greater than 0" *)
| ErrEmptyID                        (* bleve.ErrorEmptyID *)
| ErrEngine                         (* a failure reported by the index engine *)
| ErrValidation (msg : string)      (* a validation error of the query creator *)
| ErrQuery (msg : string)           (* any other error of the query creator *)
| ErrBadRequest (msg : string)      (* errtypes.BadRequest *)
| ErrParseID (id : string)          (* storagespace.ParseID *)
| ErrWrap (context : string) (err : error).

(** [content.Document], without the typed metadata blocks (audio, image,
    location, photo). *)
Record Document : Type := mkDocument {
  Name : string;
  Title : string;
  Size : N;
  Mtime : string;
  MimeType : string;
  Content : string;
  Tags : list string
}.

(** [search.Resource]: the entity that is stored in the index. *)
Record Resource : Type := mkResource {
  Doc : Document;
  ID : string;
  RootID : string;
  Path : string;
  ParentID : string;
  Type_ : N;
  Deleted : bool;
  Hidden : bool
}.

(** [storageProvider.ResourceType_RESOURCE_TYPE_CONTAINER] of the CS3
    API. *)
Definition RESOURCE_TYPE_FILE : N := 1.
Definition RESOURCE_TYPE_CONTAINER : N := 2.

Definition isContainer (r : Resource) : bool :=
  N.eqb (Type_ r) RESOURCE_TYPE_CONTAINER.

(** Field assignments on a [*search.Resource]. *)
Definition setName (name : string) (d : Document) : Document :=
  mkDocument name (Title d) (Size d) (Mtime d) (MimeType d) (Content d) (Tags d).

Definition setPath (p : string) (r : Resource) : Resource :=
  mkResource (Doc r) (ID r) (RootID r) p (ParentID r) (Type_ r) (Deleted r) (Hidden r).

Definition setResourceName (name : string) (r : Resource) : Resource :=
  mkResource (setName name (Doc r)) (ID r) (RootID r) (Path r) (ParentID r)
             (Type_ r) (Deleted r) (Hidden r).

Definition setParentID (parentID : string) (r : Resource) : Resource :=
  mkResource (Doc r) (ID r) (RootID r) (Path r) parentID (Type_ r) (Deleted r) (Hidden r).

Definition setDeleted (state : bool) (r : Resource) : Resource :=
  mkResource (Doc r) (ID r) (RootID r) (Path r) (ParentID r) (Type_ r) state (Hidden r).

Definition setHidden (state : bool) (r : Resource) : Resource :=
  mkResource (Doc r) (ID r) (RootID r) (Path r) (ParentID r) (Type_ r) (Deleted r) state.

(** [provider.ResourceId] and the reference of a search request. *)
Record ResourceId : Type := mkResourceId {
  StorageId : string;
  SpaceId : string;
  OpaqueId : string
}.

Record Reference : Type := mkReference {
  RefResourceId : ResourceId;
  RefPath : string
}.

(** [searchService.SearchIndexRequest]; [PageSize] is an int32. *)
Record SearchIndexRequest : Type := mkSearchIndexRequest {
  Query : string;
  Ref : option Reference;
  PageSize : Z
}.

(** [searchMessage.Match], with the entity fields both backends fill from
    the stored document; the relevance score, the highlights and the
    typed metadata blocks are left out. *)
Record Match : Type := mkMatch {
  MatchRootId : ResourceId;
  MatchPath : string;
  MatchId : ResourceId;
  MatchName : string;
  MatchParentId : ResourceId;
  MatchSize : N;
  MatchType : N;
  MatchMimeType : string;
  MatchDeleted : bool;
  MatchTags : list string
}.

(** [searchService.SearchIndexResponse]; [TotalMatches] is an int32. *)
Record SearchIndexResponse : Type := mkSearchIndexResponse {
  Matches : list Match;
  TotalMatches : Z
}.

(** Integer conversions of Go, with their wrap-around. *)
Definition wrap_uint64 (z : Z) : Z := z mod 2 ^ 64.
Definition wrap_int64 (z : Z) : Z := (z + 2 ^ 63) mod 2 ^ 64 - 2 ^ 63.
Definition to_int32 (z : Z) : Z := (z + 2 ^ 31) mod 2 ^ 32 - 2 ^ 31.

(** [math.MaxInt] on a 64-bit platform. *)
Definition MaxInt : Z := 2 ^ 63 - 1.

(** The first [n] elements of a list, for a Go [int] bound. *)
Fixpoint takeZ {A : Type} (n : Z) (l : list A) : list A :=
  match l with
  | [] => []
  | x :: l' => if n <=? 0 then [] else x :: takeZ (n - 1) l'
  end.

(** The secondary, post-retrieval scope test both backends apply to a
    hit when the request carries a reference: the condition under which
    the hit is skipped and the total decremented. *)
Definition outOfScope (ref : Reference) (path : string) : bool :=
  let hitPath := Go.TrimSuffix path "/" in
  let requestedPath := Go.MakeRelativePath (RefPath ref) in
  let isRoot := String.eqb hitPath requestedPath in
  negb isRoot && negb (String.eqb requestedPath ".")
  && negb (Go.HasPrefix hitPath (requestedPath +:+ "/")).

Definition skipped (ref : option Reference) (path : string) : bool :=
  match ref with
  | Some ref => outOfScope ref path
  | None => false
  end.

Definition IsValidationError (err : error) : bool :=
  match err with ErrValidation _ => true | _ => false end.

Definition errorMessage (err : error) : string :=
  match err with
  | ErrValidation msg | ErrQuery msg | ErrBadRequest msg => msg
  | _ => ""
  end.

End Search.

(** ** The embedded backend *)

Module Bleve.
Import Search.

(** *** The index engine

    The bleve library is an external collaborator. Its index is modelled
    as a finite map from document identifiers to stored documents, with
    the queries the backend builds and their evaluation on the stored
    fields. Fields mapped with the keyword analyzer ([ID], [RootID],
    [Path], [ParentID]) match on their whole value. *)

Definition stringField (field : string) (r : Resource) : option string :=
  if String.eqb field "ID" then Some (ID r)
  else if String.eqb field "RootID" then Some (RootID r)
  else if String.eqb field "Path" then Some (Path r)
  else if String.eqb field "ParentID" then Some (ParentID r)
  else None.

Definition boolField (field : string) (r : Resource) : option bool :=
  if String.eqb field "Deleted" then Some (Deleted r)
  else if String.eqb field "Hidden" then Some (Hidden r)
  else None.

Inductive Clause : Type :=
| BoolFieldQuery (Bool : bool) (FieldVal : string)
| TermQuery (FieldVal : string) (Term : string)
| RootIDQueryString (rootId : string)
    (* bleve.NewQueryStringQuery("RootID:" + rootId) *)
| PathQueryString (lookupPath : string)
    (* bleve.NewQueryStringQuery("Path:" + escapeQuery(lookupPath + "/*")):
       a wildcard query on the whole path, read as any path that starts
       with lookupPath + "/" *)
| Created (q : Resource -> bool)
    (* the query the query creator builds from the request *).

Inductive Query : Type :=
| DocIDQuery (ids : list string)
| ConjunctionQuery (Conjuncts : list Clause).

Definition clauseMatches (c : Clause) (r : Resource) : bool :=
  match c with
  | BoolFieldQuery b field =>
      match boolField field r with Some v => Bool.eqb v b | None => false end
  | TermQuery field term =>
      match stringField field r with Some v => String.eqb v term | None => false end
  | RootIDQueryString rootId => String.eqb (RootID r) rootId
  | PathQueryString lookupPath => Go.HasPrefix (Path r) (lookupPath +:+ "/")
  | Created q => q r
  end.

Definition queryMatches (q : Query) (doc : string * Resource) : bool :=
  match q with
  | DocIDQuery ids => bool_decide (doc.1 ∈ ids)
  | ConjunctionQuery cs => forallb (fun c => clauseMatches c doc.2) cs
  end.

(** [bleve.SearchRequest] and [bleve.SearchResult]. *)
Record SearchRequest : Type := mkSearchRequest {
  ReqQuery : Query;
  ReqSize : Z
}.

(** [bleve.NewSearchRequest(q)]: ten hits by default. *)
Definition NewSearchRequest (q : Query) : SearchRequest := mkSearchRequest q 10.

Record SearchResult : Type := mkSearchResult {
  Hits : list Resource;
  Total : Z
}.

(** [bleve.Batch]: the operations are keyed by document identifier, a
    document to index or [None] for a deletion. *)
Definition Batch_Index (id : string) (r : Resource) (ops : gmap string (option Resource))
  : error + gmap string (option Resource) :=
  if String.eqb id "" then inl ErrEmptyID else inr (<[id := Some r]> ops).

Definition Batch_Delete (id : string) (ops : gmap string (option Resource))
  : gmap string (option Resource) :=
  if String.eqb id "" then ops else <[id := None]> ops.

Definition Batch_Size (ops : gmap string (option Resource)) : Z :=
  Z.of_nat (size ops).

(** The calls the backend makes on the index handle. *)
Inductive Call : Type :=
| CallSearch (req : SearchRequest)
| CallBatch (ops : gmap string (option Resource))
| CallDocCount.

(** [bleve.Index]: the stored documents, whether the engine answers, and
    the calls received so far, latest first. *)
Record Index : Type := mkIndex {
  docs : gmap string Resource;
  healthy : bool;
  calls : list Call
}.

Definition called (c : Call) (ix : Index) : Index :=
  mkIndex (docs ix) (healthy ix) (c :: calls ix).

(** [index.Search(req)]. *)
Definition Index_Search (req : SearchRequest) (ix : Index) : Index * (error + SearchResult) :=
  let ix' := called (CallSearch req) ix in
  if healthy ix then
    let found := filter (fun d => queryMatches (ReqQuery req) d = true) (map_to_list (docs ix)) in
    (ix', inr (mkSearchResult (takeZ (ReqSize req) (map snd found))
                              (Z.of_nat (length found))))
  else (ix', inl ErrEngine).

Definition applyOp (op : option (option Resource)) (stored : option Resource)
  : option Resource :=
  match op with
  | Some (Some r) => Some r
  | Some None => None
  | None => stored
  end.

(** [index.Batch(b)]: every operation of the batch is applied. *)
Definition Index_Batch (ops : gmap string (option Resource)) (ix : Index)
  : Index * option error :=
  if healthy ix then
    (mkIndex (merge applyOp ops (docs ix)) true (CallBatch ops :: calls ix), None)
  else (called (CallBatch ops) ix, Some ErrEngine).

(** [index.DocCount()]: the number of documents in the index. *)
Definition Index_DocCount (ix : Index) : Index * (error + Z) :=
  let ix' := called CallDocCount ix in
  if healthy ix then (ix', inr (Z.of_nat (size (docs ix)))) else (ix', inl ErrEngine).

(** *** bleve/index.go *)

(** [matchToResource]: the fields it reads back from a hit; [Hidden] is
    not among them. The numeric fields come back as [float64] and are
    converted to [uint64]; the model keeps their value. *)
Definition matchToResource (hit : Resource) : Resource :=
  mkResource (mkDocument (Name (Doc hit)) (Title (Doc hit)) (Size (Doc hit))
                         (Mtime (Doc hit)) (MimeType (Doc hit)) (Content (Doc hit))
                         (Tags (Doc hit)))
             (ID hit) (RootID hit) (Path hit) (ParentID hit) (Type_ hit)
             (Deleted hit) false.

Definition searchResourceByID (id : string) (ix : Index) : Index * (error + Resource) :=
  let '(ix, res) := Index_Search (NewSearchRequest (DocIDQuery [id])) ix in
  match res with
  | inl err => (ix, inl err)
  | inr res =>
      match Hits res with
      | [] => (ix, inl ErrEntityNotFound)
      | hit :: _ => (ix, inr (matchToResource hit))
      end
  end.

Definition searchResourcesByPath (rootId lookupPath : string) (ix : Index)
  : Index * (error + list Resource) :=
  let q := ConjunctionQuery [RootIDQueryString rootId; PathQueryString lookupPath] in
  let '(ix, res) := Index_Search (mkSearchRequest q MaxInt) ix in
  match res with
  | inl err => (ix, inl err)
  | inr res => (ix, inr (map matchToResource (Hits res)))
  end.


Definition searchAndUpdateResourcesDeletionState (id : string) (state : bool) (ix : Index)
  : Index * (error + list Resource) :=
  let '(ix, res) := searchResourceByID id ix in
  match res with
  | inl err => (ix, inl err)
  | inr rootResource =>
      let rootResource := setDeleted state rootResource in
      if isContainer rootResource then
        let '(ix, res) := searchResourcesByPath (RootID rootResource) (Path rootResource) ix in
        match res with
        | inl err => (ix, inl err)
        | inr descendantResources =>
            (ix, inr (rootResource :: map (setDeleted state) descendantResources))
        end
      else (ix, inr [rootResource])
  end.

(** *** bleve/batch.go *)

Record Batch : Type := mkBatch {
  batch : gmap string (option Resource);
  index : Index;
  size : Z
}.

Definition NewBatch (ix : Index) (size : Z) : error + Batch :=
  if size <=? 0 then inl ErrBatchSize else inr (mkBatch ∅ ix size).

Definition Push (b : Batch) : Batch * option error :=
  if Batch_Size (batch b) =? 0 then (b, None)
  else
    let '(ix, err) := Index_Batch (batch b) (index b) in
    match err with
    | Some err => (mkBatch (batch b) ix (size b), Some err)
    | None => (mkBatch ∅ ix (size b), None)
    end.

Definition withSizeLimit (f : Batch -> Batch * option error) (b : Batch)
  : Batch * option error :=
  let '(b, err) := f b in
  match err with
  | Some err => (b, Some err)
  | None => if size b <=? Batch_Size (batch b) then Push b else (b, None)
  end.

Definition Upsert (id : string) (r : Resource) : Batch -> Batch * option error :=
  withSizeLimit (fun b =>
    match Batch_Index id r (batch b) with
    | inl err => (b, Some err)
    | inr ops => (mkBatch ops (index b) (size b), None)
    end).

(** [for _, resource := range resources { b.batch.Index(resource.ID, resource) }],
    left at the first error. *)
Fixpoint indexAll (resources : list Resource) (ops : gmap string (option Resource))
  : gmap string (option Resource) * option error :=
  match resources with
  | [] => (ops, None)
  | resource :: rest =>
      match Batch_Index (ID resource) resource ops with
      | inl err => (ops, Some err)
      | inr ops => indexAll rest ops
      end
  end.

Definition stageAll (ix : Index) (res : error + list Resource) (b : Batch)
  : Batch * option error :=
  match res with
  | inl err => (mkBatch (batch b) ix (size b), Some err)
  | inr resources =>
      let '(ops, err) := indexAll resources (batch b) in
      (mkBatch ops ix (size b), err)
  end.

Definition Move (id parentID location : string) : Batch -> Batch * option error :=
  withSizeLimit (fun b =>
    let '(ix, res) := searchResourceByID id (index b) in
    match res with
    | inl err => (mkBatch (batch b) ix (size b), Some err)
    | inr rootResource =>
        let currentPath := Path rootResource in
        let nextPath := Go.MakeRelativePath location in
        let rootResource :=
          setParentID parentID
            (setResourceName (Go.Base nextPath) (setPath nextPath rootResource)) in
        if isContainer rootResource then
          let '(ix, res) := searchResourcesByPath (RootID rootResource) currentPath ix in
          match res with
          | inl err => (mkBatch (batch b) ix (size b), Some err)
          | inr descendantResources =>
              stageAll ix
                (inr (rootResource ::
                      map (fun d => setPath (Go.Replace1 (Path d) currentPath nextPath) d)
                          descendantResources)) b
          end
        else stageAll ix (inr [rootResource]) b
    end).


Definition Delete (id : string) : Batch -> Batch * option error :=
  withSizeLimit (fun b =>
    let '(ix, res) := searchAndUpdateResourcesDeletionState id true (index b) in
    stageAll ix res b).

Definition Restore (id : string) : Batch -> Batch * option error :=
  withSizeLimit (fun b =>
    let '(ix, res) := searchAndUpdateResourcesDeletionState id false (index b) in
    stageAll ix res b).

(** The [add] closure of [Purge]. *)
Definition purgeAdd (onlyDeleted : bool) (affectResources : list Resource) (resource : Resource)
  : list Resource :=
  if onlyDeleted && negb (Deleted resource) then affectResources
  else affectResources ++ [resource].

Definition deleteAll (resources : list Resource) (ops : gmap string (option Resource))
  : gmap string (option Resource) :=
  foldl (fun ops resource => Batch_Delete (ID resource) ops) ops resources.

Definition Purge (id : string) (onlyDeleted : bool) : Batch -> Batch * option error :=
  withSizeLimit (fun b =>
    let '(ix, res) := searchResourceByID id (index b) in
    match res with
    | inl err => (mkBatch (batch b) ix (size b), Some err)
    | inr rootResource =>
        let affectResources := purgeAdd onlyDeleted [] rootResource in
        if isContainer rootResource then
          let '(ix, res) := searchResourcesByPath (RootID rootResource) (Path rootResource) ix in
          match res with
          | inl err => (mkBatch (batch b) ix (size b), Some err)
          | inr descendantResources =>
              let affectResources := foldl (purgeAdd onlyDeleted) affectResources descendantResources in
              (mkBatch (deleteAll affectResources (batch b)) ix (size b), None)
          end
        else (mkBatch (deleteAll affectResources (batch b)) ix (size b), None)
    end).

(** *** bleve/backend.go *)

Definition defaultBatchSize : Z := 50.

(** [queryCreator.Create] turns the query string of the request into a
    bleve query, here its predicate on stored documents, or fails. *)
Record Backend : Type := mkBackend {
  backendIndex : Index;
  queryCreator : string -> error + (Resource -> bool)
}.

Definition withIndex (ix : Index) (b : Backend) : Backend :=
  mkBackend ix (queryCreator b).

(** The [switch] on [sir.PageSize]. *)
Definition requestSize (pageSize : Z) : Z :=
  if pageSize =? -1 then MaxInt
  else if pageSize =? 0 then 200
  else pageSize.

Definition searchQuery (createdQuery : Resource -> bool) (ref : option Reference)
           (FormatResourceID : ResourceId -> string) : Query :=
  ConjunctionQuery
    ([BoolFieldQuery false "Deleted"; Created createdQuery] ++
     match ref with
     | Some ref =>
         [TermQuery "RootID"
            (FormatResourceID (mkResourceId (StorageId (RefResourceId ref))
                                            (SpaceId (RefResourceId ref))
                                            (OpaqueId (RefResourceId ref))))]
     | None => []
     end).

Section StorageSpace.

(** [storagespace.ParseID] and [storagespace.FormatResourceID] of reva. *)
Variable ParseID : string -> option ResourceId.
Variable FormatResourceID : ResourceId -> string.

Definition hitToMatch (rootID rID : ResourceId) (hit : Resource) : Match :=
  mkMatch rootID (Path hit) rID (Name (Doc hit))
          (default (mkResourceId "" "" "") (ParseID (ParentID hit)))
          (Size (Doc hit)) (Type_ hit) (MimeType (Doc hit)) (Deleted hit)
          (Tags (Doc hit)).

(** The loop of [Search] over the hits; [totalMatches] is a uint64. *)
Fixpoint collect (ref : option Reference) (hits : list Resource)
         (matches : list Match) (totalMatches : Z) : error + list Match * Z :=
  match hits with
  | [] => inr (matches, totalMatches)
  | hit :: rest =>
      if skipped ref (Path hit)
      then collect ref rest matches (wrap_uint64 (totalMatches - 1))
      else
        match ParseID (RootID hit) with
        | None => inl (ErrParseID (RootID hit))
        | Some rootID =>
            match ParseID (ID hit) with
            | None => inl (ErrParseID (ID hit))
            | Some rID =>
                collect ref rest (matches ++ [hitToMatch rootID rID hit]) totalMatches
            end
        end
  end.

Definition Search (b : Backend) (sir : SearchIndexRequest)
  : Backend * (error + SearchIndexResponse) :=
  match queryCreator b (Search.Query sir) with
  | inl err =>
      if IsValidationError err then (b, inl (ErrBadRequest (errorMessage err)))
      else (b, inl err)
  | inr createdQuery =>
      let q := searchQuery createdQuery (Ref sir) FormatResourceID in
      let bleveReq := mkSearchRequest q (requestSize (PageSize sir)) in
      let '(ix, res) := Index_Search bleveReq (backendIndex b) in
      match res with
      | inl err => (withIndex ix b, inl err)
      | inr res =>
          match collect (Ref sir) (Hits res) [] (Total res) with
          | inl err => (withIndex ix b, inl err)
          | inr (matches, totalMatches) =>
              (withIndex ix b,
               inr (mkSearchIndexResponse matches (to_int32 totalMatches)))
          end
      end
  end.

End StorageSpace.

Definition DocCount (b : Backend) : Backend * (error + Z) :=
  let '(ix, res) := Index_DocCount (backendIndex b) in
  (withIndex ix b, res).

(** The body the five mutations of the backend share: a batch of the
    default size on the backend's index, the one operation, the push. *)
Definition viaBatch (op : Batch -> Batch * option error) (b : Backend)
  : Backend * option error :=
  match NewBatch (backendIndex b) defaultBatchSize with
  | inl err => (b, Some err)
  | inr batch =>
      let '(batch, err) := op batch in
      match err with
      | Some err => (withIndex (index batch) b, Some err)
      | None =>
          let '(batch, err) := Push batch in
          (withIndex (index batch) b, err)
      end
  end.

Definition Backend_Upsert (id : string) (r : Resource) := viaBatch (Upsert id r).
Definition Backend_Move (rootID parentID location : string) :=
  viaBatch (Move rootID parentID location).
Definition Backend_Delete (id : string) := viaBatch (Delete id).
Definition Backend_Restore (id : string) := viaBatch (Restore id).
Definition Backend_Purge (id : string) (onlyDeleted : bool) := viaBatch (Purge id onlyDeleted).

End Bleve.

(** ** The clustered backend *)

Module OpenSearch.
Import Search.

(** *** The queries and scripts the backend sends *)

Inductive Term : Type :=
| TermString (field value : string)   (* osu.NewTermQuery[string](field).Value(value) *)
| TermBool (field : string) (value : bool).

(** [osu.BoolQuery]: what the KQL conversion put into it, as a predicate
    on stored documents, and the [Must] and [Filter] clauses the backend
    adds. *)
Record BoolQuery : Type := mkBoolQuery {
  converted : option (Resource -> bool);
  must : list Term;
  filter_ : list Term
}.

Definition NewBoolQuery : BoolQuery := mkBoolQuery None [] [].
Definition Must (t : Term) (q : BoolQuery) : BoolQuery :=
  mkBoolQuery (converted q) (must q ++ [t]) (filter_ q).
Definition Filter (t : Term) (q : BoolQuery) : BoolQuery :=
  mkBoolQuery (converted q) (must q) (filter_ q ++ [t]).

Inductive Query : Type :=
| IDsQuery (ids : list string)
| TermQuery (t : Term)
| Bool (q : BoolQuery).

(** [osu.BodyParamScript]: the two painless sources of the batch
    operator, with their parameters. *)
Inductive BodyParamScript : Type :=
| MoveScript (id parentID oldPath newPath newName : string)
| DeletedScript (deleted : bool).

Definition runScript (script : BodyParamScript) (source : Resource) : Resource :=
  match script with
  | MoveScript id parentID oldPath newPath newName =>
      let source :=
        if String.eqb (ID source) id
        then setParentID parentID (setResourceName newName source)
        else source in
      setPath (Go.replaceAll (Path source) oldPath newPath) source
  | DeletedScript deleted => setDeleted deleted source
  end.

(** A line of a bulk request body: the action and the document. *)
Inductive BulkLine : Type :=
| IndexAction (_index _id : string)
| Source (body : Resource).

Inductive Call : Type :=
| CallSearch (q : Query) (size : option Z)
| CallCount (q : Query)
| CallBulk (body : list BulkLine)
| CallUpdateByQuery (q : Query) (script : BodyParamScript)
| CallDeleteByQuery (q : Query).

(** The cluster behind [opensearchgoAPI.Client], with one index: the
    stored documents, whether the cluster answers, and the requests
    received so far, latest first. A write is visible to the request
    that follows it. *)
Record Client : Type := mkClient {
  docs : gmap string Resource;
  healthy : bool;
  calls : list Call
}.

Definition called (c : Call) (cl : Client) : Client :=
  mkClient (docs cl) (healthy cl) (c :: calls cl).

Record SearchResp : Type := mkSearchResp {
  Hits : list Resource;
  Total : Z
}.

Section Engine.

(** How the engine matches a term query on the [Path] field: the query
    value first, the stored path second. The index template that
    decides it is not part of the sources. *)
Variable pathTerm : string -> string -> bool.

Definition termMatches (t : Term) (r : Resource) : bool :=
  match t with
  | TermString field value =>
      if String.eqb field "Path" then pathTerm value (Path r)
      else if String.eqb field "ID" then String.eqb (ID r) value
      else if String.eqb field "RootID" then String.eqb (RootID r) value
      else if String.eqb field "ParentID" then String.eqb (ParentID r) value
      else false
  | TermBool field value =>
      if String.eqb field "Deleted" then Bool.eqb (Deleted r) value
      else if String.eqb field "Hidden" then Bool.eqb (Hidden r) value
      else false
  end.

Definition boolMatches (q : BoolQuery) (r : Resource) : bool :=
  match converted q with Some p => p r | None => true end
  && forallb (fun t => termMatches t r) (must q)
  && forallb (fun t => termMatches t r) (filter_ q).

Definition queryMatches (q : Query) (doc : string * Resource) : bool :=
  match q with
  | IDsQuery ids => bool_decide (doc.1 ∈ ids)
  | TermQuery t => termMatches t doc.2
  | Bool q => boolMatches q doc.2
  end.

Definition found (q : Query) (cl : Client) : list (string * Resource) :=
  filter (fun d => queryMatches q d = true) (map_to_list (docs cl)).

(** [client.Search]: ten hits unless the request says otherwise. *)
Definition Client_Search (q : Query) (size : option Z) (cl : Client)
  : Client * (error + SearchResp) :=
  let cl' := called (CallSearch q size) cl in
  if healthy cl then
    (cl', inr (mkSearchResp (takeZ (default 10 size) (map snd (found q cl)))
                            (Z.of_nat (length (found q cl)))))
  else (cl', inl ErrEngine).

(** [client.Indices.Count]. *)
Definition Client_Count (q : Query) (cl : Client) : Client * (error + Z) :=
  let cl' := called (CallCount q) cl in
  if healthy cl then (cl', inr (Z.of_nat (length (found q cl))))
  else (cl', inl ErrEngine).

(** [client.Bulk]: each action line with the document after it. *)
Fixpoint applyBulk (body : list BulkLine) (stored : gmap string Resource)
  : gmap string Resource :=
  match body with
  | IndexAction _ id :: Source r :: rest => applyBulk rest (<[id := r]> stored)
  | _ => stored
  end.

Definition Client_Bulk (body : list BulkLine) (cl : Client) : Client * option error :=
  if healthy cl then
    (mkClient (applyBulk body (docs cl)) true (CallBulk body :: calls cl), None)
  else (called (CallBulk body) cl, Some ErrEngine).

(** [client.UpdateByQuery], waiting for completion: the script runs on
    the source of every document the query matches. *)
Definition Client_UpdateByQuery (q : Query) (script : BodyParamScript) (cl : Client)
  : Client * option error :=
  if healthy cl then
    (mkClient (map_imap (fun id r =>
                 Some (if queryMatches q (id, r) then runScript script r else r))
                 (docs cl))
              true (CallUpdateByQuery q script :: calls cl), None)
  else (called (CallUpdateByQuery q script) cl, Some ErrEngine).

(** [client.Document.DeleteByQuery], waiting for completion. *)
Definition Client_DeleteByQuery (q : Query) (cl : Client) : Client * option error :=
  if healthy cl then
    (mkClient (filter (fun d => queryMatches q d = false) (docs cl))
              true (CallDeleteByQuery q :: calls cl), None)
  else (called (CallDeleteByQuery q) cl, Some ErrEngine).

(** *** opensearch/index.go *)

Definition searchResourceByID (id : string) (cl : Client) : Client * (error + Resource) :=
  let '(cl, resp) := Client_Search (IDsQuery [id]) None cl in
  match resp with
  | inl err => (cl, inl (ErrWrap "failed to search for resource" err))
  | inr resp =>
      if (Total resp =? 0) || (Z.of_nat (length (Hits resp)) =? 0)
      then (cl, inl (ErrDocumentNotFound id))
      else match Hits resp with
           | [] => (cl, inl (ErrDocumentNotFound id))
           | hit :: _ => (cl, inr hit)
           end
  end.

Definition updateSelfAndDescendants (id : string)
           (scriptProvider : Resource -> BodyParamScript) (cl : Client)
  : Client * option error :=
  let '(cl, res) := searchResourceByID id cl in
  match res with
  | inl err => (cl, Some (ErrWrap "failed to get resource" err))
  | inr resource =>
      let '(cl, err) :=
        Client_UpdateByQuery (TermQuery (TermString "Path" (Path resource)))
                             (scriptProvider resource) cl in
      match err with
      | Some err => (cl, Some (ErrWrap "failed to update by query" err))
      | None => (cl, None)
      end
  end.

(** *** opensearch/batch.go *)

(** A staged operation is one of two kinds of closure: one that yields
    lines for the bulk API, one that talks to the cluster itself. *)
Inductive Operation : Type :=
| BulkOperation (op : unit -> list BulkLine)       (* func() []map[string]any *)
| QueryOperation (op : Client -> Client * option error)   (* func() error *).

Record Batch : Type := mkBatch {
  client : Client;
  index : string;
  size : Z;
  operations : list Operation
}.

Definition NewBatch (cl : Client) (index : string) (size : Z) : error + Batch :=
  if size <=? 0 then inl ErrBatchSize else inr (mkBatch cl index size []).

Definition stage (op : Operation) (b : Batch) : Batch :=
  mkBatch (client b) (index b) (size b) (operations b ++ [op]).

(** The [pushBulkOperations] closure of [Push], on the pending lines. *)
Definition pushBulkOperations (bulkOperations : list BulkLine) (cl : Client)
  : Client * list BulkLine * option error :=
  match bulkOperations with
  | [] => (cl, [], None)
  | _ =>
      let '(cl, err) := Client_Bulk bulkOperations cl in
      match err with
      | Some err =>
          (cl, bulkOperations, Some (ErrWrap "failed to execute bulk operations" err))
      | None => (cl, [], None)
      end
  end.

(** The loop of [Push] over the staged operations. *)
Fixpoint pushOperations (ops : list Operation) (bulkOperations : list BulkLine)
         (cl : Client) : Client * list BulkLine * option error :=
  match ops with
  | [] => (cl, bulkOperations, None)
  | BulkOperation op :: rest => pushOperations rest (bulkOperations ++ op tt) cl
  | QueryOperation op :: rest =>
      let '(cl, bulkOperations, err) := pushBulkOperations bulkOperations cl in
      match err with
      | Some err => (cl, bulkOperations, Some (ErrWrap "failed to push operations" err))
      | None =>
          let '(cl, err) := op cl in
          match err with
          | Some err =>
              (cl, bulkOperations, Some (ErrWrap "failed to execute operation" err))
          | None => pushOperations rest bulkOperations cl
          end
      end
  end.

(** [Push]; the deferred cleanup empties [operations] on every path. *)
Definition Push (b : Batch) : Batch * option error :=
  let '(cl, bulkOperations, err) := pushOperations (operations b) [] (client b) in
  match err with
  | Some err => (mkBatch cl (index b) (size b) [], Some err)
  | None =>
      let '(cl, _, err) := pushBulkOperations bulkOperations cl in
      (mkBatch cl (index b) (size b) [], err)
  end.

Definition withSizeLimit (f : Batch -> Batch * option error) (b : Batch)
  : Batch * option error :=
  let '(b, err) := f b in
  match err with
  | Some err => (b, Some err)
  | None =>
      if size b <=? Z.of_nat (length (operations b)) then Push b else (b, None)
  end.

Definition Upsert (id : string) (r : Resource) : Batch -> Batch * option error :=
  withSizeLimit (fun b =>
    (stage (BulkOperation (fun _ => [IndexAction (index b) id; Source r])) b, None)).

Definition Move (id parentID location : string) : Batch -> Batch * option error :=
  withSizeLimit (fun b =>
    (stage (QueryOperation (updateSelfAndDescendants id (fun rootResource =>
              MoveScript id parentID (Path rootResource)
                         (Go.MakeRelativePath location)
                         (Go.Base (Go.MakeRelativePath location))))) b, None)).

Definition Delete (id : string) : Batch -> Batch * option error :=
  withSizeLimit (fun b =>
    (stage (QueryOperation (updateSelfAndDescendants id (fun _ => DeletedScript true))) b,
     None)).

Definition Restore (id : string) : Batch -> Batch * option error :=
  withSizeLimit (fun b =>
    (stage (QueryOperation (updateSelfAndDescendants id (fun _ => DeletedScript false))) b,
     None)).

Definition purgeQuery (path : string) (onlyDeleted : bool) : BoolQuery :=
  let query := Must (TermString "Path" path) NewBoolQuery in
  if onlyDeleted then Must (TermBool "Deleted" true) query else query.

Definition deleteByQuery (req : Query) (cl : Client) : Client * option error :=
  let '(cl, err) := Client_DeleteByQuery req cl in
  match err with
  | Some err => (cl, Some (ErrWrap "failed to delete by query" err))
  | None => (cl, None)
  end.

Definition Purge (id : string) (onlyDeleted : bool) : Batch -> Batch * option error :=
  withSizeLimit (fun b =>
    let '(cl, res) := searchResourceByID id (client b) in
    let b := mkBatch cl (index b) (size b) (operations b) in
    match res with
    | inl err => (b, Some (ErrWrap "failed to get resource" err))
    | inr resource =>
        let req := Bool (purgeQuery (Path resource) onlyDeleted) in
        (stage (QueryOperation (deleteByQuery req)) b, None)
    end).

(** *** opensearch/backend.go *)

Definition defaultBatchSize : Z := 50.

Record Backend : Type := mkBackend {
  backendIndex : string;
  backendClient : Client
}.

Definition withClient (cl : Client) (b : Backend) : Backend :=
  mkBackend (backendIndex b) cl.

(** The [switch] on [sir.PageSize]. *)
Definition requestSize (pageSize : Z) : Z :=
  if pageSize =? -1 then 1000
  else if pageSize =? 0 then 200
  else pageSize.

Section Convert.

(** [convert.KQLToOpenSearchBoolQuery] and [convert.OpenSearchHitToMatch]
    of the backend's [internal/convert] package, and
    [storagespace.FormatResourceID] of reva. *)
Variable KQLToOpenSearchBoolQuery : string -> error + BoolQuery.
Variable OpenSearchHitToMatch : Resource -> error + Match.
Variable FormatResourceID : ResourceId -> string.

Definition searchQuery (boolQuery : BoolQuery) (ref : option Reference) : BoolQuery :=
  let boolQuery := Filter (TermBool "Deleted" false) boolQuery in
  match ref with
  | Some ref =>
      Filter (TermString "RootID"
                (FormatResourceID (mkResourceId (StorageId (RefResourceId ref))
                                                (SpaceId (RefResourceId ref))
                                                (OpaqueId (RefResourceId ref)))))
             boolQuery
  | None => boolQuery
  end.

(** The loop of [Search] over the hits; [totalMatches] is an int. *)
Fixpoint collect (ref : option Reference) (hits : list Resource)
         (matches : list Match) (totalMatches : Z) : error + list Match * Z :=
  match hits with
  | [] => inr (matches, totalMatches)
  | hit :: rest =>
      match OpenSearchHitToMatch hit with
      | inl err => inl (ErrWrap "failed to convert hit to match" err)
      | inr m =>
          if skipped ref (MatchPath m)
          then collect ref rest matches (wrap_int64 (totalMatches - 1))
          else collect ref rest (matches ++ [m]) totalMatches
      end
  end.

Definition Search (b : Backend) (sir : SearchIndexRequest)
  : Backend * (error + SearchIndexResponse) :=
  match KQLToOpenSearchBoolQuery (Search.Query sir) with
  | inl err =>
      (b, inl (ErrWrap "failed to convert KQL query to OpenSearch bool query" err))
  | inr boolQuery =>
      let boolQuery := searchQuery boolQuery (Ref sir) in
      let '(cl, resp) :=
        Client_Search (Bool boolQuery) (Some (requestSize (PageSize sir)))
                      (backendClient b) in
      match resp with
      | inl err => (withClient cl b, inl (ErrWrap "failed to search" err))
      | inr resp =>
          match collect (Ref sir) (Hits resp) [] (Total resp) with
          | inl err => (withClient cl b, inl err)
          | inr (matches, totalMatches) =>
              (withClient cl b,
               inr (mkSearchIndexResponse matches (to_int32 totalMatches)))
          end
      end
  end.

End Convert.

Definition DocCount (b : Backend) : Backend * (error + Z) :=
  let '(cl, resp) := Client_Count (TermQuery (TermBool "Deleted" false)) (backendClient b) in
  match resp with
  | inl err => (withClient cl b, inl (ErrWrap "failed to count documents" err))
  | inr count => (withClient cl b, inr (wrap_uint64 count))
  end.

(** The body the five mutations of the backend share: a batch of the
    default size on the backend's client, the one operation, the push. *)
Definition viaBatch (op : Batch -> Batch * option error) (b : Backend)
  : Backend * option error :=
  match NewBatch (backendClient b) (backendIndex b) defaultBatchSize with
  | inl err => (b, Some err)
  | inr batch =>
      let '(batch, err) := op batch in
      match err with
      | Some err => (withClient (client batch) b, Some err)
      | None =>
          let '(batch, err) := Push batch in
          (withClient (client batch) b, err)
      end
  end.

Definition Backend_Upsert (id : string) (r : Resource) := viaBatch (Upsert id r).
Definition Backend_Move (id parentID target : string) := viaBatch (Move id parentID target).
Definition Backend_Delete (id : string) := viaBatch (Delete id).
Definition Backend_Restore (id : string) := viaBatch (Restore id).
Definition Backend_Purge (id : string) (onlyDeleted : bool) :=
  viaBatch (Purge id onlyDeleted).

End Engine.

(** Modelled from the spec: the index template of the clustered backend
    is not part of the sources. The spec has the query-addressed
    operations match by path prefix: a term on [Path] matches the
    document at that path and every document below it. *)
Definition pathHierarchy (value path : string) : bool :=
  String.eqb path value || Go.HasPrefix path (value +:+ "/").

End OpenSearch.

(** ** The batch operator interface *)

Module Operator.
Import Search.

(** [search.BatchOperator]: what a caller of either backend stages and
    pushes through. A method takes the batch and returns it with the
    error, since the Go methods change their receiver. *)
Class BatchOperator (B : Type) : Type := {
  Upsert : string -> Resource -> B -> B * option error;
  Move : string -> string -> string -> B -> B * option error;
  Delete : string -> B -> B * option error;
  Restore : string -> B -> B * option error;
  Purge : string -> bool -> B -> B * option error;
  Push : B -> B * option error
}.

(** The [Batch] of [bleve/batch.go] and the [Batch] of
    [opensearch/batch.go] implement the interface; the latter for a given
    semantics of the term query on [Path]. *)
#[global] Instance embedded : BatchOperator Bleve.Batch := {|
  Upsert := Bleve.Upsert;
  Move := Bleve.Move;
  Delete := Bleve.Delete;
  Restore := Bleve.Restore;
  Purge := Bleve.Purge;
  Push := Bleve.Push
|}.

Definition clustered (pathTerm : string -> string -> bool)
  : BatchOperator OpenSearch.Batch := {|
  Upsert := OpenSearch.Upsert;
  Move := OpenSearch.Move pathTerm;
  Delete := OpenSearch.Delete pathTerm;
  Restore := OpenSearch.Restore pathTerm;
  Purge := OpenSearch.Purge pathTerm;
  Push := OpenSearch.Push
|}.

(** A call of one of the five mutations, with its arguments. *)
Inductive Mutation : Type :=
| CallUpsert (id : string) (r : Resource)
| CallMove (id parentID location : string)
| CallDelete (id : string)
| CallRestore (id : string)
| CallPurge (id : string) (onlyDeleted : bool).

Definition call {B : Type} `{BatchOperator B} (m : Mutation) : B -> B * option error :=
  match m with
  | CallUpsert id r => Upsert id r
  | CallMove id parentID location => Move id parentID location
  | CallDelete id => Delete id
  | CallRestore id => Restore id
  | CallPurge id onlyDeleted => Purge id onlyDeleted
  end.

(** A caller that makes calls one after the other on the same batch and
    stops at the first error. *)
Fixpoint callAll {B : Type} `{BatchOperator B} (ms : list Mutation) (b : B)
  : B * option error :=
  match ms with
  | [] => (b, None)
  | m :: rest =>
      let '(b, err) := call m b in
      match err with
      | Some err => (b, Some err)
      | None => callAll rest b
      end
  end.

End Operator.

(** ** The search service around the backends *)

Module Service.
Import Search.

(** *** search.go: [ParseScope] *)

(** A string from the numbers of its bytes. *)
Fixpoint bytes (ns : list nat) : string :=
  match ns with
  | [] => EmptyString
  | n :: ns => String (ascii_of_nat n) (bytes ns)
  end.

(** [strings.Contains(s, substr)]. *)
Fixpoint Contains (s substr : string) : bool :=
  Go.HasPrefix s substr
  || match s with
     | EmptyString => false
     | String _ s' => Contains s' substr
     end.

(** Whether every character of [s] satisfies [p], and whether [s] does
    not start with a character that does. *)
Fixpoint all (p : ascii -> bool) (s : string) : bool :=
  match s with
  | EmptyString => true
  | String c s' => p c && all p s'
  end.

Definition headNot (p : ascii -> bool) (s : string) : bool :=
  match s with
  | EmptyString => true
  | String c _ => negb (p c)
  end.

(** [\s] of Go's regular expressions: tab, line feed, form feed,
    carriage return and space. *)
Definition regexSpace (c : ascii) : bool :=
  bool_decide (nat_of_ascii c ∈ [9; 10; 12; 13; 32]%nat).

(** The character class of [scopeRegex]: anything but a double quote, a
    space, a line feed and a carriage return. *)
Definition scopeChar (c : ascii) : bool :=
  negb (bool_decide (nat_of_ascii c ∈ [34; 32; 10; 13]%nat)).

(** The longest prefix of [s] whose characters satisfy [p], and the
    rest: a greedy star on a character class. *)
Fixpoint span (p : ascii -> bool) (s : string) : string * string :=
  match s with
  | EmptyString => (EmptyString, EmptyString)
  | String c s' =>
      if p c then let '(taken, rest) := span p s' in (String c taken, rest)
      else (EmptyString, s)
  end.

(** [scopeRegex.FindStringSubmatch(query)]: the leftmost match and its
    group. The expression is [scope:], any white space, and as a group
    any characters of the class. It matches wherever [scope:] stands;
    both stars are greedy and neither can fail, so the match at the
    leftmost [scope:] takes all the white space that follows and then all
    the characters of the class. *)
Fixpoint FindStringSubmatch (query : string) : option (string * string) :=
  if Go.HasPrefix query "scope:" then
    let '(white, rest) := span regexSpace (Go.skip 6 query) in
    let '(value, _) := span scopeChar rest in
    Some ("scope:" +:+ white +:+ value, value)
  else
    match query with
    | EmptyString => None
    | String _ query' => FindStringSubmatch query'
    end.

(** [unicode.IsSpace], by the UTF-8 encoding of the code points: the six
    ASCII ones, U+0085, U+00A0, U+1680, U+2000 to U+200A, U+2028, U+2029,
    U+202F, U+205F and U+3000. *)
Definition spaces : list string :=
  map bytes
    ([[9]; [10]; [11]; [12]; [13]; [32]; [194; 133]; [194; 160]; [225; 154; 128]]
     ++ map (fun n => [226; 128; n]) (seq 128 11)
     ++ [[226; 128; 168]; [226; 128; 169]; [226; 128; 175]; [226; 129; 159];
         [227; 128; 128]])%nat.

(** The bytes of [s] after the leading code points whose encoding is in
    [ws]; [pending] counts the bytes of the current code point still to
    drop. *)
Fixpoint trimLeft (ws : list string) (pending : nat) (s : string) : string :=
  match s with
  | EmptyString => EmptyString
  | String c s' =>
      match pending with
      | S n => trimLeft ws n s'
      | O =>
          match find (fun w => Go.HasPrefix s w) ws with
          | Some w => trimLeft ws (String.length w - 1) s'
          | None => s
          end
      end
  end.

(** [strings.TrimSpace(s)]: the white space code points at both ends go.
    A code point ends a string exactly when its encoding does, so the
    right end is the left end of the reversed string. *)
Definition TrimSpace (s : string) : string :=
  String.rev (trimLeft (map String.rev spaces) 0 (String.rev (trimLeft spaces 0 s))).

(** [strings.ReplaceAll(s, old, new)] for a non-empty [old]. *)
Definition ReplaceAll (s old new : string) : string := Go.replaceAll s old new.

Definition ParseScope (query : string) : string * string :=
  match FindStringSubmatch query with
  | Some (cut, value) => (TrimSpace (ReplaceAll query cut ""), TrimSpace value)
  | None => (query, "")
  end.

(** *** search.go: [convertToWebDAVPermissions] *)

(** [provider.ResourcePermissions], the permissions the conversion
    reads. *)
Record ResourcePermissions : Type := mkResourcePermissions {
  ListContainer : bool;
  ListFileVersions : bool;
  ListRecycle : bool;
  Stat : bool;
  GetPath : bool;
  GetQuota : bool;
  InitiateFileDownload : bool;
  Delete : bool;
  InitiateFileUpload : bool;
  RestoreFileVersion : bool;
  RestoreRecycleItem : bool;
  CreateContainer : bool
}.

Section Roles.

(** [grants.PermissionsEqual(p, conversions.NewSecureViewerRole().CS3ResourcePermissions())]
    of reva. *)
Variable isSecureViewer : ResourcePermissions -> bool.

(** The letters are written to a [strings.Builder] in this order. *)
Definition convertToWebDAVPermissions (isShared isMountpoint isDir : bool)
           (p : option ResourcePermissions) : string :=
  match p with
  | None => ""
  | Some p =>
      let b := "" in
      let b := if isShared then b +:+ "S" else b in
      let b := if ListContainer p && ListFileVersions p && ListRecycle p && Stat p
                  && GetPath p && GetQuota p && InitiateFileDownload p
               then b +:+ "R" else b in
      let b := if isMountpoint then b +:+ "M" else b in
      let b := if Delete p then b +:+ "D" else b in
      let b := if InitiateFileUpload p && RestoreFileVersion p && RestoreRecycleItem p
               then let b := b +:+ "NV" in
                    if negb isDir then b +:+ "W" else b
               else b in
      let b := if isDir && ListContainer p && Stat p && CreateContainer p
                  && InitiateFileUpload p
               then b +:+ "CK" else b in
      let b := if isSecureViewer p then b +:+ "X" else b in
      b
  end.

End Roles.

(** *** search.go: [ResolveReference] *)

(** [rpc.Code], as far as [ResolveReference] tells the codes apart, and
    the answer of the gateway's [GetPath]. *)
Inductive Code : Type := CODE_OK | CODE_NOT_FOUND | CODE_INTERNAL.

Record GetPathResponse : Type := mkGetPathResponse {
  StatusCode : Code;
  ResponsePath : string
}.

Definition isOK (c : Code) : bool := match c with CODE_OK => true | _ => false end.

Section Gateway.

(** [gatewaySelector.Next()] either fails or yields a client, whose
    [GetPath] answers for a resource identifier. *)
Variable selectorNext : option error.
Variable gatewayGetPath : ResourceId -> GetPathResponse * option error.

(** The result is the pair the Go function returns: a reference or
    [nil], an error or [nil]. *)
Definition ResolveReference (ref : Reference) (ri : ResourceId)
  : option Reference * option error :=
  if String.eqb (OpaqueId (RefResourceId ref)) (SpaceId (RefResourceId ref))
  then (Some ref, None)
  else
    match selectorNext with
    | Some err => (None, Some err)
    | None =>
        let '(gpRes, err) := gatewayGetPath ri in
        if bool_decide (err <> None) || negb (isOK (StatusCode gpRes))
        then (None, err)
        else (Some (mkReference
                      (mkResourceId (StorageId (RefResourceId ref))
                                    (SpaceId (RefResourceId ref))
                                    (SpaceId (RefResourceId ref)))
                      (Go.MakeRelativePath (ResponsePath gpRes))), None)
    end.

End Gateway.

(** *** service/event/service.go *)

(** The events of reva the service handles, with the fields it reads,
    and any other event. *)
Inductive Event : Type :=
| ItemTrashed (ID : ResourceId) (Ref : Reference)
| ItemPurged (Ref : Reference)
| ItemRestored (Ref : Reference)
| ItemMoved (Ref : Reference)
| TrashbinPurged (Ref : Reference)
| ContainerCreated (Ref : Reference)
| FileTouched (Ref : Reference)
| FileVersionRestored (Ref : Reference)
| TagsAdded (Ref : Reference)
| TagsRemoved (Ref : Reference)
| SpaceRenamed (ID : string)
| FileUploaded (Ref : Reference)
| UploadReady (FileRef : Reference)
| OtherEvent.

(** The types of event, as [events.Unmarshaller] values name them. *)
Inductive EventType : Type :=
| TItemTrashed | TItemPurged | TItemRestored | TItemMoved | TTrashbinPurged
| TContainerCreated | TFileTouched | TFileVersionRestored | TTagsAdded | TTagsRemoved
| TSpaceRenamed | TFileUploaded | TUploadReady.

Definition typeOf (e : Event) : option EventType :=
  match e with
  | ItemTrashed _ _ => Some TItemTrashed
  | ItemPurged _ => Some TItemPurged
  | ItemRestored _ => Some TItemRestored
  | ItemMoved _ => Some TItemMoved
  | TrashbinPurged _ => Some TTrashbinPurged
  | ContainerCreated _ => Some TContainerCreated
  | FileTouched _ => Some TFileTouched
  | FileVersionRestored _ => Some TFileVersionRestored
  | TagsAdded _ => Some TTagsAdded
  | TagsRemoved _ => Some TTagsRemoved
  | SpaceRenamed _ => Some TSpaceRenamed
  | FileUploaded _ => Some TFileUploaded
  | UploadReady _ => Some TUploadReady
  | OtherEvent => None
  end.

(** The events [New] has the service consume. *)
Definition New (asyncUploads : bool) : list EventType :=
  let events := [TItemTrashed; TItemPurged; TItemRestored; TItemMoved; TTrashbinPurged;
                 TContainerCreated; TFileTouched; TFileVersionRestored; TTagsAdded;
                 TTagsRemoved; TSpaceRenamed] in
  if asyncUploads then events ++ [TUploadReady] else events ++ [TFileUploaded].

(** What [processEvent] does, in order: the calls on the event, on the
    searcher and on the debouncer, which is given the event's [Ack] to
    call once the space is indexed. *)
Inductive Action : Type :=
| InProgress
| TrashItem (id : ResourceId)
| PurgeItem (ref : Reference)
| PurgeDeleted (spaceID : string)
| MoveItem (ref : Reference)
| RestoreItem (ref : Reference)
| UpsertItem (ref : Reference)
| Debounce (spaceID : string)
| Ack.

Section Events.

(** [storagespace.FormatResourceID] of reva. *)
Variable FormatResourceID : ResourceId -> string.

Definition getSpaceID (ref : Reference) : string :=
  FormatResourceID (mkResourceId (StorageId (RefResourceId ref))
                                 (SpaceId (RefResourceId ref)) "").

Definition processEvent (e : Event) : list Action * option error :=
  (InProgress ::
   match e with
   | ItemTrashed id ref => [TrashItem id; Debounce (getSpaceID ref)]
   | ItemPurged ref => [PurgeItem ref; Ack]
   | TrashbinPurged ref => [PurgeDeleted (getSpaceID ref); Ack]
   | ItemMoved ref => [MoveItem ref; Debounce (getSpaceID ref)]
   | ItemRestored ref => [RestoreItem ref; Debounce (getSpaceID ref)]
   | ContainerCreated ref => [Debounce (getSpaceID ref)]
   | FileTouched ref => [Debounce (getSpaceID ref)]
   | FileVersionRestored ref => [Debounce (getSpaceID ref)]
   | TagsAdded ref => [UpsertItem ref; Debounce (getSpaceID ref)]
   | TagsRemoved ref => [UpsertItem ref; Debounce (getSpaceID ref)]
   | FileUploaded ref => [Debounce (getSpaceID ref)]
   | UploadReady ref => [Debounce (getSpaceID ref)]
   | SpaceRenamed id => [Debounce id]
   | OtherEvent => []
   end, None).

End Events.

(** The acknowledgements of an event among the actions: [Ack] itself or
    the hand-over of [Ack] to the debouncer. *)
Definition acknowledges (a : Action) : bool :=
  match a with Ack | Debounce _ => true | _ => false end.

End Service.

(** ** Vocabulary of the specification *)

Module Spec.
Import Search.

(** [D] is a descendant of [C]: it lies in the same space and its path
    extends the path of [C] with a separator. *)
Definition isDescendant (C D : Resource) : bool :=
  String.eqb (RootID D) (RootID C) && Go.HasPrefix (Path D) (Path C +:+ "/").

(** The documents of a bleve index are stored under their own, non-empty
    identifier, and there are no more of them than a Go [int] counts. *)
Definition storedUnderID (k : string) (r : Resource) : Prop :=
  ID r = k /\ k <> "".


(** [D] is [C] itself or, for a container [C], one of its descendants. *)
Definition inSubtree (C D : Resource) : bool :=
  String.eqb (ID D) (ID C) || (isContainer C && isDescendant C D).

(** The members of [{C, D1..Dn}] a purge is to remove. *)
Definition purged (onlyDeleted : bool) (r : Resource) : bool :=
  negb onlyDeleted || Deleted r.



(** A match of the embedded backend's response and the hit it was made
    from. *)
Definition madeFrom (ParseID : string -> option ResourceId) (hit : Resource) (m : Match)
  : Prop :=
  exists rootID rID,
    ParseID (RootID hit) = Some rootID /\ ParseID (ID hit) = Some rID /\
    m = Bleve.hitToMatch ParseID rootID rID hit.

End Spec.

(** ** Vocabulary of the further properties *)

Module Terms.
Import Search.

(** The batches a bleve index has received, latest first. *)
Definition batchesSent (ix : Bleve.Index) : list (gmap string (option Resource)) :=
  omap (fun c => match c with Bleve.CallBatch ops => Some ops | _ => None end)
       (Bleve.calls ix).

(** A function on a batch that only stages: it leaves alone the size of
    the batch, the documents and the health of the index, and sends the
    index no batch. *)
Definition readsOnly (f : Bleve.Batch -> Bleve.Batch * option error) : Prop :=
  forall b,
    Bleve.size (f b).1 = Bleve.size b /\
    Bleve.docs (Bleve.index (f b).1) = Bleve.docs (Bleve.index b) /\
    Bleve.healthy (Bleve.index (f b).1) = Bleve.healthy (Bleve.index b) /\
    batchesSent (Bleve.index (f b).1) = batchesSent (Bleve.index b).

(** The operations that write documents back which they read from the
    index. *)
Definition rewrites (m : Operator.Mutation) : bool :=
  match m with
  | Operator.CallMove _ _ _ | Operator.CallDelete _ | Operator.CallRestore _ => true
  | _ => false
  end.

(** [r] is a document of the index as [matchToResource] reads it back,
    changed at most in the fields a move or a change of the deletion
    state assigns. *)
Definition rebuiltFrom (stored : gmap string Resource) (r : Resource) : Prop :=
  exists k hit,
    stored !! k = Some hit /\ ID r = ID hit /\ RootID r = RootID hit /\
    Type_ r = Type_ hit /\ Hidden r = false.

(** The identifiers of a hit the embedded backend must be able to
    parse, and the error of the first one that does not parse. *)
Definition parsable (ParseID : string -> option ResourceId) (hit : Resource) : Prop :=
  is_Some (ParseID (RootID hit)) /\ is_Some (ParseID (ID hit)).

Definition parseError (ParseID : string -> option ResourceId) (hit : Resource)
  : option error :=
  match ParseID (RootID hit) with
  | None => Some (ErrParseID (RootID hit))
  | Some _ =>
      match ParseID (ID hit) with
      | None => Some (ErrParseID (ID hit))
      | Some _ => None
      end
  end.

(** The bodies of the bulk requests a cluster has received, latest
    first; the lines of a bulk request that indexes the documents of a
    list; and the operations their upserts leave staged. *)
Definition bulksSent (cl : OpenSearch.Client) : list (list OpenSearch.BulkLine) :=
  omap (fun c => match c with OpenSearch.CallBulk body => Some body | _ => None end)
       (OpenSearch.calls cl).

Definition indexLines (index : string) (l : list (string * Resource))
  : list OpenSearch.BulkLine :=
  concat (map (fun p => [OpenSearch.IndexAction index p.1; OpenSearch.Source p.2]) l).

Definition upsertOps (index : string) (l : list (string * Resource))
  : list OpenSearch.Operation :=
  map (fun p => OpenSearch.BulkOperation
                  (fun _ => [OpenSearch.IndexAction index p.1; OpenSearch.Source p.2])) l.

End Terms.

(** ** Sample data *)

Module Sample.
Import Search.

Definition document (name : string) : Document := mkDocument name "" 0 "" "" "" [].

(** Two spaces. The first holds a folder, a file and a trashed file below
    it, and a file beside it whose path starts with the folder's; the
    second holds a folder at the same path as the first. *)
Definition docsFolder : Resource :=
  mkResource (document "docs") "s1!docs" "s1" "./docs" "s1" RESOURCE_TYPE_CONTAINER
             false false.
Definition report : Resource :=
  mkResource (document "report.txt") "s1!report" "s1" "./docs/report.txt" "s1!docs"
             RESOURCE_TYPE_FILE false false.
Definition draft : Resource :=
  mkResource (document "draft.txt") "s1!draft" "s1" "./docs/draft.txt" "s1!docs"
             RESOURCE_TYPE_FILE true false.
Definition notes : Resource :=
  mkResource (document "docs.txt") "s1!notes" "s1" "./docs.txt" "s1"
             RESOURCE_TYPE_FILE false false.
Definition otherDocs : Resource :=
  mkResource (document "docs") "s2!docs" "s2" "./docs" "s2" RESOURCE_TYPE_CONTAINER
             false false.

Definition stored : gmap string Resource :=
  <["s1!docs" := docsFolder]> (<["s1!report" := report]> (<["s1!draft" := draft]>
    (<["s1!notes" := notes]> (<["s2!docs" := otherDocs]> ∅)))).

(** The embedded backend on these documents, with a query creator that
    accepts every document, and the same index when the engine fails. *)
Definition index : Bleve.Index := Bleve.mkIndex stored true [].
Definition failing : Bleve.Index := Bleve.mkIndex stored false [].
Definition backend : Bleve.Backend :=
  Bleve.mkBackend index (fun _ => inr (fun _ => true)).

(** The clustered backend on these documents. *)
Definition client : OpenSearch.Client := OpenSearch.mkClient stored true [].
Definition cluster : OpenSearch.Backend := OpenSearch.mkBackend "opencloud" client.

(** Stand-ins for reva's [storagespace] functions and for the conversions
    of the clustered backend, and a request scoped to the folder of the
    first space. *)
Definition ParseID (id : string) : option ResourceId :=
  if String.eqb id "" then None else Some (mkResourceId "" id id).
Definition FormatResourceID (id : ResourceId) : string := SpaceId id.
Definition KQLToOpenSearchBoolQuery (query : string) : error + OpenSearch.BoolQuery :=
  inr OpenSearch.NewBoolQuery.
Definition OpenSearchHitToMatch (hit : Resource) : error + Match :=
  inr (Bleve.hitToMatch ParseID (mkResourceId "" (RootID hit) (RootID hit))
                        (mkResourceId "" (ID hit) (ID hit)) hit).
Definition request : SearchIndexRequest :=
  mkSearchIndexRequest "report" (Some (mkReference (mkResourceId "" "s1" "s1") "/docs")) 0.

End Sample.

(** ** Further sample data *)

Module Cases.
Import Search.

(** An index with a file that is hidden, and one with a document whose
    identifier is empty; a request for everything, with the default page
    size. *)
Definition hiddenReport : Resource := setHidden true Sample.report.
Definition hiding : Bleve.Backend :=
  Bleve.mkBackend (Bleve.mkIndex (<["s1!report" := hiddenReport]> ∅) true [])
                  (fun _ => inr (fun _ => true)).

Definition nameless : Resource :=
  mkResource (Sample.document "x") "" "s1" "./x" "s1" RESOURCE_TYPE_FILE false false.
Definition broken : Bleve.Backend :=
  Bleve.mkBackend
    (Bleve.mkIndex (<["k" := nameless]> (<["s1!notes" := Sample.notes]> ∅)) true [])
    (fun _ => inr (fun _ => true)).
Definition everything : SearchIndexRequest := mkSearchIndexRequest "" None 0.

(** A batch of the clustered backend with room for two operations and
    one staged, and an event of a trashed folder. *)
Definition oneStaged : OpenSearch.Batch :=
  OpenSearch.mkBatch Sample.client "opencloud" 2
                     [OpenSearch.QueryOperation (fun cl => (cl, None))].

Definition trashed : Service.Event :=
  Service.ItemTrashed (mkResourceId "" "s1" "docs")
                      (mkReference (mkResourceId "" "s1" "s1") "./docs").

End Cases.

(** * Properties *)

(** ** Strings and paths *)

Module GoFacts.
Import Go.

Lemma append_cons (c : ascii) (s t : string) : String c s +:+ t = String c (s +:+ t).
Proof. reflexivity. Qed.

Lemma append_nil_l (t : string) : "" +:+ t = t.
Proof. reflexivity. Qed.

Lemma append_assoc (s t u : string) : (s +:+ t) +:+ u = s +:+ t +:+ u.
Proof. induction s as [|c s IH]; [done|]. by rewrite !append_cons, IH. Qed.

Lemma HasPrefix_app (p t : string) : HasPrefix (p +:+ t) p = true.
Proof.
  induction p as [|c p IH]; [reflexivity|].
  rewrite append_cons. simpl. by rewrite Ascii.eqb_refl.
Qed.







Lemma TrimSuffix_no_slash (s : string) (c : ascii) :
  c <> "/"%char -> TrimSuffix (s +:+ String c "") "/" = s +:+ String c "".
Proof.
  intros Hc. induction s as [|d s IH].
  - simpl. destruct (Ascii.eqb c "/") eqn:E; [by apply Ascii.eqb_eq in E|done].
  - rewrite append_cons.
    change (TrimSuffix (String d (s +:+ String c "")) "/")
      with (if String.eqb (String d (s +:+ String c "")) "/" then EmptyString
            else String d (TrimSuffix (s +:+ String c "") "/")).
    rewrite IH.
    destruct (String.eqb_spec (String d (s +:+ String c "")) "/") as [E|_]; [|done].
    exfalso. injection E as _ E. by destruct s.
Qed.

End GoFacts.

(** ** The read path *)

Module SearchFacts.
Import Search.

Lemma to_int32_congr (x y k : Z) : x = y + k * 2 ^ 32 -> to_int32 x = to_int32 y.
Proof.
  intros ->. unfold to_int32.
  replace (y + k * 2 ^ 32 + 2 ^ 31) with (y + 2 ^ 31 + k * 2 ^ 32) by lia.
  by rewrite Z_mod_plus_full.
Qed.

Lemma to_int32_wrap_uint64 (a b : Z) : to_int32 (wrap_uint64 a - b) = to_int32 (a - b).
Proof.
  apply (to_int32_congr _ _ (- (a / 2 ^ 64) * 2 ^ 32)). unfold wrap_uint64.
  pose proof (Z.div_mod a (2 ^ 64)) as H.
  change (2 ^ 64) with 18446744073709551616 in *.
  change (2 ^ 32) with 4294967296 in *. lia.
Qed.

Lemma to_int32_wrap_int64 (a b : Z) : to_int32 (wrap_int64 a - b) = to_int32 (a - b).
Proof.
  apply (to_int32_congr _ _ (- ((a + 2 ^ 63) / 2 ^ 64) * 2 ^ 32)). unfold wrap_int64.
  pose proof (Z.div_mod (a + 2 ^ 63) (2 ^ 64)) as H.
  change (2 ^ 64) with 18446744073709551616 in *.
  change (2 ^ 63) with 9223372036854775808 in *.
  change (2 ^ 32) with 4294967296 in *. lia.
Qed.




Lemma elem_of_takeZ {A : Type} (n : Z) (l : list A) (x : A) : x ∈ takeZ n l -> x ∈ l.
Proof.
  revert n. induction l as [|y l IH]; intros n; simpl; [done|].
  destruct (n <=? 0); [by intros ?%elem_of_nil|].
  intros [->|H]%elem_of_cons; [by left|right; eauto].
Qed.

End SearchFacts.

(** ** Finite maps as document stores *)

Module IndexFacts.
Import Search.


Lemma NoDup_all_eq {A : Type} (l : list A) (x : A) :
  NoDup l -> (forall y, y ∈ l -> y = x) -> x ∈ l -> l = [x].
Proof.
  intros Hnd Hall Hin. destruct l as [|a [|b l]].
  - by apply elem_of_nil in Hin.
  - f_equal. apply Hall. by left.
  - exfalso. apply NoDup_cons in Hnd as [Hnotin _]. apply Hnotin.
    rewrite (Hall a), (Hall b); [by left|by right; left|by left].
Qed.

Lemma elem_of_found (P : string * Resource -> Prop) `{!forall d, Decision (P d)}
      (m : gmap string Resource) (k : string) (r : Resource) :
  (k, r) ∈ filter P (map_to_list m) <-> m !! k = Some r /\ P (k, r).
Proof. rewrite list_elem_of_filter, elem_of_map_to_list. tauto. Qed.


Lemma found_by_key (m : gmap string Resource) (id : string) (C : Resource) :
  m !! id = Some C ->
  filter (fun d : string * Resource => bool_decide (d.1 ∈ [id]) = true) (map_to_list m)
  = [(id, C)].
Proof.
  intros Hid. apply NoDup_all_eq.
  - apply NoDup_filter, NoDup_map_to_list.
  - intros [k r] H. apply elem_of_found in H as [Hk Hq]. simpl in Hq.
    apply bool_decide_eq_true in Hq. apply list_elem_of_singleton in Hq as ->.
    congruence.
  - apply elem_of_found. split; [done|]. simpl.
    apply bool_decide_eq_true. by apply list_elem_of_singleton.
Qed.

Lemma found_by_key_none (m : gmap string Resource) (id : string) :
  m !! id = None ->
  filter (fun d : string * Resource => bool_decide (d.1 ∈ [id]) = true) (map_to_list m)
  = [].
Proof.
  intros Hid. destruct (filter _ _) as [|[k r] l] eqn:E; [done|].
  assert ((k, r) ∈ filter (fun d : string * Resource => bool_decide (d.1 ∈ [id]) = true)
                          (map_to_list m))
    as H by (rewrite E; by left).
  apply elem_of_found in H as [Hk Hq]. simpl in Hq.
  apply bool_decide_eq_true in Hq. apply list_elem_of_singleton in Hq as ->. congruence.
Qed.

End IndexFacts.

(** ** The embedded backend *)

Module BleveFacts.
Import Search Bleve Spec IndexFacts.

Lemma found_by_id (m : gmap string Resource) (id : string) (C : Resource) :
  m !! id = Some C ->
  filter (fun d => queryMatches (DocIDQuery [id]) d = true) (map_to_list m) = [(id, C)].
Proof. exact (found_by_key m id C). Qed.

Lemma found_by_id_none (m : gmap string Resource) (id : string) :
  m !! id = None ->
  filter (fun d => queryMatches (DocIDQuery [id]) d = true) (map_to_list m) = [].
Proof. exact (found_by_key_none m id). Qed.

Lemma searchResourceByID_found (ix : Index) (id : string) (C : Resource) :
  healthy ix = true -> docs ix !! id = Some C ->
  searchResourceByID id ix
  = (called (CallSearch (NewSearchRequest (DocIDQuery [id]))) ix, inr (matchToResource C)).
Proof.
  intros Hh Hid. unfold searchResourceByID, Index_Search. rewrite Hh.
  pose proof (found_by_id _ _ _ Hid) as E. simpl in *. by rewrite E.
Qed.

Lemma searchResourceByID_missing (ix : Index) (id : string) :
  healthy ix = true -> docs ix !! id = None ->
  searchResourceByID id ix
  = (called (CallSearch (NewSearchRequest (DocIDQuery [id]))) ix, inl ErrEntityNotFound).
Proof.
  intros Hh Hid. unfold searchResourceByID, Index_Search. rewrite Hh.
  pose proof (found_by_id_none _ _ Hid) as E. simpl in *. by rewrite E.
Qed.








Lemma lookup_applied (ops : gmap string (option Resource)) (stored : gmap string Resource)
      (k : string) :
  merge applyOp ops stored !! k = applyOp (ops !! k) (stored !! k).
Proof. rewrite lookup_merge. by destruct (ops !! k), (stored !! k). Qed.

Lemma applied_empty (stored : gmap string Resource) : merge applyOp ∅ stored = stored.
Proof. apply map_eq. intros k. by rewrite lookup_applied, lookup_empty. Qed.

Lemma Batch_Size_zero (ops : gmap string (option Resource)) :
  Batch_Size ops = 0 <-> ops = ∅.
Proof. unfold Batch_Size. rewrite <- map_size_empty_iff. lia. Qed.

(** A mutation of the backend whose staging succeeds on a healthy index
    ends with the staged operations applied to the index, whether the
    size limit or the final push flushed them. *)
Lemma viaBatch_staged (f : Batch -> Batch * option error) (b : Backend)
      (ops : gmap string (option Resource)) (ix' : Index) :
  f (mkBatch ∅ (backendIndex b) defaultBatchSize) = (mkBatch ops ix' defaultBatchSize, None) ->
  healthy ix' = true ->
  exists ix'', viaBatch (withSizeLimit f) b = (withIndex ix'' b, None)
               /\ docs ix'' = merge applyOp ops (docs ix')
               /\ healthy ix'' = true.
Proof.
  intros Hf Hh. unfold viaBatch, NewBatch. simpl. unfold withSizeLimit. rewrite Hf.
  cbn [size batch].
  destruct (Z.eqb_spec (Batch_Size ops) 0) as [E0|N0].
  - assert (ops = ∅) as -> by (by apply Batch_Size_zero).
    replace (defaultBatchSize <=? Batch_Size ∅) with false by done.
    unfold Push. cbn [batch]. rewrite E0. simpl.
    exists ix'. by rewrite applied_empty.
  - destruct (defaultBatchSize <=? Batch_Size ops) eqn:E.
    + unfold Push at 1. cbn [batch index size].
      destruct (Z.eqb_spec (Batch_Size ops) 0); [done|].
      unfold Index_Batch. rewrite Hh. unfold Push. simpl.
      eexists. split; [reflexivity|]. done.
    + unfold Push. cbn [batch index size].
      destruct (Z.eqb_spec (Batch_Size ops) 0); [done|].
      unfold Index_Batch. rewrite Hh. simpl.
      eexists. split; [reflexivity|]. done.
Qed.








Lemma purged_matchToResource (onlyDeleted : bool) (r : Resource) :
  purged onlyDeleted (matchToResource r) = purged onlyDeleted r.
Proof. done. Qed.






(** *** The push of a batch *)

Lemma embedded_Push_empty (b : Batch) : batch b = ∅ -> Push b = (b, None).
Proof. intros E. unfold Push. by rewrite E. Qed.

Lemma embedded_Push_ok_empties (b b' : Batch) : Push b = (b', None) -> batch b' = ∅.
Proof.
  unfold Push. destruct (Z.eqb_spec (Batch_Size (batch b)) 0) as [E|E].
  - intros [= <-]. by apply Batch_Size_zero.
  - destruct (Index_Batch _ _) as [ix [err|]]; [done|]. by intros [= <-].
Qed.

(** A push that fails leaves the batch as it was staged. *)
Lemma embedded_Push_failure_keeps (b : Batch) :
  batch b <> ∅ -> healthy (index b) = false ->
  Push b = (mkBatch (batch b) (called (CallBatch (batch b)) (index b)) (size b),
            Some ErrEngine).
Proof.
  intros Hne Hh. unfold Push.
  destruct (Z.eqb_spec (Batch_Size (batch b)) 0) as [E|E];
    [by apply Batch_Size_zero in E|].
  unfold Index_Batch. by rewrite Hh.
Qed.

(** *** Search *)

Lemma Index_Search_hits (req : SearchRequest) (ix ix' : Index) (res : SearchResult) :
  Index_Search req ix = (ix', inr res) ->
  forall hit, hit ∈ Hits res ->
    exists k, docs ix !! k = Some hit /\ queryMatches (ReqQuery req) (k, hit) = true.
Proof.
  unfold Index_Search. destruct (healthy ix); [|done]. intros [= <- <-] hit Hhit.
  cbn [Hits] in Hhit. apply SearchFacts.elem_of_takeZ in Hhit.
  apply list_elem_of_fmap in Hhit as [[k h] [-> Hin]].
  apply elem_of_found in Hin as [Hk Hq]. by exists k.
Qed.

(** The query of [Search] carries the clause on [Deleted], the created
    query and, with a reference, the clause on [RootID]. *)
Lemma searchQuery_matches (createdQuery : Resource -> bool) (ref : option Reference)
      (FormatResourceID : ResourceId -> string) (k : string) (hit : Resource) :
  queryMatches (searchQuery createdQuery ref FormatResourceID) (k, hit) = true ->
  Deleted hit = false /\ createdQuery hit = true /\
  forall r, ref = Some r -> RootID hit = FormatResourceID (RefResourceId r).
Proof.
  unfold searchQuery. cbn [queryMatches forallb app clauseMatches snd boolField String.eqb
                            Ascii.eqb Bool.eqb].
  intros H. apply andb_true_iff in H as [Hd H]. apply andb_true_iff in H as [Hc H].
  split; [by destruct (Deleted hit)|]. split; [done|].
  intros r ->. simpl in H. apply andb_true_iff in H as [H _].
  apply String.eqb_eq in H. rewrite H. by destruct r as [[? ? ?] ?].
Qed.

Section SearchResult.
Variable ParseID : string -> option ResourceId.
Variable FormatResourceID : ResourceId -> string.

Lemma embedded_collect_spec (ref : option Reference) (hits : list Resource)
      (acc : list Match) (total : Z) (ms : list Match) (t : Z) :
  collect ParseID ref hits acc total = inr (ms, t) ->
  exists new,
    ms = acc ++ new /\
    Forall2 (madeFrom ParseID) (filter (fun h => skipped ref (Path h) = false) hits) new /\
    to_int32 t
    = to_int32 (total - Z.of_nat (length (filter (fun h => skipped ref (Path h) = true) hits))).
Proof.
  revert acc total. induction hits as [|hit rest IH]; intros acc total Hc; simpl in Hc.
  - injection Hc as <- <-. exists []. rewrite app_nil_r. split; [done|].
    split; [constructor|]. simpl. f_equal. lia.
  - rewrite !filter_cons. destruct (skipped ref (Path hit)) eqn:Hs.
    + destruct (IH _ _ Hc) as (new & -> & Hnew & Ht). exists new.
      split; [done|]. split; [by rewrite decide_False|].
      rewrite decide_True by done. rewrite Ht. simpl length.
      rewrite SearchFacts.to_int32_wrap_uint64. f_equal. lia.
    + destruct (ParseID (RootID hit)) as [rootID|] eqn:Hroot; [|done].
      destruct (ParseID (ID hit)) as [rID|] eqn:Hid; [|done].
      destruct (IH _ _ Hc) as (new & -> & Hnew & Ht).
      exists (hitToMatch ParseID rootID rID hit :: new).
      split; [by rewrite <- app_assoc|]. split.
      * rewrite decide_True by done. constructor; [|done].
        by exists rootID, rID.
      * by rewrite decide_False.
Qed.

(** A search that answers: the hits are documents of the index that
    match the query; the matches are made from the hits the scope test
    keeps, in their order; the total is the engine's, one less for every
    hit the scope test skips. *)
Lemma embedded_Search_ok (b b' : Backend) (sir : SearchIndexRequest)
      (resp : SearchIndexResponse) :
  Search ParseID FormatResourceID b sir = (b', inr resp) ->
  exists createdQuery hits total,
    queryCreator b (Search.Query sir) = inr createdQuery /\
    Index_Search (mkSearchRequest (searchQuery createdQuery (Ref sir) FormatResourceID)
                                  (requestSize (PageSize sir))) (backendIndex b)
    = (backendIndex b', inr (mkSearchResult hits total)) /\
    (forall hit, hit ∈ hits ->
       exists k, docs (backendIndex b) !! k = Some hit /\
                 queryMatches (searchQuery createdQuery (Ref sir) FormatResourceID)
                              (k, hit) = true) /\
    Forall2 (madeFrom ParseID)
            (filter (fun h => skipped (Ref sir) (Path h) = false) hits) (Matches resp) /\
    TotalMatches resp
    = to_int32 (total - Z.of_nat (length (filter (fun h => skipped (Ref sir) (Path h) = true)
                                                 hits))).
Proof.
  unfold Search. destruct (queryCreator b (Search.Query sir)) as [err|createdQuery] eqn:Hq.
  { by destruct (IsValidationError err). }
  destruct (Index_Search _ _) as [ix [err|res]] eqn:Hs; [done|].
  destruct (collect _ _ _ _ _) as [err|[ms t]] eqn:Hc; [done|].
  intros [= <- <-]. exists createdQuery, (Hits res), (Total res).
  split; [done|]. split; [by destruct res|]. split.
  - intros hit Hhit. exact (Index_Search_hits _ _ _ _ Hs hit Hhit).
  - apply embedded_collect_spec in Hc as (new & -> & Hnew & Ht). done.
Qed.

End SearchResult.

End BleveFacts.

(** ** The clustered backend *)

Module OpenSearchFacts.
Import Search OpenSearch Spec IndexFacts.

(** *** The push of a batch *)






Lemma pushBulkOperations_healthy (l : BulkLine) (bulk : list BulkLine) (cl : Client) :
  healthy cl = true ->
  pushBulkOperations (l :: bulk) cl
  = (mkClient (applyBulk (l :: bulk) (docs cl)) true (CallBulk (l :: bulk) :: calls cl),
     [], None).
Proof. intros Hh. unfold pushBulkOperations, Client_Bulk. by rewrite Hh. Qed.

Section Scenario.
Variable pathTerm : string -> string -> bool.

Lemma deleteByQuery_healthy (req : Query) (cl : Client) :
  healthy cl = true ->
  deleteByQuery pathTerm req cl
  = (mkClient (filter (fun d => queryMatches pathTerm req d = false) (docs cl)) true
              (CallDeleteByQuery req :: calls cl), None).
Proof. intros Hh. unfold deleteByQuery, Client_DeleteByQuery. by rewrite Hh. Qed.


End Scenario.

(** *** Lookups and purges *)

Section Engine.
Variable pathTerm : string -> string -> bool.

Lemma client_searchResourceByID_found (cl : Client) (id : string) (C : Resource) :
  healthy cl = true -> docs cl !! id = Some C ->
  searchResourceByID pathTerm id cl = (called (CallSearch (IDsQuery [id]) None) cl, inr C).
Proof.
  intros Hh Hid. unfold searchResourceByID, Client_Search, found. rewrite Hh.
  pose proof (found_by_key _ _ _ Hid) as E. simpl in *. by rewrite E.
Qed.

Lemma client_searchResourceByID_missing (cl : Client) (id : string) :
  healthy cl = true -> docs cl !! id = None ->
  searchResourceByID pathTerm id cl
  = (called (CallSearch (IDsQuery [id]) None) cl, inl (ErrDocumentNotFound id)).
Proof.
  intros Hh Hid. unfold searchResourceByID, Client_Search, found. rewrite Hh.
  pose proof (found_by_key_none _ _ Hid) as E. simpl in *. by rewrite E.
Qed.

Lemma purgeQuery_matches (path : string) (onlyDeleted : bool) (doc : string * Resource) :
  queryMatches pathTerm (Bool (purgeQuery path onlyDeleted)) doc
  = pathTerm path (Path doc.2) && (negb onlyDeleted || Deleted doc.2).
Proof.
  destruct doc as [k D]. unfold purgeQuery.
  destruct onlyDeleted; unfold queryMatches, boolMatches, Must, NewBoolQuery; simpl.
  - by destruct (pathTerm path (Path D)), (Deleted D).
  - by destruct (pathTerm path (Path D)).
Qed.

(** What [Purge] does on the clustered backend: every document whose
    path the term query on the resource's path matches, and which is
    deleted when only deleted documents are to go, is removed, whatever
    its space. *)
Lemma client_Purge_removes (b : Backend) (id : string) (C : Resource) (onlyDeleted : bool) :
  healthy (backendClient b) = true ->
  docs (backendClient b) !! id = Some C ->
  exists b',
    Backend_Purge pathTerm id onlyDeleted b = (b', None) /\
    forall k,
      docs (backendClient b') !! k
      = match docs (backendClient b) !! k with
        | Some D =>
            if pathTerm (Path C) (Path D) && (negb onlyDeleted || Deleted D)
            then None else Some D
        | None => None
        end.
Proof.
  intros Hh HC. unfold Backend_Purge, viaBatch, NewBatch. simpl.
  unfold Purge, withSizeLimit. cbn [client index size operations].
  rewrite (client_searchResourceByID_found _ _ _ Hh HC).
  unfold stage. cbn [operations size length app client index].
  replace (defaultBatchSize <=? Z.of_nat 1) with false by done.
  unfold Push. cbn [operations client index size pushOperations pushBulkOperations].
  rewrite deleteByQuery_healthy by done.
  cbn [pushBulkOperations]. eexists. split; [reflexivity|].
  intros k. cbn [backendClient withClient client docs called].
  destruct (docs (backendClient b) !! k) as [D|] eqn:HD.
  - pose proof (purgeQuery_matches (Path C) onlyDeleted (k, D)) as Hq. simpl in Hq.
    destruct (pathTerm (Path C) (Path D) && (negb onlyDeleted || Deleted D)) eqn:E.
    + apply map_lookup_filter_None. right. intros D' HD'. simpl.
      assert (D' = D) as -> by congruence. rewrite Hq. done.
    + apply map_lookup_filter_Some. split; [done|]. simpl. by rewrite Hq.
  - apply map_lookup_filter_None. by left.
Qed.

End Engine.

(** *** The state of a batch after a push *)

Lemma clustered_Push_clears (b : Batch) : operations (Push b).1 = [].
Proof.
  unfold Push. destruct (pushOperations _ _ _) as [[cl bulk] [err|]]; [done|].
  by destruct (pushBulkOperations bulk cl) as [[cl' bulk'] err].
Qed.

Lemma clustered_Push_empty (b : Batch) : operations b = [] -> Push b = (b, None).
Proof. intros E. destruct b as [cl ix sz ops]. simpl in E. by subst ops. Qed.

(** *** Search *)

Section SearchResult.
Variable pathTerm : string -> string -> bool.
Variable KQLToOpenSearchBoolQuery : string -> error + BoolQuery.
Variable OpenSearchHitToMatch : Resource -> error + Match.
Variable FormatResourceID : ResourceId -> string.

Lemma Client_Search_hits (q : Query) (size : option Z) (cl cl' : Client)
      (resp : SearchResp) :
  Client_Search pathTerm q size cl = (cl', inr resp) ->
  forall hit, hit ∈ Hits resp ->
    exists k, docs cl !! k = Some hit /\ queryMatches pathTerm q (k, hit) = true.
Proof.
  unfold Client_Search, found. destruct (healthy cl); [|done]. intros [= <- <-] hit Hhit.
  cbn [Hits] in Hhit. apply SearchFacts.elem_of_takeZ in Hhit.
  apply list_elem_of_fmap in Hhit as [[k h] [-> Hin]].
  apply elem_of_found in Hin as [Hk Hq]. by exists k.
Qed.

(** The query of [Search] carries the filter on [Deleted] and, with a
    reference, the filter on [RootID], whatever the conversion of the
    request's query put into it. *)
Lemma clustered_searchQuery_matches (boolQuery : BoolQuery) (ref : option Reference)
      (hit : Resource) :
  boolMatches pathTerm (searchQuery FormatResourceID boolQuery ref) hit = true ->
  Deleted hit = false /\
  forall r, ref = Some r -> RootID hit = FormatResourceID (RefResourceId r).
Proof.
  unfold boolMatches. intros H. apply andb_true_iff in H as [_ H].
  assert (forall t, termMatches pathTerm (TermBool "Deleted" false) hit && t = true ->
                    Deleted hit = false) as Hdel.
  { intros t Ht. apply andb_true_iff in Ht as [Ht _]. simpl in Ht.
    by destruct (Deleted hit). }
  destruct ref as [r|]; unfold searchQuery, Filter in H; cbn [filter_] in H;
    rewrite !forallb_app in H; cbn [forallb] in H.
  - apply andb_true_iff in H as [H Hroot]. apply andb_true_iff in H as [_ H].
    split; [by apply (Hdel true)|].
    intros r' [= <-]. apply andb_true_iff in Hroot as [Hroot _]. simpl in Hroot.
    apply String.eqb_eq in Hroot. rewrite Hroot. by destruct r as [[? ? ?] ?].
  - apply andb_true_iff in H as [_ H]. split; [by apply (Hdel true)|done].
Qed.

Lemma clustered_collect_spec (ref : option Reference) (hits : list Resource)
      (acc : list Match) (total : Z) (ms : list Match) (t : Z) :
  collect OpenSearchHitToMatch ref hits acc total = inr (ms, t) ->
  exists converted,
    Forall2 (fun h m => OpenSearchHitToMatch h = inr m) hits converted /\
    ms = acc ++ filter (fun m => skipped ref (MatchPath m) = false) converted /\
    to_int32 t
    = to_int32 (total - Z.of_nat (length (filter (fun m => skipped ref (MatchPath m) = true)
                                                 converted))).
Proof.
  revert acc total. induction hits as [|hit rest IH]; intros acc total Hc; simpl in Hc.
  - injection Hc as <- <-. exists []. rewrite app_nil_r. split; [constructor|].
    split; [done|]. simpl. f_equal. lia.
  - destruct (OpenSearchHitToMatch hit) as [err|m] eqn:Hm; [done|].
    destruct (skipped ref (MatchPath m)) eqn:Hs;
      destruct (IH _ _ Hc) as (converted & Hconv & -> & Ht);
      exists (m :: converted); (split; [by constructor|]); rewrite !filter_cons.
    + rewrite decide_False, decide_True by done || congruence. split; [done|].
      rewrite Ht. simpl length. rewrite SearchFacts.to_int32_wrap_int64. f_equal. lia.
    + rewrite decide_True, decide_False by done || congruence.
      split; [by rewrite <- app_assoc|done].
Qed.

(** A search that answers: the hits are documents of the index that
    match the query; the matches are the converted hits the scope test
    keeps, in their order; the total is the engine's, one less for every
    hit the scope test skips. *)
Lemma clustered_Search_ok (b b' : Backend) (sir : SearchIndexRequest)
      (resp : SearchIndexResponse) :
  Search pathTerm KQLToOpenSearchBoolQuery OpenSearchHitToMatch FormatResourceID b sir
  = (b', inr resp) ->
  exists boolQuery hits total converted,
    KQLToOpenSearchBoolQuery (Search.Query sir) = inr boolQuery /\
    Client_Search pathTerm (Bool (searchQuery FormatResourceID boolQuery (Ref sir)))
                  (Some (requestSize (PageSize sir))) (backendClient b)
    = (backendClient b', inr (mkSearchResp hits total)) /\
    (forall hit, hit ∈ hits ->
       exists k, docs (backendClient b) !! k = Some hit /\
                 boolMatches pathTerm (searchQuery FormatResourceID boolQuery (Ref sir))
                             hit = true) /\
    Forall2 (fun h m => OpenSearchHitToMatch h = inr m) hits converted /\
    Matches resp = filter (fun m => skipped (Ref sir) (MatchPath m) = false) converted /\
    TotalMatches resp
    = to_int32 (total - Z.of_nat (length (filter (fun m => skipped (Ref sir) (MatchPath m) = true)
                                                 converted))).
Proof.
  unfold Search.
  destruct (KQLToOpenSearchBoolQuery (Search.Query sir)) as [err|boolQuery] eqn:Hq; [done|].
  destruct (Client_Search _ _ _ _) as [cl [err|res]] eqn:Hs; [done|].
  destruct (collect _ _ _ _ _) as [err|[ms t]] eqn:Hc; [done|].
  intros [= <- <-]. apply clustered_collect_spec in Hc as (converted & Hconv & -> & Ht).
  exists boolQuery, (Hits res), (Total res), converted.
  split; [done|]. split; [by destruct res|]. split; [|done].
  intros hit Hhit. exact (Client_Search_hits _ _ _ _ _ Hs hit Hhit).
Qed.

End SearchResult.

End OpenSearchFacts.

(** ** The engine contract *)

Module EngineContract.
Import Search Spec.





(** C4, on the clustered backend. The folder of the first space is purged
    with [onlyDeleted = false], on the sample documents. The folder of
    the second space lies at the same path; it is neither the resource nor
    one of its descendants, and the purge removes it: the delete-by-query
    matches on [Path] alone. Whatever the engine makes of a term on
    [Path], the two folders stay or go together. The embedded backend, on
    the same documents, removes the folder and what is below it and keeps
    the folder of the second space. *)
Theorem Purge_reaches_other_space :
  inSubtree Sample.docsFolder Sample.otherDocs = false /\
  (exists b',
      OpenSearch.Backend_Purge OpenSearch.pathHierarchy "s1!docs" false Sample.cluster
      = (b', None) /\
      OpenSearch.docs (OpenSearch.backendClient b') !! "s1!docs" = None /\
      OpenSearch.docs (OpenSearch.backendClient b') !! "s2!docs" = None) /\
  (forall pathTerm : string -> string -> bool,
      exists b',
        OpenSearch.Backend_Purge pathTerm "s1!docs" false Sample.cluster = (b', None) /\
        (OpenSearch.docs (OpenSearch.backendClient b') !! "s1!docs" = None
         <-> OpenSearch.docs (OpenSearch.backendClient b') !! "s2!docs" = None)) /\
  (exists b',
      Bleve.Backend_Purge "s1!docs" false Sample.backend = (b', None) /\
      Bleve.docs (Bleve.backendIndex b') !! "s1!docs" = None /\
      Bleve.docs (Bleve.backendIndex b') !! "s1!report" = None /\
      Bleve.docs (Bleve.backendIndex b') !! "s2!docs" = Some Sample.otherDocs).
Proof.
  split; [reflexivity|]. split; [|split].
  - eexists. split; [vm_compute; reflexivity|]. split; vm_compute; reflexivity.
  - intros pathTerm.
    destruct (OpenSearchFacts.client_Purge_removes pathTerm Sample.cluster "s1!docs"
                Sample.docsFolder false) as (b' & Hrun & Hdocs);
      [reflexivity|vm_compute; reflexivity|].
    exists b'. split; [exact Hrun|]. rewrite !Hdocs.
    replace (OpenSearch.docs (OpenSearch.backendClient Sample.cluster) !! "s1!docs")
      with (Some Sample.docsFolder) by (vm_compute; reflexivity).
    replace (OpenSearch.docs (OpenSearch.backendClient Sample.cluster) !! "s2!docs")
      with (Some Sample.otherDocs) by (vm_compute; reflexivity).
    cbn [Path Sample.docsFolder Sample.otherDocs negb orb].
    destruct (pathTerm "./docs" "./docs"); cbn [andb].
    + split; reflexivity.
    + split; intros [=].
  - eexists. split; [vm_compute; reflexivity|]. repeat split; vm_compute; reflexivity.
Qed.

(** C5, on the embedded backend. An upsert is staged and pushed while the
    engine fails: the push returns the engine's error and the staged
    entry stays in the batch; a second push sends it again, and once the
    engine answers the entry is written. The clustered backend empties
    its staged operations on every return of [Push]. *)
Theorem Push_failure_keeps_staged :
  let entry := setDeleted true Sample.report in
  let staged : gmap string (option Resource) := {[ "s1!report" := Some entry ]} in
  Bleve.Upsert "s1!report" entry (Bleve.mkBatch ∅ Sample.failing 50)
  = (Bleve.mkBatch staged Sample.failing 50, None) /\
  (exists b1 b2,
      Bleve.Push (Bleve.mkBatch staged Sample.failing 50) = (b1, Some ErrEngine) /\
      Bleve.batch b1 = staged /\
      Bleve.Push b1 = (b2, Some ErrEngine) /\
      Bleve.calls (Bleve.index b2) = [Bleve.CallBatch staged; Bleve.CallBatch staged]) /\
  (exists b3,
      Bleve.Push (Bleve.mkBatch staged Sample.index 50) = (b3, None) /\
      Bleve.docs (Bleve.index b3) !! "s1!report" = Some entry) /\
  (forall b : OpenSearch.Batch, OpenSearch.operations (OpenSearch.Push b).1 = []).
Proof.
  intros entry staged. split; [|split; [|split]].
  - vm_compute. reflexivity.
  - eexists _, _. split; [|split; [|split]].
    + apply BleveFacts.embedded_Push_failure_keeps; [|reflexivity].
      intros E. apply (f_equal (fun m => m !! "s1!report")) in E. vm_compute in E.
      discriminate.
    + reflexivity.
    + apply BleveFacts.embedded_Push_failure_keeps; [|reflexivity].
      intros E. apply (f_equal (fun m => m !! "s1!report")) in E. vm_compute in E.
      discriminate.
    + reflexivity.
  - eexists. split; [vm_compute; reflexivity|]. vm_compute. reflexivity.
  - exact OpenSearchFacts.clustered_Push_clears.
Qed.

(** The embedded backend counts every document of the index. *)
Lemma embedded_DocCount_all (b : Bleve.Backend) :
  Bleve.healthy (Bleve.backendIndex b) = true ->
  (Bleve.DocCount b).2 = inr (Z.of_nat (size (Bleve.docs (Bleve.backendIndex b)))).
Proof. intros Hh. unfold Bleve.DocCount, Bleve.Index_DocCount. by rewrite Hh. Qed.

(** The clustered backend counts the documents that are not deleted. *)
Lemma clustered_DocCount_live (pathTerm : string -> string -> bool)
      (b : OpenSearch.Backend) :
  OpenSearch.healthy (OpenSearch.backendClient b) = true ->
  (OpenSearch.DocCount pathTerm b).2
  = inr (wrap_uint64 (Z.of_nat (length
           (filter (fun d : string * Resource => Deleted d.2 = false)
                   (map_to_list (OpenSearch.docs (OpenSearch.backendClient b))))))).
Proof.
  intros Hh. unfold OpenSearch.DocCount, OpenSearch.Client_Count, OpenSearch.found.
  rewrite Hh. cbn [snd]. do 4 f_equal. apply list_filter_iff. intros [k D]. simpl.
  by destruct (Deleted D).
Qed.

(** C9, on the embedded backend. The sample index holds five documents,
    one of them deleted: the embedded backend counts five, the clustered
    backend, on the same documents, four. *)
Theorem DocCount_counts_deleted :
  Bleve.docs (Bleve.backendIndex Sample.backend) !! "s1!draft" = Some Sample.draft /\
  Deleted Sample.draft = true /\
  length (filter (fun d : string * Resource => Deleted d.2 = false)
                 (map_to_list Sample.stored)) = 4%nat /\
  (Bleve.DocCount Sample.backend).2 = inr 5 /\
  (OpenSearch.DocCount OpenSearch.pathHierarchy Sample.cluster).2 = inr 4.
Proof. repeat split; vm_compute; reflexivity. Qed.

(** C8. The size [Search] requests of the engine: for the sentinel [-1]
    the largest [int] on the embedded backend and a thousand on the
    clustered one, for [0] two hundred on both, and every positive page
    size as it is. The request the engine receives carries that size. *)
Theorem requestSize_cases :
  Bleve.requestSize (-1) = MaxInt /\
  OpenSearch.requestSize (-1) = 1000 /\
  Bleve.requestSize 0 = 200 /\
  OpenSearch.requestSize 0 = 200 /\
  (forall p : positive,
      Bleve.requestSize (Z.pos p) = Z.pos p /\ OpenSearch.requestSize (Z.pos p) = Z.pos p) /\
  (forall ParseID FormatResourceID (b : Bleve.Backend) (sir : SearchIndexRequest)
          (createdQuery : Resource -> bool),
      Bleve.queryCreator b (Search.Query sir) = inr createdQuery ->
      Bleve.calls (Bleve.backendIndex (Bleve.Search ParseID FormatResourceID b sir).1)
      = Bleve.CallSearch
          (Bleve.mkSearchRequest (Bleve.searchQuery createdQuery (Ref sir) FormatResourceID)
                                 (Bleve.requestSize (PageSize sir)))
        :: Bleve.calls (Bleve.backendIndex b)) /\
  (forall pathTerm KQLToOpenSearchBoolQuery OpenSearchHitToMatch FormatResourceID
          (b : OpenSearch.Backend) (sir : SearchIndexRequest)
          (boolQuery : OpenSearch.BoolQuery),
      KQLToOpenSearchBoolQuery (Search.Query sir) = inr boolQuery ->
      OpenSearch.calls
        (OpenSearch.backendClient
           (OpenSearch.Search pathTerm KQLToOpenSearchBoolQuery OpenSearchHitToMatch
                              FormatResourceID b sir).1)
      = OpenSearch.CallSearch
          (OpenSearch.Bool (OpenSearch.searchQuery FormatResourceID boolQuery (Ref sir)))
          (Some (OpenSearch.requestSize (PageSize sir)))
        :: OpenSearch.calls (OpenSearch.backendClient b)).
Proof.
  split; [reflexivity|]. split; [reflexivity|]. split; [reflexivity|].
  split; [reflexivity|]. split; [by intros p|]. split.
  - intros ParseID FormatResourceID b sir createdQuery Hq.
    unfold Bleve.Search. rewrite Hq. unfold Bleve.Index_Search.
    destruct (Bleve.healthy (Bleve.backendIndex b)); [|reflexivity].
    cbn [Bleve.Hits Bleve.Total]. by destruct (Bleve.collect _ _ _ _ _) as [?|[? ?]].
  - intros pathTerm KQL H2M FormatResourceID b sir boolQuery Hq.
    unfold OpenSearch.Search. rewrite Hq. unfold OpenSearch.Client_Search.
    destruct (OpenSearch.healthy (OpenSearch.backendClient b)); [|reflexivity].
    cbn [OpenSearch.Hits OpenSearch.Total].
    by destruct (OpenSearch.collect _ _ _ _ _) as [?|[? ?]].
Qed.

(** C10. With nothing staged, [Push] returns no error and leaves the
    batch and the handle of the engine as they were, the record of the
    calls the engine received included: no call is made. After a push
    that succeeded nothing is staged, so a second push changes nothing. *)
Theorem Push_nothing_staged :
  (forall b : Bleve.Batch, Bleve.batch b = ∅ -> Bleve.Push b = (b, None)) /\
  (forall b : OpenSearch.Batch,
      OpenSearch.operations b = [] -> OpenSearch.Push b = (b, None)) /\
  (forall b b' : Bleve.Batch, Bleve.Push b = (b', None) -> Bleve.Push b' = (b', None)) /\
  (forall b b' : OpenSearch.Batch,
      OpenSearch.Push b = (b', None) -> OpenSearch.Push b' = (b', None)).
Proof.
  split; [exact BleveFacts.embedded_Push_empty|].
  split; [exact OpenSearchFacts.clustered_Push_empty|]. split.
  - intros b b' H. apply BleveFacts.embedded_Push_empty.
    exact (BleveFacts.embedded_Push_ok_empties b b' H).
  - intros b b' H. apply OpenSearchFacts.clustered_Push_empty.
    pose proof (OpenSearchFacts.clustered_Push_clears b) as Hc. by rewrite H in Hc.
Qed.

Lemma Push_nothing_staged_witness :
  Bleve.Push (Bleve.mkBatch ∅ Sample.index 50) = (Bleve.mkBatch ∅ Sample.index 50, None) /\
  OpenSearch.Push (OpenSearch.mkBatch Sample.client "opencloud" 50 [])
  = (OpenSearch.mkBatch Sample.client "opencloud" 50 [], None).
Proof.
  split.
  - apply (proj1 Push_nothing_staged). reflexivity.
  - apply (proj1 (proj2 Push_nothing_staged)). reflexivity.
Defined.

(** C6. Every match [Search] returns is made from a document of the
    index whose [Deleted] flag is false, on both backends and whatever the
    query, the scope and the page size; on the embedded backend the match
    carries that flag. The query sent to the engine always has the clause
    on [Deleted]: first among the conjuncts of the embedded backend, among
    the filters of the clustered one. *)
Theorem Search_skips_deleted :
  (forall ParseID FormatResourceID (b b' : Bleve.Backend) (sir : SearchIndexRequest)
          (resp : SearchIndexResponse),
      Bleve.Search ParseID FormatResourceID b sir = (b', inr resp) ->
      forall m, m ∈ Matches resp ->
        MatchDeleted m = false /\
        exists k hit,
          Bleve.docs (Bleve.backendIndex b) !! k = Some hit /\
          Deleted hit = false /\ madeFrom ParseID hit m) /\
  (forall pathTerm KQLToOpenSearchBoolQuery OpenSearchHitToMatch FormatResourceID
          (b b' : OpenSearch.Backend) (sir : SearchIndexRequest)
          (resp : SearchIndexResponse),
      OpenSearch.Search pathTerm KQLToOpenSearchBoolQuery OpenSearchHitToMatch
                        FormatResourceID b sir = (b', inr resp) ->
      forall m, m ∈ Matches resp ->
        exists k hit,
          OpenSearch.docs (OpenSearch.backendClient b) !! k = Some hit /\
          Deleted hit = false /\ OpenSearchHitToMatch hit = inr m) /\
  (forall createdQuery ref FormatResourceID,
      exists rest,
        Bleve.searchQuery createdQuery ref FormatResourceID
        = Bleve.ConjunctionQuery (Bleve.BoolFieldQuery false "Deleted" :: rest)) /\
  (forall FormatResourceID boolQuery ref,
      OpenSearch.TermBool "Deleted" false
      ∈ OpenSearch.filter_ (OpenSearch.searchQuery FormatResourceID boolQuery ref)).
Proof.
  split; [|split; [|split]].
  - intros ParseID FormatResourceID b b' sir resp Hs m Hm.
    apply BleveFacts.embedded_Search_ok in Hs
      as (createdQuery & hits & total & _ & _ & Hhits & Hmade & _).
    apply list_elem_of_lookup in Hm as [i Hi].
    destruct (Forall2_lookup_r _ _ _ _ _ Hmade Hi) as (hit & Hhit & Hfrom).
    apply list_elem_of_lookup_2 in Hhit. apply list_elem_of_filter in Hhit as [_ Hhit].
    destruct (Hhits hit Hhit) as (k & Hk & Hq).
    apply BleveFacts.searchQuery_matches in Hq as (Hdel & _).
    split.
    + destruct Hfrom as (rootID & rID & _ & _ & ->). exact Hdel.
    + by exists k, hit.
  - intros pathTerm KQL H2M FormatResourceID b b' sir resp Hs m Hm.
    apply OpenSearchFacts.clustered_Search_ok in Hs
      as (boolQuery & hits & total & converted & _ & _ & Hhits & Hconv & Hms & _).
    rewrite Hms in Hm. apply list_elem_of_filter in Hm as [_ Hm].
    apply list_elem_of_lookup in Hm as [i Hi].
    destruct (Forall2_lookup_r _ _ _ _ _ Hconv Hi) as (hit & Hhit & Hfrom).
    apply list_elem_of_lookup_2 in Hhit.
    destruct (Hhits hit Hhit) as (k & Hk & Hq).
    apply OpenSearchFacts.clustered_searchQuery_matches in Hq as (Hdel & _).
    by exists k, hit.
  - intros createdQuery ref FormatResourceID. by eexists.
  - intros FormatResourceID boolQuery ref. unfold OpenSearch.searchQuery, OpenSearch.Filter.
    destruct ref; cbn [OpenSearch.filter_]; set_solver.
Qed.

Lemma Search_skips_deleted_witness :
  exists b' resp,
    Bleve.Search Sample.ParseID Sample.FormatResourceID Sample.backend Sample.request
    = (b', inr resp) /\
    length (Matches resp) = 2%nat /\
    Forall (fun m => MatchDeleted m = false) (Matches resp).
Proof.
  destruct (Bleve.Search Sample.ParseID Sample.FormatResourceID Sample.backend Sample.request)
    as [b' [err|resp]] eqn:Hs; [vm_compute in Hs; discriminate|].
  exists b', resp. split; [reflexivity|]. split.
  - vm_compute in Hs. injection Hs as _ <-. reflexivity.
  - apply Forall_forall. intros m Hm.
    exact (proj1 (proj1 Search_skips_deleted _ _ _ _ _ _ Hs m Hm)).
Defined.



End EngineContract.

(** ** The batch operator and the mutations of the embedded backend *)

Module BatchLaws.
Import Search Bleve Spec Terms.

Lemma Index_Search_frame (req : SearchRequest) (ix : Index) :
  docs (Index_Search req ix).1 = docs ix /\ healthy (Index_Search req ix).1 = healthy ix
  /\ batchesSent (Index_Search req ix).1 = batchesSent ix.
Proof. unfold Index_Search. by destruct (healthy ix) eqn:E. Qed.

Lemma searchResourceByID_frame (id : string) (ix : Index) :
  docs (searchResourceByID id ix).1 = docs ix
  /\ healthy (searchResourceByID id ix).1 = healthy ix
  /\ batchesSent (searchResourceByID id ix).1 = batchesSent ix.
Proof.
  unfold searchResourceByID.
  pose proof (Index_Search_frame (NewSearchRequest (DocIDQuery [id])) ix) as H.
  destruct (Index_Search _ ix) as [ix' [err|res]]; [done|]. by destruct (Hits res).
Qed.

Lemma searchResourcesByPath_frame (rootId lookupPath : string) (ix : Index) :
  docs (searchResourcesByPath rootId lookupPath ix).1 = docs ix
  /\ healthy (searchResourcesByPath rootId lookupPath ix).1 = healthy ix
  /\ batchesSent (searchResourcesByPath rootId lookupPath ix).1 = batchesSent ix.
Proof.
  unfold searchResourcesByPath.
  match goal with |- context [Index_Search ?r ix] =>
    pose proof (Index_Search_frame r ix) as H; destruct (Index_Search r ix) as [ix' [err|res]]
  end; done.
Qed.

Lemma searchAndUpdateResourcesDeletionState_frame (id : string) (state : bool) (ix : Index) :
  docs (searchAndUpdateResourcesDeletionState id state ix).1 = docs ix
  /\ healthy (searchAndUpdateResourcesDeletionState id state ix).1 = healthy ix
  /\ batchesSent (searchAndUpdateResourcesDeletionState id state ix).1 = batchesSent ix.
Proof.
  unfold searchAndUpdateResourcesDeletionState.
  pose proof (searchResourceByID_frame id ix) as H.
  destruct (searchResourceByID id ix) as [ix1 [err|root]]; [done|].
  destruct (isContainer _); [|done].
  match goal with |- context [searchResourcesByPath ?r ?p ix1] =>
    pose proof (searchResourcesByPath_frame r p ix1) as H1;
    destruct (searchResourcesByPath r p ix1) as [ix2 [err|ds]]
  end; simpl in *; intuition congruence.
Qed.

Lemma stageAll_frame (ix : Index) (res : error + list Resource) (b : Batch) :
  size (stageAll ix res b).1 = size b /\ index (stageAll ix res b).1 = ix.
Proof.
  unfold stageAll. destruct res as [err|l]; [done|]. by destruct (indexAll l (batch b)).
Qed.



Lemma indexAll_entries (l : list Resource) (ops ops' : gmap string (option Resource))
      (e : option error) :
  indexAll l ops = (ops', e) ->
  forall k v, ops' !! k = Some v ->
    ops !! k = Some v \/ exists r, r ∈ l /\ v = Some r /\ k = ID r.
Proof.
  revert ops. induction l as [|r l IH]; intros ops Hrun k v Hk; simpl in Hrun.
  - injection Hrun as <- <-. by left.
  - unfold Batch_Index in Hrun. destruct (String.eqb_spec (ID r) "") as [E|E].
    + injection Hrun as <- <-. by left.
    + destruct (IH _ Hrun k v Hk) as [Hin|(r' & Hin & -> & ->)].
      * destruct (decide (k = ID r)) as [->|Hne].
        -- rewrite lookup_insert_eq in Hin. injection Hin as <-.
           right. exists r. split; [by left|done].
        -- rewrite lookup_insert_ne in Hin by done. by left.
      * right. exists r'. split; [by right|done].
Qed.

Lemma stageAll_entries (ix : Index) (res : error + list Resource) (b : Batch) :
  forall k v, batch (stageAll ix res b).1 !! k = Some v ->
    batch b !! k = Some v \/
    exists l r, res = inr l /\ r ∈ l /\ v = Some r /\ k = ID r.
Proof.
  intros k v. unfold stageAll. destruct res as [err|l]; [by left|].
  destruct (indexAll l (batch b)) as [ops e] eqn:Hrun. cbn [fst batch]. intros Hk.
  destruct (indexAll_entries _ _ _ _ Hrun k v Hk) as [?|(r & ? & ? & ?)]; [by left|].
  right. by exists l, r.
Qed.

Lemma searchResourceByID_rebuilt (id : string) (ix ix' : Index) (root : Resource) :
  searchResourceByID id ix = (ix', inr root) ->
  exists k hit, docs ix !! k = Some hit /\ root = matchToResource hit.
Proof.
  unfold searchResourceByID.
  destruct (Index_Search _ ix) as [ix1 [err|res]] eqn:Hs; [done|].
  destruct (Hits res) as [|hit hits] eqn:Hhits; [done|]. intros [= <- <-].
  destruct (BleveFacts.Index_Search_hits _ _ _ _ Hs hit) as (k & Hk & _).
  { rewrite Hhits. by left. }
  by exists k, hit.
Qed.

Lemma searchResourcesByPath_rebuilt (rootId lookupPath : string) (ix ix' : Index)
      (l : list Resource) :
  searchResourcesByPath rootId lookupPath ix = (ix', inr l) ->
  forall r, r ∈ l -> exists k hit, docs ix !! k = Some hit /\ r = matchToResource hit.
Proof.
  unfold searchResourcesByPath.
  destruct (Index_Search _ ix) as [ix1 [err|res]] eqn:Hs; [done|].
  intros [= <- <-] r Hr. apply list_elem_of_fmap in Hr as (hit & -> & Hhit).
  destruct (BleveFacts.Index_Search_hits _ _ _ _ Hs hit Hhit) as (k & Hk & _).
  by exists k, hit.
Qed.

Lemma deletionState_rebuilt (id : string) (state : bool) (ix ix' : Index)
      (l : list Resource) :
  searchAndUpdateResourcesDeletionState id state ix = (ix', inr l) ->
  forall r, r ∈ l -> rebuiltFrom (docs ix) r.
Proof.
  unfold searchAndUpdateResourcesDeletionState.
  pose proof (searchResourceByID_frame id ix) as (Hd1 & _).
  destruct (searchResourceByID id ix) as [ix1 [err|root]] eqn:Hroot; [done|].
  apply searchResourceByID_rebuilt in Hroot as (k0 & hit0 & Hk0 & ->). simpl in Hd1.
  destruct (isContainer _).
  - destruct (searchResourcesByPath _ _ ix1) as [ix2 [err|ds]] eqn:Hds; [done|].
    intros [= <- <-] r Hr. apply elem_of_cons in Hr as [->|Hr].
    + by exists k0, hit0.
    + apply list_elem_of_fmap in Hr as (d & -> & Hd).
      destruct (searchResourcesByPath_rebuilt _ _ _ _ _ Hds d Hd) as (k & hit & Hk & ->).
      rewrite Hd1 in Hk. by exists k, hit.
  - intros [= <- <-] r Hr. apply list_elem_of_singleton in Hr as ->. by exists k0, hit0.
Qed.


Lemma deleteAll_entries (l : list Resource) (ops : gmap string (option Resource)) :
  forall k v, deleteAll l ops !! k = Some v -> ops !! k = Some v \/ v = None.
Proof.
  revert ops. unfold deleteAll. induction l as [|r l IH]; intros ops k v Hk; [by left|].
  simpl in Hk. destruct (IH _ k v Hk) as [Hin|Hin]; [|by right].
  unfold Batch_Delete in Hin. destruct (String.eqb (ID r) ""); [by left|].
  destruct (decide (k = ID r)) as [->|Hne].
  - rewrite lookup_insert_eq in Hin. right. congruence.
  - rewrite lookup_insert_ne in Hin by done. by left.
Qed.

(** Every operation of the batch operator is [withSizeLimit] around a
    function that only stages, and what it stages depends on the
    operation: an upsert the one document, a purge deletions, the others
    documents rebuilt from the index, each under its own identifier. *)
Lemma call_stages (m : Operator.Mutation) :
  exists f, Operator.call m = withSizeLimit f /\ readsOnly f /\
    forall b k v, batch (f b).1 !! k = Some v ->
      batch b !! k = Some v \/
      match m with
      | Operator.CallUpsert id r => k = id /\ v = Some r
      | Operator.CallPurge _ _ => v = None
      | _ => exists r, v = Some r /\ k = ID r /\ rebuiltFrom (docs (index b)) r
      end.
Proof.
  destruct m as [id r|id parentID location|id|id|id onlyDeleted]; simpl;
    (eexists; split; [reflexivity|]); (split; [intros b|intros b k v]); cbv beta.
  - by destruct (Batch_Index id r (batch b)).
  - unfold Batch_Index. destruct (String.eqb id ""); [by left|]. cbn [fst batch].
    destruct (decide (k = id)) as [->|Hne].
    + rewrite lookup_insert_eq. intros [= <-]. by right.
    + rewrite lookup_insert_ne by done. by left.
  - pose proof (searchResourceByID_frame id (index b)) as H.
    destruct (searchResourceByID id (index b)) as [ix1 [err|root]]; [done|].
    cbv zeta. destruct (isContainer _).
    + match goal with |- context [searchResourcesByPath ?r ?p ix1] =>
        pose proof (searchResourcesByPath_frame r p ix1) as H1;
        destruct (searchResourcesByPath r p ix1) as [ix2 [err|ds]]
      end; [simpl in *; intuition congruence|].
      match goal with |- context [stageAll ?i ?r b] =>
        destruct (stageAll_frame i r b) as [-> ->] end.
      simpl in *; intuition congruence.
    + match goal with |- context [stageAll ?i ?r b] =>
        destruct (stageAll_frame i r b) as [-> ->] end.
      done.
  - pose proof (searchResourceByID_frame id (index b)) as (Hd1 & _).
    destruct (searchResourceByID id (index b)) as [ix1 [err|root]] eqn:Hroot; [by left|].
    apply searchResourceByID_rebuilt in Hroot as (k0 & hit0 & Hk0 & ->). simpl in Hd1.
    cbv zeta. destruct (isContainer _).
    + destruct (searchResourcesByPath _ _ ix1) as [ix2 [err|ds]] eqn:Hds; [by left|].
      intros Hk. apply stageAll_entries in Hk as [?|(l & r & [= <-] & Hr & -> & ->)];
        [by left|]. right. exists r. split; [done|]. split; [done|].
      apply elem_of_cons in Hr as [->|Hr].
      * by exists k0, hit0.
      * apply list_elem_of_fmap in Hr as (d & -> & Hd).
        destruct (searchResourcesByPath_rebuilt _ _ _ _ _ Hds d Hd) as (k1 & hit & Hk1 & ->).
        rewrite Hd1 in Hk1. by exists k1, hit.
    + intros Hk. apply stageAll_entries in Hk as [?|(l & r & [= <-] & Hr & -> & ->)];
        [by left|]. right. exists r. split; [done|]. split; [done|].
      apply list_elem_of_singleton in Hr as ->. by exists k0, hit0.
  - pose proof (searchAndUpdateResourcesDeletionState_frame id true (index b)) as H.
    destruct (searchAndUpdateResourcesDeletionState id true (index b)) as [ix1 res].
    by destruct (stageAll_frame ix1 res b) as [-> ->].
  - destruct (searchAndUpdateResourcesDeletionState id true (index b)) as [ix1 res] eqn:Hs.
    intros Hk. apply stageAll_entries in Hk as [?|(l & r & -> & Hr & -> & ->)]; [by left|].
    right. exists r. split; [done|]. split; [done|].
    exact (deletionState_rebuilt _ _ _ _ _ Hs r Hr).
  - pose proof (searchAndUpdateResourcesDeletionState_frame id false (index b)) as H.
    destruct (searchAndUpdateResourcesDeletionState id false (index b)) as [ix1 res].
    by destruct (stageAll_frame ix1 res b) as [-> ->].
  - destruct (searchAndUpdateResourcesDeletionState id false (index b)) as [ix1 res] eqn:Hs.
    intros Hk. apply stageAll_entries in Hk as [?|(l & r & -> & Hr & -> & ->)]; [by left|].
    right. exists r. split; [done|]. split; [done|].
    exact (deletionState_rebuilt _ _ _ _ _ Hs r Hr).
  - pose proof (searchResourceByID_frame id (index b)) as H.
    destruct (searchResourceByID id (index b)) as [ix1 [err|root]]; [done|].
    cbv zeta. destruct (isContainer _); [|done].
    match goal with |- context [searchResourcesByPath ?r ?p ix1] =>
        pose proof (searchResourcesByPath_frame r p ix1) as H1;
        destruct (searchResourcesByPath r p ix1) as [ix2 [err|ds]]
    end; simpl in *; intuition congruence.
  - destruct (searchResourceByID id (index b)) as [ix1 [err|root]]; [by left|].
    cbv zeta. destruct (isContainer _).
    + destruct (searchResourcesByPath _ _ ix1) as [ix2 [err|ds]]; [by left|].
      cbn [fst batch]. apply deleteAll_entries.
    + cbn [fst batch]. apply deleteAll_entries.
Qed.

Lemma call_readsOnly (m : Operator.Mutation) :
  exists f, Operator.call m = withSizeLimit f /\ readsOnly f.
Proof. destruct (call_stages m) as (f & ? & ? & _). by exists f. Qed.

Lemma Push_frame (b : Batch) :
  size (Push b).1 = size b /\ healthy (index (Push b).1) = healthy (index b).
Proof.
  unfold Push. destruct (Batch_Size (batch b) =? 0); [done|].
  unfold Index_Batch. by destruct (healthy (index b)) eqn:E.
Qed.

(** What a push does, case by case. *)
Lemma Push_cases (b : Batch) :
  (batch b = ∅ /\ Push b = (b, None)) \/
  (batch b <> ∅ /\ healthy (index b) = true /\
   Push b = (mkBatch ∅ (mkIndex (merge applyOp (batch b) (docs (index b))) true
                                (CallBatch (batch b) :: calls (index b))) (size b), None)) \/
  (batch b <> ∅ /\ healthy (index b) = false /\
   Push b = (mkBatch (batch b) (called (CallBatch (batch b)) (index b)) (size b),
             Some ErrEngine)).
Proof.
  unfold Push. destruct (Z.eqb_spec (Batch_Size (batch b)) 0) as [E|E].
  - left. by apply BleveFacts.Batch_Size_zero in E.
  - right. assert (batch b <> ∅) as Hne by (by rewrite <- BleveFacts.Batch_Size_zero).
    unfold Index_Batch. destruct (healthy (index b)) eqn:Hh; [left|right]; done.
Qed.

(** X3. After an operation of the embedded batch operator that succeeds,
    fewer entries than the size of the batch remain staged. *)
Theorem embedded_staged_below_size (m : Operator.Mutation) (b b' : Batch) :
  0 < size b -> Operator.call m b = (b', None) ->
  size b' = size b /\ Batch_Size (batch b') < size b.
Proof.
  intros Hpos. destruct (call_readsOnly m) as (f & -> & Hf).
  unfold withSizeLimit. destruct (Hf b) as (Hsz & _).
  destruct (f b) as [b1 [err|]]; [done|]. simpl in Hsz.
  destruct (Z.leb_spec (size b1) (Batch_Size (batch b1))) as [Hle|Hlt].
  - destruct (Push_cases b1) as [[E ->]|[(Hne & Hh & ->)|(Hne & Hh & ->)]]; [| |done].
    + intros [= <-]. rewrite E in Hle. unfold Batch_Size in Hle.
      rewrite map_size_empty in Hle. lia.
    + intros [= <-]. simpl. split; [done|]. unfold Batch_Size. rewrite map_size_empty. lia.
  - intros [= <-]. lia.
Qed.

Lemma embedded_staged_below_size_witness :
  Batch_Size (batch (Upsert "s1!notes" Sample.notes (mkBatch ∅ Sample.index 1)).1) < 1.
Proof.
  destruct (Upsert "s1!notes" Sample.notes (mkBatch ∅ Sample.index 1)) as [b' err] eqn:E.
  assert (err = None) as -> by (vm_compute in E; congruence).
  assert (0 < size (mkBatch ∅ Sample.index 1)) as Hpos by (simpl; lia).
  exact (proj2 (embedded_staged_below_size
                  (Operator.CallUpsert "s1!notes" Sample.notes) _ b' Hpos E)).
Defined.

(** The outcome of a mutation of the backend whose operation only
    stages: nothing is sent when the staging fails or stages nothing;
    otherwise the staged operations are sent as one batch, which a
    healthy index applies. *)
Lemma viaBatch_outcome (f : Batch -> Batch * option error) (B B' : Backend)
      (err : option error) :
  readsOnly f ->
  viaBatch (withSizeLimit f) B = (B', err) ->
  let b0 := mkBatch ∅ (backendIndex B) defaultBatchSize in
  let staged := batch (f b0).1 in
  queryCreator B' = queryCreator B /\
  healthy (backendIndex B') = healthy (backendIndex B) /\
  match (f b0).2 with
  | Some e =>
      err = Some e /\ docs (backendIndex B') = docs (backendIndex B) /\
      batchesSent (backendIndex B') = batchesSent (backendIndex B)
  | None =>
      if decide (staged = ∅)
      then err = None /\ docs (backendIndex B') = docs (backendIndex B) /\
           batchesSent (backendIndex B') = batchesSent (backendIndex B)
      else batchesSent (backendIndex B') = staged :: batchesSent (backendIndex B) /\
           if healthy (backendIndex B)
           then err = None /\
                docs (backendIndex B') = merge applyOp staged (docs (backendIndex B))
           else err = Some ErrEngine /\ docs (backendIndex B') = docs (backendIndex B)
  end.
Proof.
  intros Hf Hrun b0 staged. subst staged.
  unfold viaBatch, NewBatch in Hrun. simpl in Hrun. unfold withSizeLimit in Hrun.
  fold b0 in Hrun.
  destruct (Hf b0) as (Hsz & Hdocs & Hh & Hsent).
  destruct (f b0) as [b1 [e|]]; simpl in *.
  { injection Hrun as <- <-. done. }
  destruct (decide (batch b1 = ∅)) as [E|Hne].
  - assert (Push b1 = (b1, None)) as HP by (by apply BleveFacts.embedded_Push_empty).
    destruct (size b1 <=? Batch_Size (batch b1)); rewrite ?HP in Hrun; simpl in Hrun;
      rewrite ?HP in Hrun; by injection Hrun as <- <-.
  - destruct (Push_cases b1) as [[E _]|[(_ & Hh1 & HP)|(_ & Hh1 & HP)]]; [done| |].
    + rewrite <- Hh, Hh1.
      assert (B' = withIndex (mkIndex (merge applyOp (batch b1) (docs (index b1))) true
                                      (CallBatch (batch b1) :: calls (index b1))) B
              /\ err = None) as [-> ->].
      { destruct (size b1 <=? Batch_Size (batch b1)); rewrite HP in Hrun; simpl in Hrun.
        - rewrite BleveFacts.embedded_Push_empty in Hrun by done.
          by injection Hrun as <- <-.
        - by injection Hrun as <- <-. }
      cbn [backendIndex withIndex docs healthy queryCreator]. rewrite Hdocs.
      change (batchesSent (mkIndex ?d ?h (CallBatch ?o :: calls ?i)))
        with (o :: batchesSent i). by rewrite Hsent.
    + rewrite <- Hh, Hh1.
      assert (B' = withIndex (called (CallBatch (batch b1)) (index b1)) B
              /\ err = Some ErrEngine) as [-> ->].
      { destruct (size b1 <=? Batch_Size (batch b1)); rewrite HP in Hrun; simpl in Hrun;
          by injection Hrun as <- <-. }
      cbn [backendIndex withIndex docs healthy queryCreator called]. rewrite Hh1.
      change (batchesSent (called (CallBatch ?o) ?i)) with (o :: batchesSent i).
      by rewrite Hsent.
Qed.

(** X4. A mutation of the embedded backend sends at most one batch to
    the index, whatever the state of the index; and when the mutation
    fails the stored documents are as they were. *)
Theorem embedded_mutation_atomic (m : Operator.Mutation) (B B' : Backend)
        (err : option error) :
  viaBatch (Operator.call m) B = (B', err) ->
  (err <> None -> docs (backendIndex B') = docs (backendIndex B)) /\
  (batchesSent (backendIndex B') = batchesSent (backendIndex B) \/
   exists ops, batchesSent (backendIndex B') = ops :: batchesSent (backendIndex B)).
Proof.
  destruct (call_readsOnly m) as (f & -> & Hf). intros Hrun.
  destruct (viaBatch_outcome f B B' err Hf Hrun) as (_ & Hh & Hout).
  split.
  - intros Herr. destruct ((f _).2) as [e|]; [tauto|].
    destruct (decide _); [tauto|]. destruct Hout as [_ Hout].
    destruct (healthy (backendIndex B)); [|tauto]. by destruct Hout as [-> _].
  - destruct ((f _).2) as [e|]; [tauto|].
    destruct (decide _); [tauto|]. destruct Hout as [Hsent _]. right. by eexists.
Qed.

Lemma embedded_mutation_atomic_witness :
  Backend_Delete "s1!gone" Sample.backend
  = (withIndex (called (CallSearch (NewSearchRequest (DocIDQuery ["s1!gone"]))) Sample.index)
               Sample.backend, Some ErrEntityNotFound) /\
  docs (backendIndex (Backend_Delete "s1!gone" Sample.backend).1) = Sample.stored.
Proof.
  assert (Backend_Delete "s1!gone" Sample.backend
          = (withIndex (called (CallSearch (NewSearchRequest (DocIDQuery ["s1!gone"])))
                               Sample.index) Sample.backend, Some ErrEntityNotFound)) as E.
  { vm_compute. reflexivity. }
  split; [exact E|].
  destruct (embedded_mutation_atomic (Operator.CallDelete "s1!gone") Sample.backend _ _ E)
    as [Hdocs _].
  rewrite E. apply Hdocs. discriminate.
Defined.

(** X5. A resource that is not in the index: on a healthy index, [Move],
    [Delete], [Restore] and [Purge] look the identifier up, fail with
    "entity not found" and send no batch. *)
Theorem embedded_missing_id (B : Backend) (id : string) :
  healthy (backendIndex B) = true ->
  docs (backendIndex B) !! id = None ->
  let B' := withIndex (called (CallSearch (NewSearchRequest (DocIDQuery [id])))
                              (backendIndex B)) B in
  (forall parentID location,
      Backend_Move id parentID location B = (B', Some ErrEntityNotFound)) /\
  Backend_Delete id B = (B', Some ErrEntityNotFound) /\
  Backend_Restore id B = (B', Some ErrEntityNotFound) /\
  (forall onlyDeleted, Backend_Purge id onlyDeleted B = (B', Some ErrEntityNotFound)).
Proof.
  intros Hh Hid B'.
  unfold Backend_Move, Backend_Delete, Backend_Restore, Backend_Purge, viaBatch, NewBatch,
    Move, Delete, Restore, Purge, withSizeLimit, searchAndUpdateResourcesDeletionState.
  cbn [Z.leb Z.compare defaultBatchSize index batch size].
  rewrite (BleveFacts.searchResourceByID_missing _ _ Hh Hid). done.
Qed.

Lemma embedded_missing_id_witness :
  Backend_Purge "s1!gone" true Sample.backend
  = (withIndex (called (CallSearch (NewSearchRequest (DocIDQuery ["s1!gone"]))) Sample.index)
               Sample.backend, Some ErrEntityNotFound).
Proof.
  refine (proj2 (proj2 (proj2 (embedded_missing_id Sample.backend "s1!gone" _ _))) true).
  - reflexivity.
  - vm_compute. reflexivity.
Defined.

Lemma applied_insert (ops : gmap string (option Resource)) (stored : gmap string Resource)
      (id : string) (r : Resource) :
  merge applyOp (<[id := Some r]> ops) stored = <[id := r]> (merge applyOp ops stored).
Proof.
  apply map_eq. intros k. rewrite BleveFacts.lookup_applied.
  destruct (decide (k = id)) as [->|Hne].
  - by rewrite !lookup_insert_eq.
  - by rewrite !lookup_insert_ne, BleveFacts.lookup_applied by done.
Qed.

(** X1. An upsert under a non-empty identifier, on a healthy index,
    stores the document under that identifier and leaves the others
    alone; a lookup of the identifier then yields the document as
    [matchToResource] reads it. An upsert under the empty identifier
    fails and the index receives no call. *)
Theorem embedded_Upsert_lookup :
  (forall (B : Backend) (id : string) (r : Resource),
      healthy (backendIndex B) = true -> id <> "" ->
      exists B',
        Backend_Upsert id r B = (B', None) /\
        docs (backendIndex B') = <[id := r]> (docs (backendIndex B)) /\
        (searchResourceByID id (backendIndex B')).2 = inr (matchToResource r)) /\
  (forall (B : Backend) (r : Resource),
      Backend_Upsert "" r B = (withIndex (backendIndex B) B, Some ErrEmptyID)).
Proof.
  split.
  - intros B id r Hh Hid. unfold Backend_Upsert, Upsert.
    match goal with
    | |- context [viaBatch (withSizeLimit ?f) B] =>
        destruct (BleveFacts.viaBatch_staged f B (<[id := Some r]> ∅) (backendIndex B))
          as (ix'' & Hrun & Hdocs & Hh''); [|done|]
    end.
    + cbn [batch index size]. unfold Batch_Index.
      destruct (String.eqb_spec id ""); done.
    + exists (withIndex ix'' B). split; [done|].
      rewrite applied_insert, BleveFacts.applied_empty in Hdocs.
      cbn [backendIndex withIndex]. split; [done|].
      rewrite (BleveFacts.searchResourceByID_found ix'' id r); [done|done|].
      rewrite Hdocs. apply lookup_insert_eq.
  - intros B r. reflexivity.
Qed.

Lemma Batch_Size_insert (ops : gmap string (option Resource)) (k : string)
      (v : option Resource) :
  0 < Batch_Size (<[k := v]> ops) <= Batch_Size ops + 1.
Proof.
  unfold Batch_Size. rewrite map_size_insert. destruct (ops !! k) eqn:E; simpl; [|lia].
  assert (base.size ops <> 0%nat); [|unfold id; lia].
  intros Hz. apply map_size_empty_iff in Hz. by rewrite Hz, lookup_empty in E.
Qed.

(** One upsert on a batch that is below its size, on a healthy index. *)
Lemma Upsert_step (b : Batch) (id : string) (r : Resource) :
  healthy (index b) = true -> Batch_Size (batch b) < size b -> id <> "" ->
  exists b' sent,
    Upsert id r b = (b', None) /\ size b' = size b /\ healthy (index b') = true /\
    Batch_Size (batch b') < size b' /\
    merge applyOp (batch b') (docs (index b'))
    = <[id := r]> (merge applyOp (batch b) (docs (index b))) /\
    batchesSent (index b') = sent ++ batchesSent (index b) /\
    Forall (fun ops => 0 < Batch_Size ops <= size b) sent.
Proof.
  intros Hh Hlt Hid. unfold Upsert, withSizeLimit, Batch_Index.
  destruct (String.eqb_spec id ""); [done|]. cbn [size batch].
  pose proof (Batch_Size_insert (batch b) id (Some r)) as Hsz.
  destruct (Z.leb_spec (size b) (Batch_Size (<[id:=Some r]> (batch b)))) as [Hle|Hgt].
  - unfold Push. cbn [batch index size].
    destruct (Z.eqb_spec (Batch_Size (<[id:=Some r]> (batch b))) 0); [lia|].
    unfold Index_Batch. rewrite Hh.
    eexists _, [_]. split; [reflexivity|]. cbn [size index batch healthy docs].
    split; [done|]. split; [done|]. split.
    { unfold Batch_Size. rewrite map_size_empty. lia. }
    split; [by rewrite BleveFacts.applied_empty, applied_insert|].
    split; [reflexivity|]. constructor; [lia|constructor].
  - eexists _, []. split; [reflexivity|]. cbn [size index batch].
    split; [done|]. split; [done|]. split; [done|].
    split; [by rewrite applied_insert|]. split; [done|constructor].
Qed.

Lemma Upsert_steps (l : list (string * Resource)) (b : Batch) :
  healthy (index b) = true -> Batch_Size (batch b) < size b ->
  Forall (fun p => p.1 <> "") l ->
  exists b' sent,
    Operator.callAll (map (fun p => Operator.CallUpsert p.1 p.2) l) b = (b', None) /\
    size b' = size b /\ healthy (index b') = true /\
    Batch_Size (batch b') < size b' /\
    merge applyOp (batch b') (docs (index b'))
    = foldl (fun m p => <[p.1 := p.2]> m) (merge applyOp (batch b) (docs (index b))) l /\
    batchesSent (index b') = sent ++ batchesSent (index b) /\
    Forall (fun ops => 0 < Batch_Size ops <= size b) sent.
Proof.
  revert b. induction l as [|[id r] l IH]; intros b Hh Hlt Hl.
  - exists b, []. by repeat split.
  - apply Forall_cons in Hl as [Hid Hl]. simpl in Hid.
    destruct (Upsert_step b id r Hh Hlt Hid)
      as (b1 & sent1 & Hrun1 & Hsz1 & Hh1 & Hlt1 & Hdocs1 & Hsent1 & Hall1).
    destruct (IH b1 Hh1 Hlt1 Hl)
      as (b2 & sent2 & Hrun2 & Hsz2 & Hh2 & Hlt2 & Hdocs2 & Hsent2 & Hall2).
    exists b2, (sent2 ++ sent1). cbn [map Operator.callAll Operator.call fst snd].
    change (Operator.Upsert id r b) with (Upsert id r b). rewrite Hrun1.
    split; [exact Hrun2|]. split; [congruence|]. split; [done|]. split; [done|].
    split; [by rewrite Hdocs2, Hdocs1|].
    split; [by rewrite Hsent2, Hsent1, app_assoc|].
    apply Forall_app. split; [|done]. by rewrite Hsz1 in Hall2.
Qed.

(** X2. Batching is transparent for upserts. On a healthy index, for a
    batch of any positive size, the upserts of a list of documents under
    non-empty identifiers, one call after the other, and the final push
    leave the index with every document stored under its identifier, later
    ones over earlier ones, as if they had been stored one by one. No
    batch sent to the index on the way is empty or larger than the size. *)
Theorem embedded_Upsert_batching (ix : Index) (n : Z) (l : list (string * Resource)) :
  healthy ix = true -> 0 < n -> Forall (fun p => p.1 <> "") l ->
  exists b0 b1 b2 sent,
    NewBatch ix n = inr b0 /\
    Operator.callAll (map (fun p => Operator.CallUpsert p.1 p.2) l) b0 = (b1, None) /\
    Push b1 = (b2, None) /\
    batch b2 = ∅ /\
    docs (index b2) = foldl (fun m p => <[p.1 := p.2]> m) (docs ix) l /\
    batchesSent (index b2) = sent ++ batchesSent ix /\
    Forall (fun ops => 0 < Batch_Size ops <= n) sent.
Proof.
  intros Hh Hn Hl. unfold NewBatch. destruct (Z.leb_spec n 0) as [?|_]; [lia|].
  destruct (Upsert_steps l (mkBatch ∅ ix n))
    as (b1 & sent & Hrun & Hsz & Hh1 & Hlt & Hdocs & Hsent & Hall); [done| |done|].
  { cbn [batch size]. unfold Batch_Size. rewrite map_size_empty. lia. }
  cbn [batch index size] in *. rewrite BleveFacts.applied_empty in Hdocs.
  destruct (Push_cases b1) as [[E HP]|[(Hne & _ & HP)|(_ & Hh1' & _)]]; [| |congruence].
  - exists (mkBatch ∅ ix n), b1, b1, sent. rewrite E, BleveFacts.applied_empty in Hdocs.
    done.
  - eexists (mkBatch ∅ ix n), b1, _, (batch b1 :: sent).
    split; [done|]. split; [done|]. split; [exact HP|].
    cbn [batch index docs]. split; [done|]. split; [done|]. split.
    + change (batchesSent (mkIndex ?d ?h (CallBatch ?o :: calls ?i)))
        with (o :: batchesSent i). by rewrite Hsent.
    + constructor; [|done]. split; [|lia].
      assert (Batch_Size (batch b1) <> 0) by (by rewrite BleveFacts.Batch_Size_zero).
      unfold Batch_Size in *. lia.
Qed.

Lemma embedded_Upsert_batching_witness :
  exists b0 b1 b2,
    NewBatch (mkIndex ∅ true []) 2 = inr b0 /\
    Operator.callAll [Operator.CallUpsert "s1!docs" Sample.docsFolder;
                      Operator.CallUpsert "s1!report" Sample.report;
                      Operator.CallUpsert "s1!notes" Sample.notes] b0 = (b1, None) /\
    Push b1 = (b2, None) /\
    docs (index b2)
    = <["s1!notes" := Sample.notes]>
        (<["s1!report" := Sample.report]> (<["s1!docs" := Sample.docsFolder]> ∅)) /\
    length (batchesSent (index b2)) = 2%nat.
Proof.
  destruct (embedded_Upsert_batching (mkIndex ∅ true []) 2
              [("s1!docs", Sample.docsFolder); ("s1!report", Sample.report);
               ("s1!notes", Sample.notes)])
    as (b0 & b1 & b2 & sent & H0 & H1 & H2 & _ & Hdocs & Hsent & _).
  - reflexivity.
  - lia.
  - repeat constructor; discriminate.
  - exists b0, b1, b2. split; [exact H0|]. split; [exact H1|]. split; [exact H2|].
    split; [exact Hdocs|].
    injection H0 as <-. vm_compute in H1. injection H1 as <-.
    vm_compute in H2. injection H2 as <-. reflexivity.
Defined.

(** X6. What the mutations of the embedded backend leave alone, whatever
    the state of the index and whether they succeed or fail: an upsert
    changes no document but the one under its identifier; a purge removes
    documents and changes none; and on an index whose documents are stored
    under their identifiers, [Move], [Delete] and [Restore] neither add
    nor remove a document, and the documents stay stored under their
    identifiers. *)
Theorem embedded_mutation_footprint (m : Operator.Mutation) (B B' : Backend)
        (err : option error) :
  viaBatch (Operator.call m) B = (B', err) ->
  match m with
  | Operator.CallUpsert id r =>
      forall k, k <> id -> docs (backendIndex B') !! k = docs (backendIndex B) !! k
  | Operator.CallPurge _ _ => docs (backendIndex B') ⊆ docs (backendIndex B)
  | _ =>
      map_Forall storedUnderID (docs (backendIndex B)) ->
      (forall k, is_Some (docs (backendIndex B') !! k)
                 <-> is_Some (docs (backendIndex B) !! k)) /\
      map_Forall storedUnderID (docs (backendIndex B'))
  end.
Proof.
  destruct (call_stages m) as (f & -> & Hf & Hst). intros Hrun.
  destruct (viaBatch_outcome f B B' err Hf Hrun) as (_ & _ & Hout).
  set (b0 := mkBatch ∅ (backendIndex B) defaultBatchSize) in *.
  assert (docs (backendIndex B') = docs (backendIndex B) \/
          docs (backendIndex B') = merge applyOp (batch (f b0).1) (docs (backendIndex B)))
    as [E|E].
  { destruct ((f b0).2); [tauto|]. destruct (decide _); [tauto|].
    destruct Hout as [_ Hout]. destruct (healthy (backendIndex B)); tauto. }
  { rewrite E. by destruct m. }
  rewrite E. clear E Hout Hrun.
  assert (forall k v, batch (f b0).1 !! k = Some v ->
            match m with
            | Operator.CallUpsert id r => k = id /\ v = Some r
            | Operator.CallPurge _ _ => v = None
            | _ => exists r, v = Some r /\ k = ID r /\
                             rebuiltFrom (docs (backendIndex B)) r
            end) as Hent.
  { intros k v Hk. destruct (Hst b0 k v Hk) as [Hin|?]; [|done].
    subst b0. cbn [batch] in Hin. by rewrite lookup_empty in Hin. }
  clear Hst.
  assert (map_Forall storedUnderID (docs (backendIndex B)) ->
          (forall k v, batch (f b0).1 !! k = Some v ->
             exists r, v = Some r /\ k = ID r /\ rebuiltFrom (docs (backendIndex B)) r) ->
          (forall k,
              is_Some (merge applyOp (batch (f b0).1) (docs (backendIndex B)) !! k)
              <-> is_Some (docs (backendIndex B) !! k)) /\
          map_Forall storedUnderID
                     (merge applyOp (batch (f b0).1) (docs (backendIndex B)))) as Hrw.
  { intros Hwf Hre.
    assert (forall k r, batch (f b0).1 !! k = Some (Some r) ->
              ID r = k /\ k <> "" /\ is_Some (docs (backendIndex B) !! k)) as Hkey.
    { intros k r Hk. destruct (Hre k _ Hk) as (r' & [= <-] & -> & k' & hit & Hhit & Hid & _).
      destruct (map_Forall_lookup_1 _ _ _ _ Hwf Hhit) as [Hk' Hne].
      rewrite Hid, Hk'. split; [done|]. split; [done|]. by eexists. }
    split.
    - intros k. rewrite BleveFacts.lookup_applied.
      destruct (batch (f b0).1 !! k) as [[r|]|] eqn:Hk; simpl.
      + destruct (Hkey k r Hk) as (_ & _ & Hs). split; [done|]. by eexists.
      + by destruct (Hre k _ Hk) as (r' & ? & _).
      + done.
    - intros k D. rewrite BleveFacts.lookup_applied.
      destruct (batch (f b0).1 !! k) as [[r|]|] eqn:Hk; simpl.
      + intros [= <-]. destruct (Hkey k r Hk) as (? & ? & _). done.
      + done.
      + intros HD. exact (map_Forall_lookup_1 _ _ _ _ Hwf HD). }
  destruct m as [id r|id parentID location|id|id|id onlyDeleted]; try (intros Hwf; by apply Hrw).
  - intros k Hk. rewrite BleveFacts.lookup_applied.
    destruct (batch (f b0).1 !! k) as [v|] eqn:Hv; [|done].
    by destruct (Hent k v Hv) as [-> _].
  - apply map_subseteq_spec. intros k D. rewrite BleveFacts.lookup_applied.
    destruct (batch (f b0).1 !! k) as [v|] eqn:Hv; [|done].
    by rewrite (Hent k v Hv).
Qed.

Lemma embedded_mutation_footprint_witness :
  exists B',
    Backend_Move "s1!docs" "s1" "/archive" Sample.backend = (B', None) /\
    (forall k, is_Some (docs (backendIndex B') !! k) <-> is_Some (Sample.stored !! k)).
Proof.
  assert (exists B', Backend_Move "s1!docs" "s1" "/archive" Sample.backend = (B', None))
    as [B' E].
  { eexists. vm_compute. reflexivity. }
  exists B'. split; [exact E|].
  apply (embedded_mutation_footprint (Operator.CallMove "s1!docs" "s1" "/archive")
           Sample.backend B' None E).
  apply map_Forall_to_list. vm_compute. repeat constructor; discriminate.
Defined.

(** X7. [Move], [Delete] and [Restore] write documents back as
    [matchToResource] reads them, and it does not read [Hidden]: whatever
    the state of the index, every document such a mutation writes has
    [Hidden = false]. *)
Theorem embedded_rewrite_clears_Hidden (m : Operator.Mutation) (B B' : Backend)
        (err : option error) :
  rewrites m = true ->
  viaBatch (Operator.call m) B = (B', err) ->
  forall k D', docs (backendIndex B') !! k = Some D' ->
    docs (backendIndex B) !! k = Some D' \/ Hidden D' = false.
Proof.
  intros Hm. destruct (call_stages m) as (f & -> & Hf & Hst). intros Hrun.
  destruct (viaBatch_outcome f B B' err Hf Hrun) as (_ & _ & Hout).
  set (b0 := mkBatch ∅ (backendIndex B) defaultBatchSize) in *.
  assert (docs (backendIndex B') = docs (backendIndex B) \/
          docs (backendIndex B') = merge applyOp (batch (f b0).1) (docs (backendIndex B)))
    as [E|E].
  { destruct ((f b0).2); [tauto|]. destruct (decide _); [tauto|].
    destruct Hout as [_ Hout]. destruct (healthy (backendIndex B)); tauto. }
  { rewrite E. by left. }
  rewrite E. intros k D'. rewrite BleveFacts.lookup_applied.
  destruct (batch (f b0).1 !! k) as [v|] eqn:Hv; [|by left].
  destruct (Hst b0 k v Hv) as [Hin|Hin];
    [subst b0; cbn [batch] in Hin; by rewrite lookup_empty in Hin|].
  destruct m; try done; destruct Hin as (r & -> & _ & k' & hit & _ & _ & _ & _ & Hhid);
    simpl; intros [= E']; right; by rewrite <- E'.
Qed.

Lemma embedded_rewrite_clears_Hidden_witness :
  exists B' D',
    Backend_Delete "s1!report" Cases.hiding = (B', None) /\
    docs (backendIndex B') !! "s1!report" = Some D' /\
    Hidden Cases.hiddenReport = true /\ Hidden D' = false.
Proof.
  pose (B' := (Backend_Delete "s1!report" Cases.hiding).1).
  pose (D' := setDeleted true (matchToResource Cases.hiddenReport)).
  assert (Backend_Delete "s1!report" Cases.hiding = (B', None)) as E
    by (vm_compute; reflexivity).
  assert (docs (backendIndex B') !! "s1!report" = Some D') as HD
    by (vm_compute; reflexivity).
  exists B', D'. split; [exact E|]. split; [exact HD|]. split; [reflexivity|].
  destruct (embedded_rewrite_clears_Hidden (Operator.CallDelete "s1!report") Cases.hiding
              B' None eq_refl E "s1!report" D' HD) as [Hsame|Hh]; [|exact Hh].
  vm_compute in Hsame. discriminate.
Defined.









End BatchLaws.

(** ** The read path *)

Module ReadPath.
Import Search Spec Terms.

Lemma length_takeZ {A : Type} (n : Z) (l : list A) :
  Z.of_nat (length (takeZ n l)) <= Z.max 0 n.
Proof.
  revert n. induction l as [|x l IH]; intros n; simpl; [lia|].
  destruct (Z.leb_spec n 0); simpl; [lia|]. specialize (IH (n - 1)). lia.
Qed.

(** X10. A search never returns more matches than the size it asks the
    engine for: the page size of the request when it is positive, 200
    when it is zero, and when it is -1 [math.MaxInt] on the embedded
    backend but 1000 on the clustered one. *)
Theorem Search_page_bound :
  (forall (ParseID : string -> option ResourceId) (FormatResourceID : ResourceId -> string)
          (b b' : Bleve.Backend) (sir : SearchIndexRequest) (resp : SearchIndexResponse),
      Bleve.Search ParseID FormatResourceID b sir = (b', inr resp) ->
      Z.of_nat (length (Matches resp)) <= Z.max 0 (Bleve.requestSize (PageSize sir))) /\
  (forall (pathTerm : string -> string -> bool)
          (KQLToOpenSearchBoolQuery : string -> error + OpenSearch.BoolQuery)
          (OpenSearchHitToMatch : Resource -> error + Match)
          (FormatResourceID : ResourceId -> string)
          (b b' : OpenSearch.Backend) (sir : SearchIndexRequest) (resp : SearchIndexResponse),
      OpenSearch.Search pathTerm KQLToOpenSearchBoolQuery OpenSearchHitToMatch
                        FormatResourceID b sir = (b', inr resp) ->
      Z.of_nat (length (Matches resp))
      <= Z.max 0 (OpenSearch.requestSize (PageSize sir))).
Proof.
  split.
  - intros ParseID FormatResourceID b b' sir resp Hrun.
    apply BleveFacts.embedded_Search_ok in Hrun
      as (createdQuery & hits & total & _ & Hs & _ & Hm & _).
    apply Forall2_length in Hm. rewrite <- Hm.
    unfold Bleve.Index_Search in Hs. destruct (Bleve.healthy _); [|done].
    cbn [Bleve.ReqSize Bleve.ReqQuery] in Hs.
    match type of Hs with
    | (_, inr (Bleve.mkSearchResult (takeZ ?n ?xs) _)) = _ =>
        pose proof (length_takeZ n xs) as Hlen; assert (hits = takeZ n xs) as -> by congruence
    end.
    pose proof (length_filter (fun h => skipped (Ref sir) (Path h) = false)
                              (takeZ (Bleve.requestSize (PageSize sir))
                                 (map snd (filter (fun d => Bleve.queryMatches
                                    (Bleve.searchQuery createdQuery (Ref sir) FormatResourceID)
                                    d = true)
                                    (map_to_list (Bleve.docs (Bleve.backendIndex b)))))))
      as Hle.
    lia.
  - intros pathTerm KQL HitToMatch FormatResourceID b b' sir resp Hrun.
    unfold OpenSearch.Search in Hrun.
    destruct (KQL (Query sir)) as [err|boolQuery]; [done|].
    destruct (OpenSearch.Client_Search _ _ _ _) as [cl [err|res]] eqn:Hs; [done|].
    destruct (OpenSearch.collect _ _ _ _ _) as [err|[ms t]] eqn:Hc; [done|].
    injection Hrun as _ <-. cbn [Matches].
    apply OpenSearchFacts.clustered_collect_spec in Hc as (new & Hconv & -> & _).
    apply Forall2_length in Hconv.
    unfold OpenSearch.Client_Search in Hs. destruct (OpenSearch.healthy _); [|done].
    injection Hs as _ <-. cbn [OpenSearch.Hits default] in Hconv.
    match type of Hconv with
    | length (takeZ ?n ?xs) = _ => pose proof (length_takeZ n xs) as Hlen
    end.
    pose proof (length_filter (fun m => skipped (Ref sir) (MatchPath m) = false) new) as Hle.
    simpl. lia.
Qed.


Section Parse.
Variable ParseID : string -> option ResourceId.
Variable FormatResourceID : ResourceId -> string.

Lemma parseError_None (hit : Resource) :
  parseError ParseID hit = None <-> parsable ParseID hit.
Proof.
  unfold parseError, parsable.
  destruct (ParseID (RootID hit)), (ParseID (ID hit)); split; try done;
    intros [[? ?] [? ?]]; done.
Qed.

Lemma embedded_collect_outcome (ref : option Reference) (hits : list Resource)
      (acc : list Match) (total : Z) :
  let inScope := filter (fun h => skipped ref (Path h) = false) hits in
  match Bleve.collect ParseID ref hits acc total with
  | inr (ms, _) =>
      Forall (parsable ParseID) inScope /\
      length ms = (length acc + length inScope)%nat
  | inl err =>
      exists pre hit post,
        inScope = pre ++ hit :: post /\ Forall (parsable ParseID) pre /\
        parseError ParseID hit = Some err
  end.
Proof.
  revert acc total. induction hits as [|hit rest IH]; intros acc total; simpl.
  - split; [constructor|lia].
  - rewrite filter_cons. destruct (skipped ref (Path hit)) eqn:Hs.
    + rewrite decide_False by done. apply IH.
    + rewrite decide_True by done.
      destruct (ParseID (RootID hit)) as [rootID|] eqn:Hroot.
      2:{ exists [], hit, (filter (fun h => skipped ref (Path h) = false) rest).
          split; [done|]. split; [constructor|]. unfold parseError. by rewrite Hroot. }
      destruct (ParseID (ID hit)) as [rID|] eqn:Hid.
      2:{ exists [], hit, (filter (fun h => skipped ref (Path h) = false) rest).
          split; [done|]. split; [constructor|]. unfold parseError.
          by rewrite Hroot, Hid. }
      specialize (IH (acc ++ [Bleve.hitToMatch ParseID rootID rID hit]) total).
      destruct (Bleve.collect _ _ _ _ _) as [err|[ms t]].
      * destruct IH as (pre & h & post & -> & Hpre & Herr).
        exists (hit :: pre), h, post. split; [done|]. split; [|done].
        constructor; [|done]. unfold parsable. by rewrite Hroot, Hid.
      * destruct IH as [Hall Hlen]. split.
        -- constructor; [|done]. unfold parsable. by rewrite Hroot, Hid.
        -- rewrite Hlen, length_app. simpl. lia.
Qed.

(** X11. The embedded backend parses the [RootID] and the [ID] of every
    hit the scope test keeps. Once the query is created and the index
    has answered, the search succeeds exactly when all of them parse,
    and then returns one match for each of these hits; otherwise it
    fails with the error of the first identifier that does not parse
    and returns no match at all. Hits the scope test skips are not
    parsed. *)
Theorem embedded_Search_parses_ids (b : Bleve.Backend) (sir : SearchIndexRequest)
        (createdQuery : Resource -> bool) (ix : Bleve.Index) (res : Bleve.SearchResult) :
  Bleve.queryCreator b (Query sir) = inr createdQuery ->
  Bleve.Index_Search
    (Bleve.mkSearchRequest (Bleve.searchQuery createdQuery (Ref sir) FormatResourceID)
                           (Bleve.requestSize (PageSize sir)))
    (Bleve.backendIndex b) = (ix, inr res) ->
  let inScope := filter (fun h => skipped (Ref sir) (Path h) = false) (Bleve.Hits res) in
  match (Bleve.Search ParseID FormatResourceID b sir).2 with
  | inr resp =>
      Forall (parsable ParseID) inScope /\ length (Matches resp) = length inScope
  | inl err =>
      exists pre hit post,
        inScope = pre ++ hit :: post /\ Forall (parsable ParseID) pre /\
        parseError ParseID hit = Some err
  end.
Proof.
  intros Hq Hs inScope. unfold Bleve.Search. rewrite Hq, Hs.
  pose proof (embedded_collect_outcome (Ref sir) (Bleve.Hits res) [] (Bleve.Total res))
    as Hc.
  by destruct (Bleve.collect _ _ _ _ _) as [err|[ms t]].
Qed.

End Parse.

Lemma embedded_Search_parses_ids_witness :
  (Bleve.Search Sample.ParseID Sample.FormatResourceID Cases.broken Cases.everything).2
  = inl (ErrParseID "") /\
  exists hit, hit ∈ [Cases.nameless; Sample.notes] /\
              parseError Sample.ParseID hit = Some (ErrParseID "").
Proof.
  assert ((Bleve.Search Sample.ParseID Sample.FormatResourceID Cases.broken
                        Cases.everything).2 = inl (ErrParseID "")) as E.
  { vm_compute. reflexivity. }
  split; [exact E|].
  pose proof (embedded_Search_parses_ids Sample.ParseID Sample.FormatResourceID
                Cases.broken Cases.everything (fun _ => true)
                (Bleve.Index_Search
                   (Bleve.mkSearchRequest
                      (Bleve.searchQuery (fun _ => true) None Sample.FormatResourceID) 200)
                   (Bleve.backendIndex Cases.broken)).1
                (Bleve.mkSearchResult [Cases.nameless; Sample.notes] 2)
                eq_refl) as H.
  rewrite E in H. destruct H as (pre & hit & post & Hin & _ & Herr).
  - vm_compute. reflexivity.
  - exists hit. split; [|exact Herr].
    change (filter _ _) with [Cases.nameless; Sample.notes] in Hin.
    rewrite Hin. apply elem_of_app. right. by left.
Defined.
End ReadPath.

(** ** The batch operator and the mutations of the clustered backend *)

Module ClusterLaws.
Import Search OpenSearch Spec Terms.

Lemma replaceAll_from_skip (p t old new : string) :
  Go.replaceAll_from (String.length p) (p +:+ t) old new = Go.replaceAll_from 0 t old new.
Proof. induction p as [|c p IH]; [done|]. simpl. exact IH. Qed.

(** [String.replace] on a string that starts with the text to replace. *)
Lemma replaceAll_prefix (old t new : string) :
  old <> "" -> Go.replaceAll (old +:+ t) old new = new +:+ Go.replaceAll t old new.
Proof.
  intros Hne. destruct old as [|c old]; [done|]. unfold Go.replaceAll.
  rewrite GoFacts.append_cons. cbn [Go.replaceAll_from].
  rewrite <- GoFacts.append_cons, GoFacts.HasPrefix_app.
  cbn [String.length].
  replace (S (String.length old) - 1)%nat with (String.length old) by lia.
  by rewrite replaceAll_from_skip.
Qed.

Lemma replaceAll_nil (old new : string) : old <> "" -> Go.replaceAll "" old new = "".
Proof. intros Hne. by destruct old. Qed.

Lemma append_nil_r (s : string) : s +:+ "" = s.
Proof. induction s as [|c s IH]; [done|]. by rewrite GoFacts.append_cons, IH. Qed.

Lemma replaceAll_self (old new : string) : old <> "" -> Go.replaceAll old old new = new.
Proof.
  intros Hne. pose proof (replaceAll_prefix old "" new Hne) as H.
  by rewrite replaceAll_nil, !append_nil_r in H.
Qed.

Section Engine.
Variable pathTerm : string -> string -> bool.

Lemma updateSelfAndDescendants_healthy (id : string)
      (scriptProvider : Resource -> BodyParamScript) (cl : Client) (C : Resource) :
  healthy cl = true -> docs cl !! id = Some C ->
  updateSelfAndDescendants pathTerm id scriptProvider cl
  = (mkClient ((fun D => if pathTerm (Path C) (Path D)
                         then runScript (scriptProvider C) D else D) <$> docs cl)
              true
              (CallUpdateByQuery (TermQuery (TermString "Path" (Path C))) (scriptProvider C)
               :: CallSearch (IDsQuery [id]) None :: calls cl), None).
Proof.
  intros Hh HC. unfold updateSelfAndDescendants.
  rewrite (OpenSearchFacts.client_searchResourceByID_found pathTerm cl id C Hh HC).
  unfold Client_UpdateByQuery. cbn [healthy called docs calls]. rewrite Hh.
  f_equal. f_equal. apply map_eq. intros k. rewrite map_lookup_imap, lookup_fmap.
  by destruct (docs cl !! k) as [D|].
Qed.

Lemma updateSelfAndDescendants_missing (id : string)
      (scriptProvider : Resource -> BodyParamScript) (cl : Client) :
  healthy cl = true -> docs cl !! id = None ->
  updateSelfAndDescendants pathTerm id scriptProvider cl
  = (called (CallSearch (IDsQuery [id]) None) cl,
     Some (ErrWrap "failed to get resource" (ErrDocumentNotFound id))).
Proof.
  intros Hh HC. unfold updateSelfAndDescendants.
  by rewrite (OpenSearchFacts.client_searchResourceByID_missing pathTerm cl id Hh HC).
Qed.

(** A mutation of the backend that stages one query-addressed
    operation runs it on the backend's client. *)
Lemma viaBatch_query (q : Client -> Client * option error) (B : Backend) :
  viaBatch (withSizeLimit (fun b => (stage (QueryOperation q) b, None))) B
  = (withClient (q (backendClient B)).1 B,
     ErrWrap "failed to execute operation" <$> (q (backendClient B)).2).
Proof.
  unfold viaBatch, NewBatch. simpl. unfold withSizeLimit, stage.
  cbn [operations size length app client index].
  replace (defaultBatchSize <=? Z.of_nat 1) with false by done.
  unfold Push. cbn [operations client index size pushOperations pushBulkOperations].
  destruct (q (backendClient B)) as [cl [err|]]; done.
Qed.

(** X15. [Delete] and [Restore] on the clustered backend, on a healthy
    cluster that stores the resource: the update-by-query sets the
    deletion state on every document whose path the engine matches with
    the term query on the resource's path, in whatever space it lies,
    and changes nothing else. *)
Theorem clustered_deletion_cascade (B : Backend) (id : string) (C : Resource) :
  healthy (backendClient B) = true ->
  docs (backendClient B) !! id = Some C ->
  (exists B',
      Backend_Delete pathTerm id B = (B', None) /\
      docs (backendClient B')
      = (fun D => if pathTerm (Path C) (Path D) then setDeleted true D else D)
          <$> docs (backendClient B)) /\
  (exists B',
      Backend_Restore pathTerm id B = (B', None) /\
      docs (backendClient B')
      = (fun D => if pathTerm (Path C) (Path D) then setDeleted false D else D)
          <$> docs (backendClient B)).
Proof.
  intros Hh HC. unfold Backend_Delete, Backend_Restore, Delete, Restore.
  rewrite !viaBatch_query, !(updateSelfAndDescendants_healthy _ _ _ C Hh HC).
  split; eexists; (split; [reflexivity|done]).
Qed.

(** X16. [Move] on the clustered backend, on a healthy cluster that
    stores the resource: the script runs on every document whose path
    the engine matches with the term query on the resource's old path.
    It replaces every occurrence of the old path in the document's path,
    not the leading one alone, and sets the name and the parent on the
    document whose [ID] is the one moved. Nothing else changes. A path
    that starts with the old path gets the new path in its place,
    followed by the rest with its own occurrences replaced. *)
Theorem clustered_Move_rewrites (B : Backend) (id : string) (C : Resource)
        (parentID location : string) :
  healthy (backendClient B) = true ->
  docs (backendClient B) !! id = Some C ->
  Path C <> "" ->
  let nextPath := Go.MakeRelativePath location in
  exists B',
    Backend_Move pathTerm id parentID location B = (B', None) /\
    docs (backendClient B')
    = (fun D =>
         if pathTerm (Path C) (Path D)
         then setPath (Go.replaceAll (Path D) (Path C) nextPath)
                (if String.eqb (ID D) id
                 then setParentID parentID (setResourceName (Go.Base nextPath) D)
                 else D)
         else D) <$> docs (backendClient B) /\
    (forall rest, Go.replaceAll (Path C +:+ rest) (Path C) nextPath
                  = nextPath +:+ Go.replaceAll rest (Path C) nextPath) /\
    Go.replaceAll (Path C) (Path C) nextPath = nextPath.
Proof.
  intros Hh HC Hne nextPath. unfold Backend_Move, Move.
  rewrite viaBatch_query, (updateSelfAndDescendants_healthy _ _ _ C Hh HC).
  eexists. split; [reflexivity|]. split; [|split].
  - cbn [withClient backendClient docs fst]. apply map_fmap_ext. intros k D _.
    destruct (pathTerm (Path C) (Path D)); [|done]. unfold runScript.
    by destruct (String.eqb (ID D) id).
  - intros rest. by apply replaceAll_prefix.
  - by apply replaceAll_self.
Qed.

(** X17. A resource that is not in the cluster: on a healthy cluster,
    [Move], [Delete] and [Restore] are staged without a lookup and fail
    when pushed, [Purge] fails when it is staged; each after one search
    for the identifier, with "document with id ... not found", and no
    document changes. *)
Theorem clustered_missing_id (B : Backend) (id : string) :
  healthy (backendClient B) = true ->
  docs (backendClient B) !! id = None ->
  let B' := withClient (called (CallSearch (IDsQuery [id]) None) (backendClient B)) B in
  let notFound := ErrWrap "failed to get resource" (ErrDocumentNotFound id) in
  let atPush := ErrWrap "failed to execute operation" notFound in
  (forall parentID location,
      Backend_Move pathTerm id parentID location B = (B', Some atPush)) /\
  Backend_Delete pathTerm id B = (B', Some atPush) /\
  Backend_Restore pathTerm id B = (B', Some atPush) /\
  (forall onlyDeleted, Backend_Purge pathTerm id onlyDeleted B = (B', Some notFound)).
Proof.
  intros Hh HC B' notFound atPush.
  unfold Backend_Move, Backend_Delete, Backend_Restore, Move, Delete, Restore.
  split; [|split; [|split]].
  - intros parentID location.
    by rewrite viaBatch_query, (updateSelfAndDescendants_missing _ _ _ Hh HC).
  - by rewrite viaBatch_query, (updateSelfAndDescendants_missing _ _ _ Hh HC).
  - by rewrite viaBatch_query, (updateSelfAndDescendants_missing _ _ _ Hh HC).
  - intros onlyDeleted. unfold Backend_Purge, viaBatch, NewBatch. simpl.
    unfold Purge, withSizeLimit. cbn [client index size operations].
    by rewrite (OpenSearchFacts.client_searchResourceByID_missing pathTerm _ id Hh HC).
Qed.

End Engine.

Lemma clustered_deletion_cascade_witness :
  exists B',
    Backend_Delete pathHierarchy "s1!docs" Sample.cluster = (B', None) /\
    Deleted <$> docs (backendClient B') !! "s1!report" = Some true /\
    Deleted <$> docs (backendClient B') !! "s2!docs" = Some true /\
    docs (backendClient B') !! "s1!notes" = Some Sample.notes.
Proof.
  destruct (clustered_deletion_cascade pathHierarchy Sample.cluster "s1!docs"
              Sample.docsFolder) as [(B' & Hrun & Hdocs) _].
  - reflexivity.
  - vm_compute. reflexivity.
  - exists B'. split; [exact Hrun|]. rewrite Hdocs.
    split; [|split]; vm_compute; reflexivity.
Defined.

Lemma clustered_Move_rewrites_witness :
  exists B',
    Backend_Move pathHierarchy "s1!docs" "s1" "/archive" Sample.cluster = (B', None) /\
    Path <$> docs (backendClient B') !! "s1!docs" = Some "./archive" /\
    Name <$> (Doc <$> docs (backendClient B') !! "s1!docs") = Some "archive" /\
    Path <$> docs (backendClient B') !! "s1!report" = Some "./archive/report.txt" /\
    Path <$> docs (backendClient B') !! "s2!docs" = Some "./archive" /\
    docs (backendClient B') !! "s1!notes" = Some Sample.notes.
Proof.
  destruct (clustered_Move_rewrites pathHierarchy Sample.cluster "s1!docs"
              Sample.docsFolder "s1" "/archive") as (B' & Hrun & Hdocs & _).
  - reflexivity.
  - vm_compute. reflexivity.
  - discriminate.
  - exists B'. split; [exact Hrun|]. rewrite Hdocs.
    repeat split; vm_compute; reflexivity.
Defined.

Lemma clustered_missing_id_witness :
  Backend_Delete pathHierarchy "s1!gone" Sample.cluster
  = (withClient (called (CallSearch (IDsQuery ["s1!gone"]) None) Sample.client) Sample.cluster,
     Some (ErrWrap "failed to execute operation"
             (ErrWrap "failed to get resource" (ErrDocumentNotFound "s1!gone")))).
Proof.
  refine (proj1 (proj2 (clustered_missing_id pathHierarchy Sample.cluster "s1!gone" _ _))).
  - reflexivity.
  - vm_compute. reflexivity.
Defined.


Lemma applyBulk_indexLines (idx : string) (l : list (string * Resource))
      (stored : gmap string Resource) :
  applyBulk (indexLines idx l) stored = foldl (fun m p => <[p.1 := p.2]> m) stored l.
Proof.
  revert stored. induction l as [|[id r] l IH]; intros stored; [done|].
  unfold indexLines in *. simpl. apply IH.
Qed.

Lemma length_indexLines (idx : string) (l : list (string * Resource)) :
  length (indexLines idx l) = (2 * length l)%nat.
Proof. induction l as [|p l IH]; [done|]. unfold indexLines in *. simpl. lia. Qed.

Lemma pushOperations_upsertOps (idx : string) (l : list (string * Resource))
      (bulk : list BulkLine) (cl : Client) :
  pushOperations (upsertOps idx l) bulk cl = (cl, bulk ++ indexLines idx l, None).
Proof.
  revert bulk. induction l as [|p l IH]; intros bulk.
  - simpl. by rewrite app_nil_r.
  - unfold upsertOps, indexLines in *. simpl. rewrite IH. by rewrite <- app_assoc.
Qed.

(** The push of staged upserts on a healthy cluster. *)
Lemma Push_upsertOps (cl : Client) (idx : string) (n : Z) (l : list (string * Resource)) :
  healthy cl = true -> l <> [] ->
  Push (mkBatch cl idx n (upsertOps idx l))
  = (mkBatch (mkClient (foldl (fun m p => <[p.1 := p.2]> m) (docs cl) l) true
                       (CallBulk (indexLines idx l) :: calls cl)) idx n [], None).
Proof.
  intros Hh Hne. unfold Push. cbn [operations client index size].
  rewrite pushOperations_upsertOps. cbn [app].
  assert (exists line rest, indexLines idx l = line :: rest) as (line & rest & E).
  { destruct l as [|[id r] l]; [done|]. by eexists _, _. }
  rewrite E, OpenSearchFacts.pushBulkOperations_healthy by done.
  by rewrite <- E, applyBulk_indexLines.
Qed.

Lemma upsertOps_app (idx : string) (l l' : list (string * Resource)) :
  upsertOps idx l ++ upsertOps idx l' = upsertOps idx (l ++ l').
Proof. unfold upsertOps. by rewrite map_app. Qed.

(** One upsert on a batch that holds upserts only and is below its
    size, on a healthy cluster. *)
Lemma clustered_Upsert_step (cl : Client) (idx : string) (n : Z)
      (l : list (string * Resource)) (id : string) (r : Resource) :
  healthy cl = true -> Z.of_nat (length l) < n ->
  exists cl' l' sent,
    Upsert id r (mkBatch cl idx n (upsertOps idx l))
    = (mkBatch cl' idx n (upsertOps idx l'), None) /\
    healthy cl' = true /\ Z.of_nat (length l') < n /\
    foldl (fun m p => <[p.1 := p.2]> m) (docs cl') l'
    = <[id := r]> (foldl (fun m p => <[p.1 := p.2]> m) (docs cl) l) /\
    bulksSent cl' = sent ++ bulksSent cl /\
    Forall (fun body => 0 < Z.of_nat (length body) <= 2 * n) sent.
Proof.
  intros Hh Hlt. unfold Upsert, withSizeLimit, stage. cbn [operations size client index].
  change (upsertOps idx l ++ [BulkOperation (fun _ => [IndexAction idx id; Source r])])
    with (upsertOps idx l ++ upsertOps idx [(id, r)]).
  rewrite upsertOps_app.
  assert (length (upsertOps idx (l ++ [(id, r)])) = S (length l)) as Hlen.
  { unfold upsertOps. rewrite length_map, length_app. simpl. lia. }
  rewrite Hlen.
  destruct (Z.leb_spec n (Z.of_nat (S (length l)))) as [Hle|Hgt].
  - rewrite Push_upsertOps by (done || by destruct l).
    eexists _, [], [_]. split; [reflexivity|]. cbn [healthy docs length foldl].
    split; [done|]. split; [lia|]. split; [by rewrite foldl_app|].
    split; [reflexivity|]. constructor; [|constructor].
    rewrite length_indexLines, length_app. simpl. lia.
  - exists cl, (l ++ [(id, r)]), []. split; [reflexivity|]. split; [done|].
    split; [rewrite length_app; simpl; lia|]. split; [by rewrite foldl_app|].
    split; [done|constructor].
Qed.

Lemma clustered_Upsert_steps (pathTerm : string -> string -> bool)
      (todo : list (string * Resource)) (cl : Client)
      (idx : string) (n : Z) (l : list (string * Resource)) :
  healthy cl = true -> Z.of_nat (length l) < n ->
  exists cl' l' sent,
    @Operator.callAll _ (Operator.clustered pathTerm)
       (map (fun p => Operator.CallUpsert p.1 p.2) todo)
       (mkBatch cl idx n (upsertOps idx l))
    = (mkBatch cl' idx n (upsertOps idx l'), None) /\
    healthy cl' = true /\ Z.of_nat (length l') < n /\
    foldl (fun m p => <[p.1 := p.2]> m) (docs cl') l'
    = foldl (fun m p => <[p.1 := p.2]> m)
            (foldl (fun m p => <[p.1 := p.2]> m) (docs cl) l) todo /\
    bulksSent cl' = sent ++ bulksSent cl /\
    Forall (fun body => 0 < Z.of_nat (length body) <= 2 * n) sent.
Proof.
  revert cl l. induction todo as [|[id r] todo IH]; intros cl l Hh Hlt.
  - exists cl, l, []. by repeat split.
  - destruct (clustered_Upsert_step cl idx n l id r Hh Hlt)
      as (cl1 & l1 & sent1 & Hrun1 & Hh1 & Hlt1 & Hdocs1 & Hsent1 & Hall1).
    destruct (IH cl1 l1 Hh1 Hlt1)
      as (cl2 & l2 & sent2 & Hrun2 & Hh2 & Hlt2 & Hdocs2 & Hsent2 & Hall2).
    exists cl2, l2, (sent2 ++ sent1). cbn [map Operator.callAll Operator.call fst snd].
    change (@Operator.Upsert _ (Operator.clustered pathTerm) id r)
      with (Upsert id r). rewrite Hrun1.
    split; [exact Hrun2|]. split; [done|]. split; [done|].
    split; [by rewrite Hdocs2, Hdocs1|].
    split; [by rewrite Hsent2, Hsent1, app_assoc|].
    by apply Forall_app.
Qed.

(** X13. Batching is transparent for upserts on the clustered backend
    too. On a healthy cluster, for a batch of any positive size, the
    upserts of a list of documents, one call after the other, and the
    final push leave the cluster with every document stored under its
    identifier, later ones over earlier ones, and nothing staged. Every
    bulk request sent on the way carries at least one and at most [size]
    documents, two lines each. *)
Theorem clustered_Upsert_batching (pathTerm : string -> string -> bool)
        (cl : Client) (idx : string) (n : Z)
        (l : list (string * Resource)) :
  healthy cl = true -> 0 < n ->
  exists b0 b1 b2 sent,
    NewBatch cl idx n = inr b0 /\
    @Operator.callAll _ (Operator.clustered pathTerm)
       (map (fun p => Operator.CallUpsert p.1 p.2) l) b0 = (b1, None) /\
    Push b1 = (b2, None) /\
    operations b2 = [] /\
    docs (client b2) = foldl (fun m p => <[p.1 := p.2]> m) (docs cl) l /\
    bulksSent (client b2) = sent ++ bulksSent cl /\
    Forall (fun body => 0 < Z.of_nat (length body) <= 2 * n) sent.
Proof.
  intros Hh Hn. unfold NewBatch. destruct (Z.leb_spec n 0) as [?|_]; [lia|].
  destruct (clustered_Upsert_steps pathTerm l cl idx n [])
    as (cl1 & l1 & sent & Hrun & Hh1 & Hlt & Hdocs & Hsent & Hall); [done|simpl; lia|].
  change (upsertOps idx []) with (@nil Operation) in Hrun. cbn [foldl] in Hdocs.
  destruct l1 as [|p l1].
  - eexists _, _, _, sent. split; [reflexivity|]. split; [exact Hrun|].
    split; [reflexivity|]. done.
  - eexists _, _, _, (_ :: sent). split; [reflexivity|]. split; [exact Hrun|].
    split; [by apply Push_upsertOps|]. cbn [operations client docs].
    split; [done|]. split; [done|]. split.
    + change (bulksSent (mkClient ?d ?h (CallBulk ?o :: calls ?c)))
        with (o :: bulksSent c).
      by rewrite Hsent.
    + constructor; [|done]. rewrite length_indexLines. simpl length in *. lia.
Qed.

Lemma clustered_Upsert_batching_witness :
  exists b0 b1 b2,
    NewBatch (mkClient ∅ true []) "opencloud" 2 = inr b0 /\
    @Operator.callAll _ (Operator.clustered pathHierarchy)
       [Operator.CallUpsert "s1!docs" Sample.docsFolder;
        Operator.CallUpsert "s1!report" Sample.report;
        Operator.CallUpsert "s1!notes" Sample.notes] b0 = (b1, None) /\
    Push b1 = (b2, None) /\
    docs (client b2)
    = <["s1!notes" := Sample.notes]>
        (<["s1!report" := Sample.report]> (<["s1!docs" := Sample.docsFolder]> ∅)) /\
    length (bulksSent (client b2)) = 2%nat.
Proof.
  destruct (clustered_Upsert_batching pathHierarchy (mkClient ∅ true []) "opencloud" 2
              [("s1!docs", Sample.docsFolder); ("s1!report", Sample.report);
               ("s1!notes", Sample.notes)])
    as (b0 & b1 & b2 & sent & H0 & H1 & H2 & _ & Hdocs & Hsent & _).
  - reflexivity.
  - lia.
  - exists b0, b1, b2. split; [exact H0|]. split; [exact H1|]. split; [exact H2|].
    split; [exact Hdocs|].
    injection H0 as <-. vm_compute in H1. injection H1 as <-.
    vm_compute in H2. injection H2 as <-. reflexivity.
Defined.

(** X12. An upsert on the clustered backend, on a healthy cluster, stores
    the document under the identifier and leaves the others alone; a
    lookup of the identifier then yields the document as it was given.
    When the cluster does not answer the upsert fails with the error of
    the bulk request and no document changes. *)
Theorem clustered_Upsert_lookup (pathTerm : string -> string -> bool) :
  (forall (B : Backend) (id : string) (r : Resource),
      healthy (backendClient B) = true -> id <> "" ->
      exists B',
        Backend_Upsert id r B = (B', None) /\
        docs (backendClient B') = <[id := r]> (docs (backendClient B)) /\
        (searchResourceByID pathTerm id (backendClient B')).2 = inr r) /\
  (forall (B : Backend) (id : string) (r : Resource),
      healthy (backendClient B) = false ->
      exists B',
        Backend_Upsert id r B
        = (B', Some (ErrWrap "failed to execute bulk operations" ErrEngine)) /\
        docs (backendClient B') = docs (backendClient B)).
Proof.
  split; intros B id r Hh.
  - intros _. unfold Backend_Upsert, viaBatch, NewBatch. simpl.
    unfold Upsert, withSizeLimit, stage. cbn [operations size length app client index].
    replace (defaultBatchSize <=? Z.of_nat 1) with false by done.
    unfold Push. cbn [operations client index size pushOperations app].
    rewrite OpenSearchFacts.pushBulkOperations_healthy by done.
    eexists. split; [reflexivity|]. cbn [withClient backendClient client docs applyBulk].
    split; [done|].
    rewrite (OpenSearchFacts.client_searchResourceByID_found pathTerm _ id r); [done|done|].
    apply lookup_insert_eq.
  - unfold Backend_Upsert, viaBatch, NewBatch. simpl.
    unfold Upsert, withSizeLimit, stage. cbn [operations size length app client index].
    replace (defaultBatchSize <=? Z.of_nat 1) with false by done.
    unfold Push. cbn [operations client index size pushOperations app].
    unfold pushBulkOperations, Client_Bulk. rewrite Hh.
    eexists. split; [reflexivity|]. done.
Qed.

Lemma clustered_Push_frame (b : Batch) :
  size (Push b).1 = size b /\ index (Push b).1 = index b /\ operations (Push b).1 = [].
Proof.
  unfold Push. destruct (pushOperations _ _ _) as [[cl bulk] [err|]]; [done|].
  by destruct (pushBulkOperations bulk cl) as [[cl' bulk'] err].
Qed.

(** Staging one operation on a batch that is below its size: the batch
    is pushed when that fills it. *)
Lemma stage_below (op : Operation) (b b' : Batch) (err : option error) :
  Z.of_nat (length (operations b)) < size b ->
  withSizeLimit (fun b => (stage op b, None)) b = (b', err) ->
  size b' = size b /\ index b' = index b /\ Z.of_nat (length (operations b')) < size b'.
Proof.
  intros Hlt. unfold withSizeLimit. cbn [stage size operations].
  destruct (Z.leb_spec (size b) (Z.of_nat (length (operations b ++ [op])))) as [Hle|Hgt].
  - intros Hrun. destruct (clustered_Push_frame (stage op b)) as (Hsz & Hix & Hops).
    unfold stage in *. rewrite Hrun in *. simpl in *. rewrite Hops. simpl.
    split; [done|]. split; [done|]. lia.
  - intros [= <- <-]. cbn [stage size index operations]. done.
Qed.

(** X14. On the clustered batch operator a batch that is below its size
    stays below it: after every operation, whether it succeeds or fails,
    fewer operations than the size of the batch are staged. *)
Theorem clustered_staged_below_size (pathTerm : string -> string -> bool)
        (m : Operator.Mutation) (b b' : Batch) (err : option error) :
  Z.of_nat (length (operations b)) < size b ->
  @Operator.call _ (Operator.clustered pathTerm) m b = (b', err) ->
  size b' = size b /\ index b' = index b /\ Z.of_nat (length (operations b')) < size b'.
Proof.
  intros Hlt.
  destruct m as [id r|id parentID location|id|id|id onlyDeleted];
    cbn [Operator.call Operator.clustered Operator.Upsert Operator.Move Operator.Delete
         Operator.Restore Operator.Purge];
    try (unfold Upsert, Move, Delete, Restore; by apply stage_below).
  unfold Purge, withSizeLimit.
  destruct (searchResourceByID pathTerm id (client b)) as [cl [e|resource]].
  - by intros [= <- <-].
  - intros Hrun.
    apply (stage_below
             (QueryOperation (deleteByQuery pathTerm
                                (Bool (purgeQuery (Path resource) onlyDeleted))))
             (mkBatch cl (index b) (size b) (operations b)) b' err Hlt).
    exact Hrun.
Qed.

Lemma clustered_staged_below_size_witness :
  Z.of_nat (length (operations
              (Delete pathHierarchy "s1!docs"
                 Cases.oneStaged).1)) < 2.
Proof.
  destruct (Delete pathHierarchy "s1!docs"
              Cases.oneStaged)
    as [b' err] eqn:E.
  assert (Z.of_nat (length [QueryOperation (fun cl => (cl, None))]) < 2) as Hlt
    by (simpl; lia).
  destruct (clustered_staged_below_size pathHierarchy (Operator.CallDelete "s1!docs")
              Cases.oneStaged
              b' err Hlt E) as (Hsz & _ & Hlen).
  simpl in *. lia.
Defined.

(** X18. Whether an operation sees what the batch has staged. On the
    embedded batch operator [Delete] looks its resource up when it is
    called, in the index: after the upsert of a document that is new to
    the index, in a batch with room for more, the delete of that document
    fails with "entity not found" and the upsert stays staged. On the
    clustered batch operator the lookup runs when the batch is pushed,
    after the upserts staged before it have been sent: the same two calls
    succeed, and the push stores the document and marks it deleted. *)
Theorem staged_upsert_visibility :
  (forall (ix : Bleve.Index) (n : Z) (id : string) (r : Resource),
      Bleve.healthy ix = true -> Bleve.docs ix !! id = None -> id <> "" -> 1 < n ->
      exists b0 b1 b2,
        Bleve.NewBatch ix n = inr b0 /\
        Bleve.Upsert id r b0 = (b1, None) /\
        Bleve.Delete id b1 = (b2, Some ErrEntityNotFound) /\
        Bleve.batch b2 = {[id := Some r]} /\
        Bleve.docs (Bleve.index b2) = Bleve.docs ix) /\
  (forall (pathTerm : string -> string -> bool) (cl : Client) (idx : string) (n : Z)
          (id : string) (r : Resource),
      healthy cl = true -> pathTerm (Path r) (Path r) = true -> 2 < n ->
      exists b0 b1 b2 b3,
        NewBatch cl idx n = inr b0 /\
        Upsert id r b0 = (b1, None) /\
        Delete pathTerm id b1 = (b2, None) /\
        Push b2 = (b3, None) /\
        docs (client b3) !! id = Some (setDeleted true r)).
Proof.
  split.
  - intros ix n id r Hh Hid Hne Hn. unfold Bleve.NewBatch.
    destruct (Z.leb_spec n 0) as [?|_]; [lia|].
    eexists _, _, _. split; [reflexivity|].
    unfold Bleve.Upsert, Bleve.withSizeLimit, Bleve.Batch_Index.
    destruct (String.eqb_spec id ""); [done|]. cbn [Bleve.size Bleve.batch Bleve.index].
    assert (Bleve.Batch_Size (<[id:=Some r]> ∅) = 1) as Hone.
    { unfold Bleve.Batch_Size. by rewrite map_size_insert, lookup_empty, map_size_empty. }
    rewrite Hone. destruct (Z.leb_spec n 1) as [?|_]; [lia|].
    split; [reflexivity|].
    unfold Bleve.Delete, Bleve.withSizeLimit, Bleve.searchAndUpdateResourcesDeletionState.
    cbn [Bleve.index].
    rewrite (BleveFacts.searchResourceByID_missing _ _ Hh Hid).
    cbn [Bleve.stageAll Bleve.batch Bleve.size]. split; [reflexivity|].
    cbn [Bleve.batch Bleve.index Bleve.docs Bleve.called]. done.
  - intros pathTerm cl idx n id r Hh Hself Hn. unfold NewBatch.
    destruct (Z.leb_spec n 0) as [?|_]; [lia|].
    eexists _, _, _, _. split; [reflexivity|].
    unfold Upsert, withSizeLimit, stage. cbn [operations size length app client index].
    destruct (Z.leb_spec n (Z.of_nat 1)) as [?|_]; [lia|]. split; [reflexivity|].
    unfold Delete, withSizeLimit, stage. cbn [operations size length app client index].
    destruct (Z.leb_spec n (Z.of_nat 2)) as [?|_]; [lia|]. split; [reflexivity|].
    unfold Push. cbn [operations client index size pushOperations app].
    rewrite OpenSearchFacts.pushBulkOperations_healthy by done.
    rewrite (updateSelfAndDescendants_healthy pathTerm id _ _ r);
      [|done|cbn [docs applyBulk]; apply lookup_insert_eq].
    cbn [pushBulkOperations]. split; [reflexivity|].
    cbn [client docs applyBulk]. rewrite lookup_fmap, lookup_insert_eq. simpl.
    by rewrite Hself.
Qed.


Lemma staged_upsert_visibility_witness :
  exists b0 b1 b2,
    Bleve.NewBatch (Bleve.mkIndex ∅ true []) 50 = inr b0 /\
    Bleve.Upsert "s1!notes" Sample.notes b0 = (b1, None) /\
    Bleve.Delete "s1!notes" b1 = (b2, Some ErrEntityNotFound).
Proof.
  destruct (proj1 staged_upsert_visibility (Bleve.mkIndex ∅ true []) 50 "s1!notes"
              Sample.notes) as (b0 & b1 & b2 & H0 & H1 & H2 & _);
    [reflexivity|done|discriminate|lia|].
  by exists b0, b1, b2.
Defined.

End ClusterLaws.

(** ** The search service around the backends *)

Module ServiceLaws.
Import Search Service.

Lemma FindStringSubmatch_None (query : string) :
  FindStringSubmatch query = None <-> Contains query "scope:" = false.
Proof.
  induction query as [|c query IH].
  - done.
  - cbn [FindStringSubmatch Contains].
    destruct (Go.HasPrefix (String c query) "scope:").
    + destruct (span regexSpace _) as [white rest].
      by destruct (span scopeChar rest) as [value rest'].
    + by rewrite IH.
Qed.

(** X19. A query without [scope:] in it is returned as it is, not even
    trimmed, with no scope. *)
Theorem ParseScope_without_directive (query : string) :
  Contains query "scope:" = false -> ParseScope query = (query, "").
Proof.
  intros Hno. unfold ParseScope. apply FindStringSubmatch_None in Hno. by rewrite Hno.
Qed.

Lemma ParseScope_without_directive_witness :
  ParseScope "  name:report AND tag:scope  " = ("  name:report AND tag:scope  ", "").
Proof. apply ParseScope_without_directive. vm_compute. reflexivity. Defined.

Lemma all_span (p : ascii -> bool) (s : string) : all p (span p s).1 = true.
Proof.
  induction s as [|c s IH]; [done|]. simpl. destruct (p c) eqn:E; [|done].
  destruct (span p s) as [taken rest]. simpl in *. by rewrite E, IH.
Qed.

Lemma all_trimLeft (p : ascii -> bool) (ws : list string) (pending : nat) (s : string) :
  all p s = true -> all p (trimLeft ws pending s) = true.
Proof.
  revert pending. induction s as [|c s IH]; intros pending Hs; [done|].
  simpl in Hs. apply andb_true_iff in Hs as [Hc Hs]. cbn [trimLeft].
  destruct pending as [|n]; [|by apply IH].
  destruct (find _ ws) as [w|]; [by apply IH|]. simpl. by rewrite Hc, Hs.
Qed.

Lemma all_rev_app (p : ascii -> bool) (s acc : string) :
  all p (String.rev_app s acc) = all p s && all p acc.
Proof.
  revert acc. induction s as [|c s IH]; intros acc; [done|].
  simpl. rewrite IH. simpl. by destruct (p c), (all p s), (all p acc).
Qed.

Lemma all_rev (p : ascii -> bool) (s : string) : all p (String.rev s) = all p s.
Proof. unfold String.rev. rewrite all_rev_app. simpl. apply andb_true_r. Qed.

Lemma all_TrimSpace (p : ascii -> bool) (s : string) :
  all p s = true -> all p (TrimSpace s) = true.
Proof.
  intros Hs. unfold TrimSpace. rewrite all_rev. apply all_trimLeft.
  rewrite all_rev. by apply all_trimLeft.
Qed.

(** X20. The scope [ParseScope] returns never holds a double quote, a
    space, a line feed or a carriage return, whatever the query. *)
Theorem ParseScope_scope_clean (query : string) :
  all scopeChar (ParseScope query).2 = true.
Proof.
  unfold ParseScope.
  assert (forall cut value, FindStringSubmatch query = Some (cut, value) ->
                            all scopeChar value = true) as Hval.
  { induction query as [|c query IH]; intros cut value; [done|].
    cbn [FindStringSubmatch]. destruct (Go.HasPrefix (String c query) "scope:"); [|apply IH].
    destruct (span regexSpace _) as [white rest].
    pose proof (all_span scopeChar rest) as Hspan.
    destruct (span scopeChar rest) as [v rest']. by intros [= <- <-]. }
  destruct (FindStringSubmatch query) as [[cut value]|]; [|done].
  apply all_TrimSpace. by apply (Hval cut).
Qed.


Lemma span_app (p : ascii -> bool) (taken rest : string) :
  all p taken = true -> headNot p rest = true -> span p (taken +:+ rest) = (taken, rest).
Proof.
  intros Ht Hr. induction taken as [|c taken IH].
  - destruct rest as [|c rest]; [done|]. simpl in *.
    apply negb_true_iff in Hr. by rewrite Hr.
  - simpl in Ht. apply andb_true_iff in Ht as [Hc Ht].
    rewrite GoFacts.append_cons. simpl. by rewrite Hc, (IH Ht).
Qed.

(** [scope:] does not overlap itself: it cannot start inside a text
    without [scope:] and run into a [scope:] that follows the text. *)
Lemma scope_no_overlap (c : ascii) (pre t : string) :
  Contains (String c pre) "scope:" = false ->
  Go.HasPrefix (String c pre +:+ "scope:" +:+ t) "scope:" = false.
Proof.
  intros Hno. cbn [Contains] in Hno. apply orb_false_iff in Hno as [Hno _].
  destruct pre as [|c1 [|c2 [|c3 [|c4 [|c5 pre]]]]];
    rewrite ?GoFacts.append_cons, ?GoFacts.append_nil_l;
    cbn [Go.HasPrefix] in *;
    repeat match goal with
           | |- context [Ascii.eqb ?a ?b] => destruct (Ascii.eqb a b) eqn:?
           end; try done.
Qed.

Lemma FindStringSubmatch_skip (pre t : string) :
  Contains pre "scope:" = false ->
  FindStringSubmatch (pre +:+ "scope:" +:+ t) = FindStringSubmatch ("scope:" +:+ t).
Proof.
  induction pre as [|c pre IH]; intros Hno; [by rewrite GoFacts.append_nil_l|].
  pose proof (scope_no_overlap c pre t Hno) as Hp.
  rewrite GoFacts.append_cons in *. cbn [FindStringSubmatch]. rewrite Hp.
  apply IH. cbn [Contains] in Hno. by apply orb_false_iff in Hno as [_ Hno].
Qed.

(** X21. A query with a scope directive. Where [scope:] first stands in
    the query, followed by white space, then by a value of characters of
    the class, and then by the end or a character outside the class, the
    scope is that value, trimmed, and the query is what is left when
    every occurrence of the directive (keyword, white space and value) is
    removed, trimmed. *)
Theorem ParseScope_directive (pre white value rest : string) :
  Contains pre "scope:" = false ->
  all regexSpace white = true -> headNot regexSpace (value +:+ rest) = true ->
  all scopeChar value = true -> headNot scopeChar rest = true ->
  let cut := "scope:" +:+ white +:+ value in
  ParseScope (pre +:+ cut +:+ rest)
  = (TrimSpace (ReplaceAll (pre +:+ cut +:+ rest) cut ""), TrimSpace value).
Proof.
  intros Hpre Hwhite Hhead Hvalue Hrest cut. unfold ParseScope.
  assert (FindStringSubmatch (pre +:+ cut +:+ rest) = Some (cut, value)) as ->; [|done].
  subst cut. rewrite !GoFacts.append_assoc.
  rewrite FindStringSubmatch_skip by done.
  change ("scope:" +:+ ?t) with (String "s" (String "c" (String "o" (String "p"
                                   (String "e" (String ":" t)))))).
  cbn [FindStringSubmatch Go.HasPrefix Ascii.eqb Bool.eqb Go.skip].
  rewrite (span_app regexSpace white (value +:+ rest)) by done.
  by rewrite (span_app scopeChar value rest).
Qed.

Lemma ParseScope_directive_witness :
  ParseScope "name:report scope: s1!docs AND x" = ("name:report  AND x", "s1!docs").
Proof.
  pose proof (ParseScope_directive "name:report " " " "s1!docs" " AND x"
                eq_refl eq_refl eq_refl eq_refl eq_refl) as H.
  cbv zeta in H. etransitivity; [exact H|]. vm_compute. reflexivity.
Defined.

Lemma MakeRelativePath_dot (p : string) : Go.HasPrefix (Go.MakeRelativePath p) "." = true.
Proof. unfold Go.MakeRelativePath. by destruct (Go.cleanRooted p). Qed.

(** X23. [ResolveReference]: a reference it returns points at the root of
    the space of the reference it was given, and when it had to ask the
    gateway the path is relative. It returns neither a reference nor an
    error exactly when the gateway's [GetPath] answers without error but
    with a status that is not OK. *)
Theorem ResolveReference_outcomes (selectorNext : option error)
        (gatewayGetPath : ResourceId -> GetPathResponse * option error)
        (ref : Reference) (ri : ResourceId) :
  let result := ResolveReference selectorNext gatewayGetPath ref ri in
  (forall r, result.1 = Some r ->
     result.2 = None /\
     OpaqueId (RefResourceId r) = SpaceId (RefResourceId r) /\
     StorageId (RefResourceId r) = StorageId (RefResourceId ref) /\
     SpaceId (RefResourceId r) = SpaceId (RefResourceId ref) /\
     (r = ref \/ Go.HasPrefix (RefPath r) "." = true)) /\
  (result = (None, None) <->
     OpaqueId (RefResourceId ref) <> SpaceId (RefResourceId ref) /\
     selectorNext = None /\ (gatewayGetPath ri).2 = None /\
     isOK (StatusCode (gatewayGetPath ri).1) = false).
Proof.
  intros result. subst result. unfold ResolveReference.
  destruct (String.eqb_spec (OpaqueId (RefResourceId ref)) (SpaceId (RefResourceId ref)))
    as [E|E].
  { split; [|by split; [|intros [? _]]]. intros r [= <-]. simpl.
    repeat split; try done. by left. }
  destruct selectorNext as [err|].
  { split; [done|]. by split; [|intros (_ & ? & _)]. }
  destruct (gatewayGetPath ri) as [gpRes [err|]]; simpl.
  { split; [done|]. by split; [|intros (_ & _ & ? & _)]. }
  destruct (isOK (StatusCode gpRes)) eqn:Hok; simpl.
  - split; [|by split; [|intros (_ & _ & _ & ?)]].
    intros r [= <-]. simpl. repeat split; try done. right. apply MakeRelativePath_dot.
  - split; [done|]. by split.
Qed.

(** X22. The WebDAV permission letters. Without permissions the string is
    empty. [W] is written only for a file and only after [NV]; [CK] is
    written only for a folder, so never together with [W]; and [D] is
    written exactly when the permissions allow deleting. *)
Theorem convertToWebDAVPermissions_letters (isSecureViewer : ResourcePermissions -> bool)
        (isShared isMountpoint isDir : bool) :
  convertToWebDAVPermissions isSecureViewer isShared isMountpoint isDir None = "" /\
  forall p : ResourcePermissions,
    let s := convertToWebDAVPermissions isSecureViewer isShared isMountpoint isDir (Some p) in
    (Contains s "W" = true -> isDir = false /\ Contains s "NVW" = true) /\
    (Contains s "CK" = true -> isDir = true) /\
    (Contains s "W" && Contains s "CK" = false) /\
    Contains s "D" = Delete p.
Proof.
  split; [done|]. intros p s. subst s. unfold convertToWebDAVPermissions.
  destruct isShared, isMountpoint, isDir, (Delete p), (isSecureViewer p);
    cbn [negb andb];
    repeat match goal with
           | |- context [if ?c then _ else _] => destruct c
           end; vm_compute; intuition congruence.
Qed.

(** X24. Every event the service subscribes to is handled:
    [processEvent] marks it in progress first, tells the index what the
    event asks for, and as its last step, once and only once, either
    acknowledges the event or hands the acknowledgement to the debouncer
    of the space; it returns no error. Of the two upload events the
    service subscribes to one, by [asyncUploads], and handles both. An
    event of another type is marked in progress and never acknowledged. *)
Theorem processEvent_acknowledges (FormatResourceID : ResourceId -> string) :
  (forall (asyncUploads : bool) (t : EventType) (e : Event),
      t ∈ New asyncUploads -> typeOf e = Some t ->
      let actions := (processEvent FormatResourceID e).1 in
      (processEvent FormatResourceID e).2 = None /\
      head actions = Some InProgress /\
      acknowledges <$> last actions = Some true /\
      length (filter (fun a => acknowledges a = true) actions) = 1%nat) /\
  (forall (asyncUploads : bool) (t : EventType),
      t ∉ New asyncUploads <-> t = if asyncUploads then TFileUploaded else TUploadReady) /\
  (forall e : Event, typeOf e <> None ->
      length (filter (fun a => acknowledges a = true) (processEvent FormatResourceID e).1)
      = 1%nat) /\
  processEvent FormatResourceID OtherEvent = ([InProgress], None).
Proof.
  split; [|split; [|split]].
  - intros asyncUploads t e _ Ht. by destruct e.
  - intros asyncUploads t. unfold New. split.
    + intros Hnot. destruct asyncUploads, t; try done;
        exfalso; apply Hnot; repeat (first [by left|right]).
    + intros -> Hin. destruct asyncUploads;
        repeat (apply elem_of_cons in Hin as [?|Hin]; [done|]); by apply elem_of_nil in Hin.
  - intros e He. by destruct e.
  - done.
Qed.

Lemma processEvent_acknowledges_witness :
  (processEvent Sample.FormatResourceID
                Cases.trashed).1
  = [InProgress; TrashItem (mkResourceId "" "s1" "docs"); Debounce "s1"] /\
  length (filter (fun a => acknowledges a = true)
            (processEvent Sample.FormatResourceID
               Cases.trashed).1) = 1%nat.
Proof.
  split; [reflexivity|].
  refine (proj2 (proj2 (proj2 (proj1 (processEvent_acknowledges Sample.FormatResourceID)
            true TItemTrashed
            Cases.trashed _ eq_refl)))).
  vm_compute. by left.
Defined.
Example ParseScope_trailing :
  ParseScope "name:report scope:s1$s1!docs" = ("name:report", "s1$s1!docs").
Proof. vm_compute. reflexivity. Qed.

Example ParseScope_quoted :
  ParseScope ("scope: " +:+ bytes [34; 97; 32; 98; 34]%nat)
  = (bytes [34; 97; 32; 98; 34]%nat, "").
Proof. vm_compute. reflexivity. Qed.

Example TrimSpace_unicode :
  TrimSpace (bytes [194; 160; 32; 97; 32; 98; 226; 128; 168; 9]%nat) = "a b".
Proof. vm_compute. reflexivity. Qed.

End ServiceLaws.

Example Base_file : Go.Base "./docs/b.txt" = "b.txt".
Proof. reflexivity. Qed.

Example Base_trailing : Go.Base "./docs//" = "docs".
Proof. reflexivity. Qed.

Example MakeRelativePath_abs : Go.MakeRelativePath "/docs/b.txt" = "./docs/b.txt".
Proof. reflexivity. Qed.

Example MakeRelativePath_root : Go.MakeRelativePath "/" = ".".
Proof. reflexivity. Qed.

Example MakeRelativePath_rel : Go.MakeRelativePath "./a/../b/" = "./b".
Proof. reflexivity. Qed.

Example Replace1_first : Go.Replace1 "./a/x/a" "./a" "./b" = "./b/x/a".
Proof. reflexivity. Qed.

Example replaceAll_every : Go.replaceAll "aXbXc" "X" "--" = "a--b--c".
Proof. reflexivity. Qed.

Example TrimSuffix_slash : Go.TrimSuffix "./a/" "/" = "./a".
Proof. reflexivity. Qed.
